(** * Luxen booking forms: availability, slot filtering, pricing, submission

    A shallow embedding of the core logic of the booking pages
    ([home-clean/page.tsx], [office-clean/page.tsx] and their older
    revisions) together with the properties the specification states
    about them.

    Modelling conventions.
    - A JavaScript number is an exact rational or [NaN]; integer-valued
      results of [parseInt], [Math.round], [Math.floor] live in
      [option Z] with [None] for [NaN].  Infinities, negative zero and
      binary rounding are not represented.
    - A JavaScript string is a [string] of 8-bit characters; white space
      and letter case are those of ASCII.
    - A Firestore document is a finite map from field names to dynamic
      values; a rejected promise or a thrown exception is the [Throw]
      outcome of the [result] monad.
    - A [Date] is its local wall-clock time value in milliseconds (a fixed
      UTC offset is folded into the clock, there are no daylight-saving
      jumps), and all clock readings of one computation are the same
      instant [now]. *)

From Stdlib Require Import Ascii QArith Qround Qminmax.
From stdpp Require Import gmap strings list pretty sorting.

Close Scope Q_scope.
Local Open Scope Z_scope.

(* ===================================================================== *)
(** * Part I.  Definitions                                                 *)
(* ===================================================================== *)

(** ** The JavaScript runtime as far as the pages use it *)

Module JS.

(** *** Strings *)

Fixpoint str_length (s : string) : nat :=
  match s with
  | "" => 0%nat
  | String _ s' => S (str_length s')
  end.

Fixpoint str_repeat (c : ascii) (n : nat) : string :=
  match n with
  | O => ""
  | S n' => String c (str_repeat c n')
  end.

(** [s.padStart(n, c)] for a one-character filler. *)
Definition padStart (n : nat) (c : ascii) (s : string) : string :=
  str_repeat c (n - str_length s) +:+ s.

(** [s.split(sep)] for a one-character separator. *)
Fixpoint split (sep : ascii) (s : string) : list string :=
  match s with
  | "" => [""]
  | String c s' =>
      if Ascii.eqb c sep then "" :: split sep s'
      else match split sep s' with
           | [] => [String c ""]
           | w :: ws => String c w :: ws
           end
  end.

Fixpoint str_filter (p : ascii → bool) (s : string) : string :=
  match s with
  | "" => ""
  | String c s' =>
      if p c then String c (str_filter p s') else str_filter p s'
  end.

Definition is_digit (c : ascii) : bool :=
  match Ascii.is_nat c with Some _ => true | None => false end.

(** [s.startsWith(p)] *)
Fixpoint startsWith (p s : string) : bool :=
  match p, s with
  | "", _ => true
  | String a p', String b s' => Ascii.eqb a b && startsWith p' s'
  | String _ _, "" => false
  end.

(** [s.includes(p)] *)
Fixpoint includes (p s : string) : bool :=
  startsWith p s
  || match s with "" => false | String _ s' => includes p s' end.

(** [s.slice(n)] for [n >= 0]. *)
Fixpoint slice (n : nat) (s : string) : string :=
  match n, s with
  | O, _ => s
  | S n', String _ s' => slice n' s'
  | S _, "" => ""
  end.

Fixpoint trimStart (s : string) : string :=
  match s with
  | "" => ""
  | String c s' => if Ascii.is_space c then trimStart s' else s
  end.

Definition trim (s : string) : string :=
  String.rev (trimStart (String.rev (trimStart s))).

Definition upper (c : ascii) : ascii :=
  let n := Ascii.N_of_ascii c in
  if ((97 <=? n) && (n <=? 122))%N then Ascii.ascii_of_N (n - 32) else c.

Definition lower (c : ascii) : ascii :=
  let n := Ascii.N_of_ascii c in
  if ((65 <=? n) && (n <=? 90))%N then Ascii.ascii_of_N (n + 32) else c.

Fixpoint toLowerCase (s : string) : string :=
  match s with
  | "" => ""
  | String c s' => String (lower c) (toLowerCase s')
  end.

(** *** Numbers *)

(** An integer-valued number; [None] is [NaN]. *)
Abbreviation int := (option Z).

Inductive number := NaN | Num (q : Q).

Definition of_int (i : int) : number :=
  match i with Some z => Num (inject_Z z) | None => NaN end.

Definition lift2 (f : Q → Q → Q) (x y : number) : number :=
  match x, y with
  | Num a, Num b => Num (f a b)
  | _, _ => NaN
  end.

Definition num_add := lift2 Qplus.
Definition num_sub := lift2 Qminus.
Definition num_mul := lift2 Qmult.

(** [Math.max(x, y)], [Math.min(x, ...ys)]: [NaN] is contagious. *)
Definition Math_max := lift2 Qmax.
Definition Math_min (x : number) (ys : list number) : number :=
  foldl (lift2 Qmin) x ys.

(** [x < y] and [x >= y]; any comparison with [NaN] is false. *)
Definition num_lt (x y : number) : bool :=
  match x, y with
  | Num a, Num b => negb (Qle_bool b a)
  | _, _ => false
  end.
Definition num_ge (x y : number) : bool :=
  match x, y with
  | Num a, Num b => Qle_bool b a
  | _, _ => false
  end.

Definition isFinite (x : number) : bool :=
  match x with Num _ => true | NaN => false end.

(** [Math.round(q)]: nearest integer, ties towards plus infinity. *)
Definition Math_round (q : Q) : Z := Qfloor (q + (1 # 2))%Q.

(** Integer arithmetic with [NaN]. *)
Definition iadd (x y : int) : int :=
  a ← x; b ← y; Some (a + b).
Definition imul (x y : int) : int :=
  a ← x; b ← y; Some (a * b).

(** Leading decimal digits of [s], most significant first. *)
Fixpoint digits (acc : int) (s : string) : int :=
  match s with
  | "" => acc
  | String c s' =>
      match Ascii.is_nat c with
      | Some d => digits (Some (10 * default 0 acc + Z.of_nat d)) s'
      | None => acc
      end
  end.

(** [parseInt(s, 10)] *)
Definition parseInt (s : string) : int :=
  match trimStart s with
  | String "-" r => Z.opp <$> digits None r
  | String "+" r => digits None r
  | r => digits None r
  end.

(** [String(i)] for an integer-valued number. *)
Definition String_ (i : int) : string :=
  match i with Some z => pretty z | None => "NaN" end.

(** *** Dynamic values *)

#[warnings="-register-all"]
Inductive value :=
| Undefined
| Null
| Bool (b : bool)
| Number_ (n : number)
| Str (s : string)
| Object (fields : gmap string value).

Abbreviation object := (gmap string value).

(** [o[k]] *)
Definition get (o : object) (k : string) : value :=
  default Undefined (o !! k).

(** [Boolean(v)], also written [!!v]. *)
Definition truthy (v : value) : bool :=
  match v with
  | Undefined | Null => false
  | Bool b => b
  | Number_ NaN => false
  | Number_ (Num q) => negb (Qeq_bool q 0%Q)
  | Str s => negb (bool_decide (s = ""))
  | Object _ => true
  end.

(** [a ?? b] *)
Definition nullish (a b : value) : value :=
  match a with Undefined | Null => b | _ => a end.

(** [a || b] *)
Definition or_else (a b : value) : value :=
  if truthy a then a else b.

(** The conversion of a string to a number is the runtime's; the
    development is parametric in it. *)
Class Runtime := { StringToNumber : string → number }.

(** [Number(v)] *)
Definition Number `{Runtime} (v : value) : number :=
  match v with
  | Undefined => NaN
  | Null => Num 0%Q
  | Bool b => Num (if b then 1%Q else 0%Q)
  | Number_ n => n
  | Str s => StringToNumber s
  | Object _ => NaN
  end.

(** *** Exceptions and rejected promises *)

Inductive exn := TypeError | FetchError.

Inductive result (A : Type) :=
| Ok (a : A)
| Throw (e : exn).
Global Arguments Ok {A} a.
Global Arguments Throw {A} e.

Global Instance result_ret : MRet result := λ A a, Ok a.
Global Instance result_bind : MBind result := λ A B f m,
  match m with Ok a => f a | Throw e => Throw e end.

(** [try { body } catch { handler }] where both produce a value. *)
Definition try_catch {A} (body : result A) (handler : exn → A) : A :=
  match body with Ok a => a | Throw e => handler e end.

(** [xs.some(f)] for a callback that may throw. *)
Fixpoint some {A} (f : A → result bool) (xs : list A) : result bool :=
  match xs with
  | [] => Ok false
  | x :: xs' => b ← f x; if b : bool then Ok true else some f xs'
  end.

End JS.

(** ** [Date] objects *)

Module Date.

Definition msPerHour : Z := 3600000.
Definition msPerDay : Z := 86400000.

(** Day number and time within the day of a time value. *)
Definition Day (t : Z) : Z := t / msPerDay.
Definition TimeWithinDay (t : Z) : Z := t mod msPerDay.

(** Year, month (1..12) and day of month of a day number counted from
    1 January 1970, in the proleptic Gregorian calendar. *)
Definition civil (z : Z) : Z * Z * Z :=
  let z' := z + 719468 in
  let era := z' / 146097 in
  let doe := z' mod 146097 in
  let yoe := (doe - doe / 1460 + doe / 36524 - doe / 146096) / 365 in
  let doy := doe - (365 * yoe + yoe / 4 - yoe / 100) in
  let mp := (5 * doy + 2) / 153 in
  let d := doy - (153 * mp + 2) / 5 + 1 in
  let m := if mp <? 10 then mp + 3 else mp - 9 in
  (yoe + era * 400 + (if m <=? 2 then 1 else 0), m, d).

(** The day number of day [d] of month [m] of year [y]; [d] may lie
    outside the month, as [setDate] allows. *)
Definition MakeDay (y m d : Z) : Z :=
  let y' := if m <=? 2 then y - 1 else y in
  let era := y' / 400 in
  let yoe := y' mod 400 in
  let doy := (153 * (if 2 <? m then m - 3 else m + 9) + 2) / 5 + d - 1 in
  let doe := yoe * 365 + yoe / 4 - yoe / 100 + doy in
  era * 146097 + doe - 719468.

Definition getFullYear (t : Z) : Z := (civil (Day t)).1.1.
Definition getMonth (t : Z) : Z := (civil (Day t)).1.2 - 1.
Definition getDate (t : Z) : Z := (civil (Day t)).2.
(** 0 is Sunday; 1 January 1970 was a Thursday. *)
Definition getDay (t : Z) : Z := (Day t + 4) mod 7.

(** [t.setHours(h, 0, 0, 0)] *)
Definition setHours (t h : Z) : Z := Day t * msPerDay + h * msPerHour.

(** [t.setDate(n)] *)
Definition setDate (t n : Z) : Z :=
  MakeDay (getFullYear t) (getMonth t + 1) n * msPerDay + TimeWithinDay t.

(** [new Date(x)] for a numeric [x], as a time value: the fraction of a
    millisecond is dropped, [NaN] gives an invalid date. *)
Definition TimeClip (x : JS.number) : JS.number :=
  match x with
  | JS.NaN => JS.NaN
  | JS.Num q =>
      JS.Num (inject_Z (if Qle_bool 0 q then Qfloor q else Qceiling q))
  end.

(** [t.toLocaleDateString('en-GB', { weekday: 'long' })] *)
Definition weekdayLong (t : Z) : string :=
  match getDay t with
  | 0 => "Sunday" | 1 => "Monday" | 2 => "Tuesday" | 3 => "Wednesday"
  | 4 => "Thursday" | 5 => "Friday" | _ => "Saturday"
  end.

End Date.

(** ** Helpers shared by every page

    Each page file carries its own copy of these functions; the copies
    agree, so they are embedded once. *)

Import JS.

Record DayAvail := {
  available : bool;
  start : value;
  end_ : value;
}.

Definition titleCaseDay (lower : string) : string :=
  match lower with
  | "" => ""
  | String c rest => String (upper c) rest
  end.

Definition getDayAvail (availObj : value) (weekdayLower : string)
    : option DayAvail :=
  match availObj with
  | Object obj =>
      match nullish (get obj weekdayLower)
                    (get obj (titleCaseDay weekdayLower)) with
      | Object aRec =>
          Some {| available := truthy (get aRec "available");
                  start := or_else (get aRec "startTime")
                                   (or_else (get aRec "from") (Str "07:00"));
                  end_ := or_else (get aRec "endTime")
                                  (or_else (get aRec "to") (Str "20:00")) |}
      | _ => None
      end
  | _ => None
  end.

Definition ALL_TIMES : list string :=
  ["7"; "8"; "9"; "10"; "11"; "12"; "13"; "14"; "15"; "16"; "17"; "18";
   "19"; "20"].

Definition addHoursToTime (hhmm : string) (hoursFloat : number) : string :=
  let parts := split ":" hhmm in
  let hStr := default "" (parts !! 0%nat) in
  let mStr := default "" (parts !! 1%nat) in
  let minutes :=
    iadd (imul (parseInt hStr) (Some 60))
         (parseInt (if bool_decide (mStr = "") then "0" else mStr)) in
  let hours := match hoursFloat with Num q => q | NaN => 0%Q end in
  let minutes := iadd minutes (Some (Math_round (hours * 60)%Q)) in
  let endH := (λ m, m / 60) <$> minutes in
  let endM := (λ m, Z.rem m 60) <$> minutes in
  padStart 2 "0" (String_ endH) +:+ ":" +:+ padStart 2 "0" (String_ endM).

Definition ymd (d : Z) : string :=
  let y := Date.getFullYear d in
  let m := padStart 2 "0" (pretty (Date.getMonth d + 1)) in
  let day := padStart 2 "0" (pretty (Date.getDate d)) in
  pretty y +:+ "-" +:+ m +:+ "-" +:+ day.

Definition roundUpToHalf (x : Q) : Q :=
  (inject_Z (Qceiling (x * 2)) / 2)%Q.

(** [x || 0] for a number. *)
Definition or_zero (x : number) : Q :=
  match x with
  | Num q => if Qeq_bool q 0 then 0%Q else q
  | NaN => 0%Q
  end.

(** [Math.round(x * 100) / 100] *)
Definition round2 (x : Q) : Q :=
  (inject_Z (Math_round (x * 100)) / 100)%Q.

(** A string is not an object with a [split] method unless it is a
    string: everything else raises a [TypeError]. *)
Definition timeToMinutes (t : value) : result int :=
  match t with
  | Str s =>
      let parts := split ":" s in
      let hh := default "" (parts !! 0%nat) in
      let mm := default "0" (parts !! 1%nat) in
      Ok (iadd (imul (parseInt hh) (Some 60)) (parseInt mm))
  | _ => Throw TypeError
  end.

Definition within (x a b : number) : bool := num_ge x a && num_lt x b.

Definition toE164UK (raw : option string) : option string :=
  match raw with
  | None | Some "" => None
  | Some raw =>
      let digits := str_filter is_digit raw in
      if startsWith "0" digits && (10 <=? str_length digits)%nat
      then Some ("+44" +:+ slice 1 digits)
      else if startsWith "44" digits then Some ("+" +:+ digits)
      else if startsWith "+" (trim raw) then Some (trim raw)
      else Some ("+" +:+ digits)
  end.

(** [isWeekend(date)] of the office page; [isWeekendYmd] of the
    promotional page reads the same day of the week back from the
    formatted date. *)
Definition isWeekend (date : option Z) : bool :=
  match date with
  | None => false
  | Some d => (Date.getDay d =? 0) || (Date.getDay d =? 6)
  end.

(** ** Page state and the stores it reads *)

Record PageState := {
  selectedDate : option Z;
  selectedTime : string;
  availableTimes : list string;
  timesLoading : bool;
  blockedDates : gset string;
}.

(** One snapshot of the three collections the pages read.  Every read
    is a promise that may be rejected. *)
Record Firestore := {
  (** [getDocs(collection(db, 'staff'))] *)
  staffDocs : result (list object);
  (** [getDoc(doc(db, 'unavailability', key))]; [None] when the
      snapshot does not exist. *)
  unavailabilityDoc : string → result (option object);
  (** [getDocs(query(collection(db, 'bookings'), where('date', '==', key)))] *)
  bookingDocs : string → result (list object);
}.

Section Availability.
Context `{Runtime}.

(** [s.active !== false] *)
Definition isActive (s : object) : bool :=
  match get s "active" with Bool false => false | _ => true end.

(** [getDayAvail(s.availability, weekday)?.available === true] *)
Definition availableOn (weekday : string) (s : object) : bool :=
  match getDayAvail (get s "availability") weekday with
  | Some av => available av
  | None => false
  end.

(** [toLocaleDateString('en-GB', { weekday: 'long' }).toLowerCase()] *)
Definition weekdayOf (t : Z) : string := toLowerCase (Date.weekdayLong t).

(** *** Blocked-date scanner *)

Definition globalMinNotice (staff : list object) : number :=
  let notice (s : object) :=
    Number (nullish (get s "minNoticeHours") (Number_ (Num 12))) in
  match staff with
  | [] => Num 12
  | s :: rest => Math_min (notice s) (notice <$> rest)
  end.

(** The date visited by iteration [i] of the scan. *)
Definition scanDate (now i : Z) : Z :=
  let today0 := Date.setHours now 0 in
  Date.setHours (Date.setDate now (Date.getDate today0 + i)) 0.

(** One iteration of the scan: does it add the key of its date? *)
Definition scanBlocks (now : Z) (staff : list object) (i : Z) : bool :=
  let today0 := Date.setHours now 0 in
  let dt := scanDate now i in
  let weekday := weekdayOf dt in
  if dt <? today0 then true
  else if negb (existsb (availableOn weekday) staff) then true
  else
    let cutoff :=
      Date.TimeClip
        (num_add (Num (inject_Z now))
             (num_mul (globalMinNotice staff) (Num 3600000))) in
    let endOfDay := Date.setHours dt 20 in
    num_lt (Num (inject_Z endOfDay)) cutoff.

Definition scanStep (now : Z) (staff : list object)
    (blocked : gset string) (i : Z) : gset string :=
  if scanBlocks now staff i then {[ ymd (scanDate now i) ]} ∪ blocked
  else blocked.

Definition computeBlockedDays (now : Z) (db : Firestore) (st : PageState)
    : PageState :=
  let blocked :=
    try_catch
      (staffSnap ← staffDocs db;
       let staff := List.filter isActive staffSnap in
       Ok (foldl (scanStep now staff) ∅ (seqZ (-30) 90)))
      (λ _, ∅) in
  {| selectedDate := selectedDate st;
     selectedTime := selectedTime st;
     availableTimes := availableTimes st;
     timesLoading := timesLoading st;
     blockedDates := blocked |}.

(** *** Booking conflict filter *)

(** The hours an override document marks as booked. *)
Definition bookedLegacy (snap : option object) : gset string :=
  match snap with
  | None => ∅
  | Some data =>
      match get data "bookedTimeSlots" with
      | Object booked =>
          dom (filter (λ kv, truthy kv.2 = true) booked)
      | _ =>
          list_to_set
            (List.filter (λ k, truthy (get data k))
                         ((λ h, pretty h +:+ ":00") <$> seqZ 7 14))
      end
  end.

Definition minNotice (s : object) (rest : list object) : number :=
  let notice (s : object) :=
    let v := Number (get s "minNoticeHours") in
    if isFinite v then v else Num 12 in
  Math_min (notice s) (notice <$> rest).

(** Does booking [b], widened by [buffer] on both sides, contain the
    slot? *)
Definition collidesWith (slotMins : int) (buffer : number) (b : object)
    : result bool :=
  if negb (truthy (get b "startTime")) || negb (truthy (get b "endTime"))
  then Ok false
  else
    bs ← timeToMinutes (get b "startTime");
    be ← timeToMinutes (get b "endTime");
    let bsExp := Math_max (Num 0) (num_sub (of_int bs) buffer) in
    let beExp := num_add (of_int be) buffer in
    Ok (within (of_int slotMins) bsExp beExp).

(** The inner loop over the day's staff; the result is [atLeastOne]. *)
Fixpoint staffLoop (weekday : string) (bookings : list object)
    (slotMins : int) (dayStaff : list object) : result bool :=
  match dayStaff with
  | [] => Ok false
  | s :: rest =>
      match getDayAvail (get s "availability") weekday with
      | None => staffLoop weekday bookings slotMins rest
      | Some av =>
          if negb (available av)
          then staffLoop weekday bookings slotMins rest
          else
            startM ← timeToMinutes (start av);
            endM ← timeToMinutes (end_ av);
            if negb (within (of_int slotMins) (of_int startM) (of_int endM))
            then staffLoop weekday bookings slotMins rest
            else
              let buffer :=
                Number (nullish (get s "travelBufferMins")
                                (Number_ (Num 30))) in
              collides ← some (collidesWith slotMins buffer) bookings;
              if collides : bool
              then staffLoop weekday bookings slotMins rest
              else Ok true
      end
  end.

(** The outer loop over the candidate keys; the result is [refined]. *)
Fixpoint slotLoop (date : Z) (noticeCutoff : number) (weekday : string)
    (bookings dayStaff : list object) (candidate : list string)
    : result (list string) :=
  match candidate with
  | [] => Ok []
  | k :: ks =>
      let hh := default "" (split ":" k !! 0%nat) in
      let slotDt :=
        of_int ((λ h, Date.setHours date h) <$> parseInt hh) in
      if num_lt slotDt noticeCutoff
      then slotLoop date noticeCutoff weekday bookings dayStaff ks
      else
        slotMins ← timeToMinutes (Str k);
        atLeastOne ← staffLoop weekday bookings slotMins dayStaff;
        refined ← slotLoop date noticeCutoff weekday bookings dayStaff ks;
        Ok (if atLeastOne : bool then hh :: refined else refined)
  end.

(** The body of the [try] block of [loadTimes]: the list handed to
    [setAvailableTimes]. *)
Definition loadTimesBody (now : Z) (db : Firestore) (st : PageState)
    : result (list string) :=
  match selectedDate st with
  | None => Ok []
  | Some date =>
      let key := ymd date in
      if bool_decide (key ∈ blockedDates st) then Ok []
      else
        snap ← unavailabilityDoc db key;
        let booked := bookedLegacy snap in
        bookings ← bookingDocs db key;
        staffSnap ← staffDocs db;
        let staff := List.filter isActive staffSnap in
        let weekday := weekdayOf date in
        match List.filter (availableOn weekday) staff with
        | [] => Ok []
        | s :: rest =>
            let noticeCutoff :=
              Date.TimeClip
                (num_add (Num (inject_Z now))
                     (num_mul (minNotice s rest) (Num 3600000))) in
            let candidate :=
              List.filter (λ k, negb (bool_decide (k ∈ booked)))
                          ((λ h, h +:+ ":00") <$> ALL_TIMES) in
            slotLoop date noticeCutoff weekday bookings (s :: rest)
                     candidate
        end
  end.

Definition loadTimes (now : Z) (db : Firestore) (st : PageState)
    : PageState :=
  {| selectedDate := selectedDate st;
     selectedTime := "";
     availableTimes := try_catch (loadTimesBody now db st) (λ _, []);
     timesLoading := false;
     blockedDates := blockedDates st |}.

End Availability.

(** ** Quotes, persisted records and side effects *)

Record Quote := {
  estimatedHours : Q;
  baseEstimatedHours : Q;
  teamApplied : bool;
  addOnsTotal : Q;
  suppliesFee : Q;
  labour : Q;
  totalPrice : Q;
}.

Record Address := {
  line1 : string;
  line2 : string;
  town : string;
  county : string;
  postcode : string;
}.

(** The fields of the webhook payload and of the persisted booking that
    the properties below speak about; the descriptive fields (room
    summaries, pretty-printed dates, notes) are left out. *)
Record ZapPayload := {
  zOrderId : string;
  zCustomerName : string;
  zCustomerEmail : string;
  zCustomerPhone : string;
  zBookingDate : string;
  zBookingTime : string;
  zEstimatedHours : Q;
  zBaseEstimatedHours : Q;
  zTwoCleaners : bool;
  zTotalPrice : Q;
}.

Record BookingDoc := {
  payload : ZapPayload;
  address : Address;
  date : string;
  startTime : string;
  endTime : string;
  labourRate : Q;
  docSuppliesFee : Q;
  docAddOnsTotal : Q;
  labourCharge : Q;
  status : string;
}.

Record FinanceEntry := {
  entryType : string;
  entryName : string;
}.

(** What a submission does to the outside world, in program order.
    Every awaited call is taken to resolve. *)
Inductive effect :=
| Alert (msg : string)
| SetDoc (collection id : string) (doc : BookingDoc)
| Post (url : string) (body : ZapPayload)
| AddDoc (collection : string) (entry : FinanceEntry).

(** [createOrderId()], given the value [rnd] of [Math.random()]. *)
Definition createOrderId (rnd : Q) : string :=
  "LUX" +:+ pretty (Qfloor (10000 + rnd * 90000)%Q).

Definition CLEAN_MULTIPLIER (level : string) : option Q :=
  if bool_decide (level = "quite-clean") then Some (9 # 10)%Q
  else if bool_decide (level = "average") then Some 1%Q
  else if bool_decide (level = "quite-dirty") then Some (5 # 4)%Q
  else if bool_decide (level = "filthy") then Some (8 # 5)%Q
  else None.

(** [form.cleanliness ? (CLEAN_MULTIPLIER[form.cleanliness] ?? 1) : 1] *)
Definition cleanMult (cleanliness : string) : Q :=
  if bool_decide (cleanliness = "") then 1%Q
  else default 1%Q (CLEAN_MULTIPLIER cleanliness).

(** [x > y] on finite numbers. *)
Definition Qgtb (x y : Q) : bool := negb (Qle_bool x y).

Record Room := { typeId : string; sizeId : string }.

Record Extras := {
  fridge : Q;
  freezer : Q;
  dishwasher : Q;
  cupboards : Q;
}.

(** [TABLE.find((e) => e.id === id)?.field ?? 0] *)
Definition findWeight (table : list (string * Q)) (id : string) : Q :=
  default 0%Q (snd <$> List.find (λ e, bool_decide (e.1 = id)) table).

(** ** The residential page, first revision ([home-clean/page.tsx]) *)

Module HomeCleanV1.

Definition HOURLY_RATE : Q := 28.
Definition MIN_HOURS : Q := 2.
Definition SUPPLIES_FEE : Q := 5.
Definition TEAM_THRESHOLD_HOURS : Q := 4.
Definition TEAM_FACTOR : Q := 16 # 10.

Record Form := {
  customerName : string;
  customerEmail : string;
  customerPhone : string;
  bedrooms : string;
  livingRooms : string;
  kitchens : string;
  bathrooms : string;
  utilityRooms : string;
  cleanliness : string;
  additionalRooms : list string;
  addOns : list string;
  products : string;
  addressLine1 : string;
  addressLine2 : string;
  formTown : string;
  formCounty : string;
  formPostcode : string;
  serviceType : string;
}.

Definition addOnPrice (key : string) : Q :=
  if bool_decide (key = "Fridge (£20)") then 20
  else if bool_decide (key = "Freezer (£20)") then 20
  else if bool_decide (key = "Oven (£40)") then 40
  else if bool_decide (key = "Ironing (£30)") then 30
  else if bool_decide (key = "Blind cleaning (£20)") then 20
  else 0.

Definition pricing (form : Form) : Quote :=
  let n (s : string) : number :=
    of_int (if bool_decide (s = "") then Some 0 else parseInt s) in
  let additionalRoomsCount :=
    Num (inject_Z (Z.of_nat (List.length (additionalRooms form)))) in
  let rawHours :=
    num_add (num_add (num_add (num_add (num_add
      (num_mul (n (bedrooms form)) (Num 1))
      (num_mul (n (livingRooms form)) (Num 1)))
      (num_mul (n (kitchens form)) (Num 1)))
      (num_mul (n (bathrooms form)) (Num 1)))
      (num_mul (n (utilityRooms form)) (Num (1 # 2))))
      (num_mul additionalRoomsCount (Num (1 # 2))) in
  let mult := cleanMult (cleanliness form) in
  let rawHours := num_mul rawHours (Num mult) in
  let baseEstimatedHours :=
    Qmax MIN_HOURS (roundUpToHalf (or_zero rawHours)) in
  let teamApplied := Qgtb baseEstimatedHours TEAM_THRESHOLD_HOURS in
  let effectiveHoursUnrounded :=
    if teamApplied then (baseEstimatedHours / TEAM_FACTOR)%Q
    else baseEstimatedHours in
  let effectiveHours :=
    Qmax MIN_HOURS (roundUpToHalf effectiveHoursUnrounded) in
  let addOnsTotal :=
    foldl (λ sum key, (sum + addOnPrice key)%Q) 0%Q (addOns form) in
  let suppliesFee :=
    if bool_decide (products form = "bring") then SUPPLIES_FEE else 0%Q in
  let labour := (effectiveHours * HOURLY_RATE)%Q in
  let totalPrice := round2 (labour + addOnsTotal + suppliesFee) in
  {| estimatedHours := effectiveHours;
     baseEstimatedHours := baseEstimatedHours;
     teamApplied := teamApplied;
     addOnsTotal := addOnsTotal;
     suppliesFee := suppliesFee;
     labour := labour;
     totalPrice := totalPrice |}.

(** [ZapUrl] is [None] when the global is not declared. *)
Definition onSubmit (ZapUrl : option string) (rnd : Q) (st : PageState)
    (form : Form) : list effect :=
  match selectedDate st with
  | None => [Alert "Please select date and time."]
  | Some date =>
  if bool_decide (selectedTime st = "")
  then [Alert "Please select date and time."]
  else if bool_decide (customerName form = "")
          || bool_decide (customerEmail form = "")
          || bool_decide (customerPhone form = "")
  then [Alert "Please fill name, email, and phone."]
  else
    let quote := pricing form in
    let orderId := createOrderId rnd in
    let bookingDate := ymd date in
    let bookingTime := selectedTime st +:+ ":00" in
    let zapPayload :=
      {| zOrderId := orderId;
         zCustomerName := customerName form;
         zCustomerEmail := customerEmail form;
         zCustomerPhone := customerPhone form;
         zBookingDate := bookingDate;
         zBookingTime := bookingTime;
         zEstimatedHours := estimatedHours quote;
         zBaseEstimatedHours := baseEstimatedHours quote;
         zTwoCleaners := teamApplied quote;
         zTotalPrice := totalPrice quote |} in
    let endTime :=
      addHoursToTime bookingTime (Num (zEstimatedHours zapPayload)) in
    (match ZapUrl with
     | Some url =>
         if (10 <? str_length url)%nat then [Post url zapPayload] else []
     | None => []
     end)
    ++ [SetDoc "bookings" orderId
          {| payload := zapPayload;
             address := {| line1 := addressLine1 form;
                           line2 := addressLine2 form;
                           town := formTown form;
                           county := formCounty form;
                           postcode := formPostcode form |};
             date := bookingDate;
             startTime := bookingTime;
             endTime := endTime;
             labourRate := HOURLY_RATE;
             docSuppliesFee := suppliesFee quote;
             docAddOnsTotal := addOnsTotal quote;
             labourCharge := labour quote;
             status := "confirmed" |};
        Alert "Booking submitted!"]
  end.

End HomeCleanV1.

(** The form of the three later pages. *)
Record Form := {
  customerName : string;
  customerEmail : string;
  customerPhone : string;
  cleanliness : string;
  products : string;
  addressLine1 : string;
  addressLine2 : string;
  formTown : string;
  formCounty : string;
  formPostcode : string;
  serviceType : string;
}.

Definition formAddress (form : Form) : Address :=
  {| line1 := addressLine1 form;
     line2 := addressLine2 form;
     town := formTown form;
     county := formCounty form;
     postcode := formPostcode form |}.

Definition ADDON_PRICES : Extras :=
  {| fridge := 20; freezer := 25; dishwasher := 10; cupboards := 0 |}.

Definition ADDON_HOURS : Extras :=
  {| fridge := 1 # 2; freezer := 3 # 4; dishwasher := 1 # 4;
     cupboards := 1 # 4 |}.

(** [extras.fridge * T.fridge + extras.freezer * T.freezer + ...] *)
Definition extrasTimes (extras T : Extras) : Q :=
  (fridge extras * fridge T + freezer extras * freezer T
   + dishwasher extras * dishwasher T + cupboards extras * cupboards T)%Q.

(** ** The office page, first revision ([office-clean/page.tsx]) *)

Module OfficeCleanV1.

Definition HOURLY_RATE : Q := 28.
Definition MIN_HOURS : Q := 2.
Definition SUPPLIES_FEE : Q := 5.
Definition TEAM_THRESHOLD_HOURS : Q := 6.
Definition TEAM_FACTOR : Q := 17 # 10.

Definition SIZE_OPTIONS : list (string * Q) :=
  [("s", 1 # 2); ("m", 8 # 10); ("l", 11 # 10); ("xl", 16 # 10)]%Q.

Definition ROOM_TYPES : list (string * Q) :=
  [("open-plan", 12 # 10); ("meeting", 1); ("private-office", 8 # 10);
   ("reception", 9 # 10); ("corridor", 1 # 2); ("storage", 6 # 10)]%Q.

Definition PER_CUBICLE_HOURS : Q := 35 # 100.

(** [KITCHEN_SIZE_WEIGHT[id]]: a missing key reads as [undefined],
    which turns the product into [NaN]. *)
Definition KITCHEN_SIZE_WEIGHT (id : string) : number :=
  if bool_decide (id = "s") then Num (1 # 2)
  else if bool_decide (id = "m") then Num (8 # 10)
  else if bool_decide (id = "l") then Num (11 # 10)
  else if bool_decide (id = "xl") then Num (16 # 10)
  else NaN.

Definition pricing (rooms : list Room) (kitchensCount : Q)
    (kitchenSizeId : string) (toiletRoomsCount avgCubicles : Q)
    (extras : Extras) (form : Form) : Quote :=
  let roomHours :=
    foldl (λ roomHours r,
             let sizeW := findWeight SIZE_OPTIONS (sizeId r) in
             let typeM := findWeight ROOM_TYPES (typeId r) in
             (roomHours + sizeW * typeM)%Q)
          0%Q rooms in
  let kitchenW :=
    if bool_decide (kitchenSizeId = "") then Num 0
    else KITCHEN_SIZE_WEIGHT kitchenSizeId in
  let kitchensHours := num_mul (Num kitchensCount) kitchenW in
  let totalCubicles := (toiletRoomsCount * Qmax 1 avgCubicles)%Q in
  let toiletsHours := (totalCubicles * PER_CUBICLE_HOURS)%Q in
  let raw :=
    num_add (num_add (Num roomHours) kitchensHours) (Num toiletsHours) in
  let mult := cleanMult (cleanliness form) in
  let raw := num_mul raw (Num mult) in
  let baseEstimatedHours := Qmax MIN_HOURS (roundUpToHalf (or_zero raw)) in
  let teamApplied := Qgtb baseEstimatedHours TEAM_THRESHOLD_HOURS in
  let effectiveUnrounded :=
    if teamApplied then (baseEstimatedHours / TEAM_FACTOR)%Q
    else baseEstimatedHours in
  let estimatedHours := Qmax MIN_HOURS (roundUpToHalf effectiveUnrounded) in
  let addOnsTotal := extrasTimes extras ADDON_PRICES in
  let suppliesFee :=
    if bool_decide (products form = "bring") then SUPPLIES_FEE else 0%Q in
  let labour := (estimatedHours * HOURLY_RATE)%Q in
  let totalPrice := round2 (labour + addOnsTotal + suppliesFee) in
  {| estimatedHours := estimatedHours;
     baseEstimatedHours := baseEstimatedHours;
     teamApplied := teamApplied;
     addOnsTotal := addOnsTotal;
     suppliesFee := suppliesFee;
     labour := labour;
     totalPrice := totalPrice |}.

Definition onSubmit (rnd : Q) (st : PageState) (rooms : list Room)
    (kitchensCount : Q) (kitchenSizeId : string)
    (toiletRoomsCount avgCubicles : Q) (extras : Extras) (form : Form)
    : list effect :=
  match selectedDate st with
  | None => [Alert "Please select date and time."]
  | Some date =>
  if bool_decide (selectedTime st = "")
  then [Alert "Please select date and time."]
  else if bool_decide (customerName form = "")
          || bool_decide (customerEmail form = "")
          || bool_decide (customerPhone form = "")
  then [Alert "Please fill name, email, and phone."]
  else
    let quote :=
      pricing rooms kitchensCount kitchenSizeId toiletRoomsCount
              avgCubicles extras form in
    let orderId := createOrderId rnd in
    let bookingDate := ymd date in
    let bookingTime := selectedTime st +:+ ":00" in
    let zapPayload :=
      {| zOrderId := orderId;
         zCustomerName := customerName form;
         zCustomerEmail := customerEmail form;
         zCustomerPhone := customerPhone form;
         zBookingDate := bookingDate;
         zBookingTime := bookingTime;
         zEstimatedHours := estimatedHours quote;
         zBaseEstimatedHours := baseEstimatedHours quote;
         zTwoCleaners := teamApplied quote;
         zTotalPrice := totalPrice quote |} in
    let endTime :=
      addHoursToTime bookingTime (Num (zEstimatedHours zapPayload)) in
    [SetDoc "bookings" orderId
       {| payload := zapPayload;
          address := formAddress form;
          date := bookingDate;
          startTime := bookingTime;
          endTime := endTime;
          labourRate := HOURLY_RATE;
          docSuppliesFee := suppliesFee quote;
          docAddOnsTotal := addOnsTotal quote;
          labourCharge := labour quote;
          status := "confirmed" |};
     Alert "Booking submitted!"]
  end.

End OfficeCleanV1.

(** ** The office page, current revision ([office-clean/page.tsx]) *)

Module OfficeClean.

Definition WEEKDAY_HOURLY_RATE : Q := 30.
Definition WEEKEND_HOURLY_RATE : Q := 32.
Definition MIN_HOURS : Q := 2.
Definition SUPPLIES_FEE : Q := 5.
Definition TEAM_THRESHOLD_HOURS : Q := 4.
Definition TEAM_FACTOR : Q := 17 # 10.

Definition SIZE_OPTIONS : list (string * Q) :=
  [("xs", 3 # 10); ("s", 1 # 2); ("m", 8 # 10); ("l", 11 # 10);
   ("xl", 16 # 10)]%Q.

Definition ROOM_TYPES : list (string * Q) :=
  [("open-plan", 14 # 10); ("meeting", 12 # 10); ("private-office", 1);
   ("reception", 11 # 10); ("corridor", 7 # 10); ("storage", 8 # 10);
   ("kitchen", 13 # 10); ("bathroom", 12 # 10)]%Q.

Definition PER_CUBICLE_HOURS : Q := 35 # 100.

Definition pricing (rooms : list Room) (extras : Extras) (form : Form)
    (selectedDate : option Z) : Quote :=
  let roomHours :=
    foldl (λ roomHours r,
             let sizeW := findWeight SIZE_OPTIONS (sizeId r) in
             let typeM := findWeight ROOM_TYPES (typeId r) in
             (roomHours + sizeW * typeM)%Q)
          0%Q rooms in
  let bathroomsCountForTime :=
    List.length
      (List.filter (λ r, bool_decide (typeId r = "bathroom")) rooms) in
  let toiletsHours :=
    (inject_Z (Z.of_nat bathroomsCountForTime) * PER_CUBICLE_HOURS)%Q in
  let addOnHours := extrasTimes extras ADDON_HOURS in
  let raw := (roomHours + toiletsHours + addOnHours)%Q in
  let mult := cleanMult (cleanliness form) in
  let raw := (raw * mult)%Q in
  let baseEstimatedHours :=
    Qmax MIN_HOURS (roundUpToHalf (or_zero (Num raw))) in
  let teamApplied := Qgtb baseEstimatedHours TEAM_THRESHOLD_HOURS in
  let effectiveUnrounded :=
    if teamApplied then (baseEstimatedHours / TEAM_FACTOR)%Q
    else baseEstimatedHours in
  let estimatedHours := Qmax MIN_HOURS (roundUpToHalf effectiveUnrounded) in
  let addOnsTotal := extrasTimes extras ADDON_PRICES in
  let suppliesFee :=
    if bool_decide (products form = "bring") then SUPPLIES_FEE else 0%Q in
  let hourlyRate :=
    if isWeekend selectedDate then WEEKEND_HOURLY_RATE
    else WEEKDAY_HOURLY_RATE in
  let labour := (estimatedHours * hourlyRate)%Q in
  let totalPrice := round2 (labour + addOnsTotal + suppliesFee) in
  {| estimatedHours := estimatedHours;
     baseEstimatedHours := baseEstimatedHours;
     teamApplied := teamApplied;
     addOnsTotal := addOnsTotal;
     suppliesFee := suppliesFee;
     labour := labour;
     totalPrice := totalPrice |}.

Definition STAFF_RATE : Q := 1221 # 100.

Definition onSubmit (rnd : Q) (st : PageState) (rooms : list Room)
    (extras : Extras) (form : Form) : list effect :=
  match selectedDate st with
  | None => [Alert "Please select date and time."]
  | Some date =>
  if bool_decide (selectedTime st = "")
  then [Alert "Please select date and time."]
  else if bool_decide (customerName form = "")
          || bool_decide (customerEmail form = "")
          || bool_decide (customerPhone form = "")
  then [Alert "Please fill name, email, and phone."]
  else if bool_decide (addressLine1 form = "")
          || bool_decide (formTown form = "")
          || bool_decide (formPostcode form = "")
  then [Alert "Please select or enter the site address."]
  else
    let quote := pricing rooms extras form (selectedDate st) in
    let orderId := createOrderId rnd in
    let bookingDate := ymd date in
    let bookingTime := selectedTime st +:+ ":00" in
    let normalisedPhone :=
      default (customerPhone form) (toE164UK (Some (customerPhone form))) in
    let endTime := addHoursToTime bookingTime (Num (estimatedHours quote)) in
    let zapPayload :=
      {| zOrderId := orderId;
         zCustomerName := customerName form;
         zCustomerEmail := customerEmail form;
         zCustomerPhone := normalisedPhone;
         zBookingDate := bookingDate;
         zBookingTime := bookingTime;
         zEstimatedHours := estimatedHours quote;
         zBaseEstimatedHours := baseEstimatedHours quote;
         zTwoCleaners := teamApplied quote;
         zTotalPrice := totalPrice quote |} in
    let hourlyRate :=
      if isWeekend (Some date) then WEEKEND_HOURLY_RATE
      else WEEKDAY_HOURLY_RATE in
    let staffMultiplier := if teamApplied quote then 2%Q else 1%Q in
    let staffPayTotal :=
      (or_zero (Num (estimatedHours quote)) * STAFF_RATE
       * staffMultiplier)%Q in
    [SetDoc "bookings" orderId
       {| payload := zapPayload;
          address := formAddress form;
          date := bookingDate;
          startTime := bookingTime;
          endTime := endTime;
          labourRate := hourlyRate;
          docSuppliesFee := suppliesFee quote;
          docAddOnsTotal := addOnsTotal quote;
          labourCharge := labour quote;
          status := "confirmed" |};
     Post "https://hooks.zapier.com/hooks/catch/22652608/uz20jhf/"
          zapPayload;
     AddDoc "finances"
       {| entryType := "Income";
          entryName := "Office clean booking " +:+ orderId |}]
    ++ (if Qgtb staffPayTotal 0
        then [AddDoc "finances"
                {| entryType := "Expense";
                   entryName := "Staff pay for " +:+ orderId |}]
        else [])
  end.

End OfficeClean.

(** ** The residential page, current revision ([home-clean/page.tsx]):
       the one-room promotion with a flat deposit *)

Module HomeClean.

Definition MIN_HOURS : Q := 1.
Definition DEPOSIT_AMOUNT : Q := 25.
Definition SUPPLIES_FEE : Q := 0.
Definition TEAM_THRESHOLD_HOURS : Q := 4.
Definition TEAM_FACTOR : Q := 17 # 10.

Definition pricing : Quote :=
  let estimatedHours := 1%Q in
  let baseEstimatedHours := 1%Q in
  let teamApplied := false in
  let addOnsTotal := 0%Q in
  let suppliesFee := 0%Q in
  let labour := 0%Q in
  let totalPrice := DEPOSIT_AMOUNT in
  {| estimatedHours := estimatedHours;
     baseEstimatedHours := baseEstimatedHours;
     teamApplied := teamApplied;
     addOnsTotal := addOnsTotal;
     suppliesFee := suppliesFee;
     labour := labour;
     totalPrice := totalPrice |}.

(** [getStaffRateForJob({ serviceType, date })]; the weekend test reads
    the day of the week of the booking date. *)
Definition getStaffRateForJob (serviceType : string) (date : Z) : Q :=
  let st := toLowerCase serviceType in
  let isWeekendJob := isWeekend (Some date) in
  let isDeep := includes "deep" st in
  if isDeep then (if isWeekendJob then 23 else 21)
  else (if isWeekendJob then 17 else 15).

Definition onSubmit (rnd : Q) (st : PageState) (form : Form)
    : list effect :=
  match selectedDate st with
  | None => [Alert "Please select date and time."]
  | Some date =>
  if bool_decide (selectedTime st = "")
  then [Alert "Please select date and time."]
  else if bool_decide (customerName form = "")
          || bool_decide (customerEmail form = "")
          || bool_decide (customerPhone form = "")
  then [Alert "Please fill name, email, and phone."]
  else if bool_decide (addressLine1 form = "")
          || bool_decide (formTown form = "")
          || bool_decide (formPostcode form = "")
  then [Alert "Please enter your address (line 1, town/city and postcode)."]
  else if bool_decide (products form = "")
  then [Alert "Please select who will provide the cleaning products."]
  else
    let orderId := createOrderId rnd in
    let bookingDate := ymd date in
    let bookingTime := selectedTime st +:+ ":00" in
    let normalisedPhone :=
      default (customerPhone form) (toE164UK (Some (customerPhone form))) in
    let endTime :=
      addHoursToTime bookingTime (Num (estimatedHours pricing)) in
    let serviceType :=
      if bool_decide (serviceType form = "") then "One Room Clean"
      else serviceType form in
    let zapPayload :=
      {| zOrderId := orderId;
         zCustomerName := customerName form;
         zCustomerEmail := customerEmail form;
         zCustomerPhone := normalisedPhone;
         zBookingDate := bookingDate;
         zBookingTime := bookingTime;
         zEstimatedHours := estimatedHours pricing;
         zBaseEstimatedHours := baseEstimatedHours pricing;
         zTwoCleaners := teamApplied pricing;
         zTotalPrice := totalPrice pricing |} in
    let hourlyRate := 0%Q in
    let staffRate := getStaffRateForJob serviceType date in
    let staffMultiplier := if teamApplied pricing then 2%Q else 1%Q in
    let staffPayTotal :=
      (or_zero (Num (estimatedHours pricing)) * staffRate
       * staffMultiplier)%Q in
    [SetDoc "bookings" orderId
       {| payload := zapPayload;
          address := formAddress form;
          date := bookingDate;
          startTime := bookingTime;
          endTime := endTime;
          labourRate := hourlyRate;
          docSuppliesFee := suppliesFee pricing;
          docAddOnsTotal := addOnsTotal pricing;
          labourCharge := labour pricing;
          status := "confirmed" |};
     Post "https://hooks.zapier.com/hooks/catch/22652608/ukujfso/"
          zapPayload;
     AddDoc "finances"
       {| entryType := "Income";
          entryName := "One Room booking " +:+ orderId |}]
    ++ (if Qgtb staffPayTotal 0
        then [AddDoc "finances"
                {| entryType := "Expense";
                   entryName := "Staff pay for " +:+ orderId |}]
        else [])
  end.

End HomeClean.

(** ** Vocabulary of the statements *)

(** A whole number of half hours. *)
Definition halfIntegral (x : Q) : Prop := ∃ n : Z, (x == inject_Z n / 2)%Q.

(** The invariant the specification gives for a quote with minimum
    [MIN]. *)
Definition quoteInvariant (MIN : Q) (q : Quote) : Prop :=
  (MIN <= estimatedHours q)%Q ∧
  (totalPrice q == round2 (labour q + addOnsTotal q + suppliesFee q))%Q.

(** The team-size rule with minimum [MIN], threshold [thr] and factor
    [f], read off a quote. *)
Definition teamRuleHolds (MIN thr f : Q) (q : Quote) : Prop :=
  ((thr < baseEstimatedHours q)%Q →
     teamApplied q = true ∧
     estimatedHours q
       = Qmax MIN (roundUpToHalf (baseEstimatedHours q / f)%Q) ∧
     (estimatedHours q <= baseEstimatedHours q)%Q) ∧
  (¬ (thr < baseEstimatedHours q)%Q →
     teamApplied q = false ∧
     (estimatedHours q == baseEstimatedHours q)%Q).

(** The phone normalisation rule in the words of the specification:
    [phoneRule raw out] when [out] is what the rule prescribes for
    [raw]. *)
Definition digitsOf (raw : string) : string := str_filter is_digit raw.

Definition national (raw : string) : Prop :=
  (∃ rest, digitsOf raw = String "0" rest) ∧
  (10 ≤ str_length (digitsOf raw))%nat.

Definition international (raw : string) : Prop :=
  ∃ rest, digitsOf raw = "44" +:+ rest.

Definition plusPrefixed (raw : string) : Prop :=
  ∃ rest, trim raw = String "+" rest.

Inductive phoneRule (raw : string) : string → Prop :=
| rule_national rest :
    national raw → digitsOf raw = String "0" rest →
    phoneRule raw ("+44" +:+ rest)
| rule_international :
    ¬ national raw → international raw →
    phoneRule raw ("+" +:+ digitsOf raw)
| rule_plus :
    ¬ national raw → ¬ international raw → plusPrefixed raw →
    phoneRule raw (trim raw)
| rule_fallback :
    ¬ national raw → ¬ international raw → ¬ plusPrefixed raw →
    phoneRule raw ("+" +:+ digitsOf raw).

(** The clock time "HH:MM" of hour [hh] and minute [mm]. *)
Definition clock (hh mm : Z) : string :=
  padStart 2 "0" (pretty hh) +:+ ":" +:+ padStart 2 "0" (pretty mm).

(** Splitting and parsing read a clock string back. *)
Definition clockParses (hh mm : Z) : bool :=
  bool_decide (split ":" (clock hh mm)
               = [padStart 2 "0" (pretty hh); padStart 2 "0" (pretty mm)])
  && bool_decide (parseInt (padStart 2 "0" (pretty hh)) = Some hh)
  && bool_decide (parseInt (padStart 2 "0" (pretty mm)) = Some mm)
  && negb (bool_decide (padStart 2 "0" (pretty mm) = "")).

(** Two-digit fields are exactly two characters and read back. *)
Definition twoDigits (n : Z) : bool :=
  bool_decide (str_length (padStart 2 "0" (pretty n)) = 2%nat)
  && bool_decide (parseInt (padStart 2 "0" (pretty n)) = Some n).

(** A submission that stopped at validation: one alert, nothing else. *)
Definition rejected (effects : list effect) : Prop :=
  ∃ msg, effects = [Alert msg].

(** Some field that every page's specification requires is missing. *)
Definition incomplete (st : PageState) (form : Form) : Prop :=
  selectedDate st = None ∨ selectedTime st = "" ∨
  customerName form = "" ∨ customerEmail form = "" ∨
  customerPhone form = "" ∨
  addressLine1 form = "" ∨ formTown form = "" ∨ formPostcode form = "".

(** [new Date(Date.now() + notice * 3600_000)] as a time value. *)
Definition noticeCutoff (now : Z) (notice : number) : number :=
  Date.TimeClip
    (num_add (Num (inject_Z now)) (num_mul notice (Num 3600000))).

(** The hour label of a slot key, [k.split(':')[0]], and the key of an
    hour, [`${h}:00`]. *)
Definition hourOf (k : string) : string := default "" (split ":" k !! 0%nat).
Definition slotKey (h : Z) : string := pretty h +:+ ":00".

(** The verdict of one iteration of the slot loop that does not throw. *)
Definition slotOffered `{Runtime} (date : Z) (noticeCutoff : number)
    (weekday : string) (bookings dayStaff : list object) (k : string)
    : bool :=
  negb (num_lt (of_int ((λ h, Date.setHours date h) <$> parseInt (hourOf k)))
               noticeCutoff)
  && match slotMins ← timeToMinutes (Str k);
           staffLoop weekday bookings slotMins dayStaff with
     | Ok b => b
     | Throw _ => false
     end.

(** ** Sample inputs *)

(** A runtime that reads decimal integers. *)
Definition decimalRuntime : Runtime :=
  {| StringToNumber := λ s, of_int (parseInt (trim s)) |}.

(** Monday 2 November 2026, 10:00, and the Thursday after it. *)
Definition mondayMorning : Z := 20759 * Date.msPerDay + 10 * Date.msPerHour.
Definition thursday : Z := 20762 * Date.msPerDay.

Definition freshPage (date : option Z) (time : string) : PageState :=
  {| selectedDate := date;
     selectedTime := time;
     availableTimes := [];
     timesLoading := false;
     blockedDates := ∅ |}.

(** A cleaner working every day between [from] and [to], with a travel
    buffer of 30 minutes and 12 hours of notice. *)
Definition everyDay (from to : string) : object :=
  let day : value :=
    Object {[ "available" := Bool true; "startTime" := Str from;
              "endTime" := Str to ]} in
  {[ "active" := Bool true;
     "availability" :=
       Object (list_to_map
                 ((λ d, (d, day)) <$>
                    ["monday"; "tuesday"; "wednesday"; "thursday";
                     "friday"; "saturday"; "sunday"]));
     "minNoticeHours" := Number_ (Num 12);
     "travelBufferMins" := Number_ (Num 30) ]}.

Definition lunchBooking : object :=
  {[ "startTime" := Str "12:00"; "endTime" := Str "13:00" ]}.

(** One cleaner, one booking from 12:00 to 13:00 every day, no
    override. *)
Definition oneCleaner (from to : string) : Firestore :=
  {| staffDocs := Ok [everyDay from to];
     unavailabilityDoc := λ _, Ok None;
     bookingDocs := λ _, Ok [lunchBooking] |}.

(** The same with an override that marks 9:00 as booked. *)
Definition nineBooked : Firestore :=
  {| staffDocs := Ok [everyDay "09:00" "17:00"];
     unavailabilityDoc :=
       λ _, Ok (Some {[ "bookedTimeSlots" :=
                          Object {[ "9:00" := Bool true;
                                    "10:00" := Bool false ]} ]});
     bookingDocs := λ _, Ok [lunchBooking] |}.

(** A store whose roster cannot be read. *)
Definition unreadableRoster : Firestore :=
  {| staffDocs := Throw FetchError;
     unavailabilityDoc := λ _, Ok None;
     bookingDocs := λ _, Ok [] |}.

(** A cleaner whose notice is ten hours and half a millisecond. *)
Definition fussyNotice : Q := 72000001 # 7200000.

Definition fussyRoster : Firestore :=
  {| staffDocs :=
       Ok [<[ "minNoticeHours" := Number_ (Num fussyNotice) ]>
             (everyDay "09:00" "17:00")];
     unavailabilityDoc := λ _, Ok None;
     bookingDocs := λ _, Ok [] |}.

(** A residential form asking for eight bedrooms of average
    cleanliness, with an oven clean and our products, and no address. *)
Definition eightBedrooms : HomeCleanV1.Form :=
  {| HomeCleanV1.customerName := "A. Customer";
     HomeCleanV1.customerEmail := "a@example.org";
     HomeCleanV1.customerPhone := "07123456789";
     HomeCleanV1.bedrooms := "8";
     HomeCleanV1.livingRooms := "";
     HomeCleanV1.kitchens := "";
     HomeCleanV1.bathrooms := "";
     HomeCleanV1.utilityRooms := "";
     HomeCleanV1.cleanliness := "average";
     HomeCleanV1.additionalRooms := [];
     HomeCleanV1.addOns := ["Oven (£40)"];
     HomeCleanV1.products := "bring";
     HomeCleanV1.addressLine1 := "";
     HomeCleanV1.addressLine2 := "";
     HomeCleanV1.formTown := "";
     HomeCleanV1.formCounty := "";
     HomeCleanV1.formPostcode := "";
     HomeCleanV1.serviceType := "Cleaning Service" |}.

(** A form of the later pages with contact details and products but no
    address. *)
Definition noAddress : Form :=
  {| customerName := "A. Customer";
     customerEmail := "a@example.org";
     customerPhone := "07123456789";
     cleanliness := "average";
     products := "bring";
     addressLine1 := "";
     addressLine2 := "";
     formTown := "";
     formCounty := "";
     formPostcode := "";
     serviceType := "Office Cleaning" |}.

Definition noExtras : Extras :=
  {| fridge := 0; freezer := 0; dishwasher := 0; cupboards := 0 |}.

(** ** Display helpers, date construction and staff pay *)

(** [str.split('').every(p)] as a test on the characters of a string. *)
Fixpoint str_forall (p : ascii → bool) (s : string) : bool :=
  match s with
  | "" => true
  | String c s' => p c && str_forall p s'
  end.

Definition displayHour (hStr : string) : string :=
  let h := parseInt hStr in
  let twelve := (λ z, if 12 <? z then z - 12 else z) <$> h in
  let ap :=
    match h with
    | Some z => if 12 <=? z then "PM" else "AM"
    | None => "AM"
    end in
  String_ twelve +:+ ":00 " +:+ ap.

(** [ToIntegerOrInfinity] on a finite number: truncation towards zero. *)
Definition ToIntegerOrInfinity (q : Q) : Z :=
  if Qle_bool 0 q then Qfloor q else Qceiling q.

(** [new Date(y, m, d)] for integers, as a time value: a year from 0 to
    99 counts from 1900, the month index may lie outside 0..11 and
    carries into the year, the day may lie outside the month.  As in
    the rest of the development the range limit of time values is not
    represented. *)
Definition newDate (y m d : Z) : Z :=
  let yr := if (0 <=? y) && (y <=? 99) then 1900 + y else y in
  let ym := yr + m / 12 in
  let mn := m `mod` 12 in
  Date.MakeDay ym (mn + 1) d * Date.msPerDay.

(** The same for numbers; [None] is the invalid date. *)
Definition newDateOf (y m d : number) : option Z :=
  match y, m, d with
  | Num y, Num m, Num d =>
      Some (newDate (ToIntegerOrInfinity y) (ToIntegerOrInfinity m)
                    (ToIntegerOrInfinity d))
  | _, _, _ => None
  end.

Module StaffPay.

Record Job := {
  serviceType : option string;
  date : option string;
}.

Section WithRuntime.
Context `{Runtime}.

Definition isWeekendYmd (dateStr : option string) : bool :=
  match dateStr with
  | None => false
  | Some dateStr =>
      if bool_decide (dateStr = "") then false
      else
        let parts := (λ p, Number (Str p)) <$> split "-" dateStr in
        match parts !! 0%nat, parts !! 1%nat, parts !! 2%nat with
        | Some y, Some m, Some d =>
            if negb (truthy (Number_ y)) || negb (truthy (Number_ m))
               || negb (truthy (Number_ d))
            then false
            else
              match newDateOf y (num_sub m (Num 1)) d with
              | Some dt => (Date.getDay dt =? 0) || (Date.getDay dt =? 6)
              | None => false
              end
        | _, _, _ => false
        end
  end.

Definition getStaffRateForJob (job : Job) : Q :=
  let st := toLowerCase (default "" (serviceType job)) in
  let isWeekendJob := isWeekendYmd (date job) in
  let isDeep := includes "deep" st in
  if isDeep then (if isWeekendJob then 23 else 21)
  else (if isWeekendJob then 17 else 15).

End WithRuntime.

End StaffPay.

(** A runtime that converts a non-empty string of decimal digits to its
    decimal value, as [Number] does. *)
Definition readsDecimals (R : Runtime) : Prop :=
  ∀ s, s ≠ "" → str_forall is_digit s = true →
       @StringToNumber R s = of_int (digits None s).

(** [s.toUpperCase()]: the letters of ASCII are mapped, every other
    character is kept. *)
Fixpoint toUpperCase (s : string) : string :=
  match s with
  | "" => ""
  | String c s' => String (upper c) (toUpperCase s')
  end.

(** ** The calendar: grid, month navigation and date selection

    All pages share this code. *)

Module Calendar.

Definition weekdays : list string :=
  ["MON"; "TUE"; "WED"; "THU"; "FRI"; "SAT"; "SUN"].

Record Cell := {
  d : Z;
  date : option Z;
  muted : bool;
}.

(** [{ d: 0, muted: true }] *)
Definition blank : Cell := {| d := 0; date := None; muted := true |}.

(** [while (cells.length % 7) cells.push({ d: 0, muted: true })], at
    most [fuel] rounds. *)
Fixpoint padWeek (fuel : nat) (cells : list Cell) : list Cell :=
  match fuel with
  | O => cells
  | S fuel' =>
      if Z.of_nat (List.length cells) `mod` 7 =? 0 then cells
      else padWeek fuel' (cells ++ [blank])
  end.

Definition grid (viewMonth : Z) : list Cell :=
  let y := Date.getFullYear viewMonth in
  let m := Date.getMonth viewMonth in
  let first := newDate y m 1 in
  let startOffset := (Date.getDay first + 6) `mod` 7 in
  let daysInMonth := Date.getDate (newDate y (m + 1) 0) in
  let cells :=
    replicate (Z.to_nat startOffset) blank
    ++ ((λ d, {| d := d; date := Some (newDate y m d); muted := false |})
          <$> seqZ 1 daysInMonth) in
  padWeek 7 cells.

(** [now.setHours(0, 0, 0, 0)], [startMonth] and [maxMonth]. *)
Definition today (now : Z) : Z := Date.setHours now 0.

Definition startMonth (now : Z) : Z :=
  newDate (Date.getFullYear (today now)) (Date.getMonth (today now)) 1.

Definition maxMonth (now : Z) : Z :=
  newDate (Date.getFullYear (today now)) (Date.getMonth (today now) + 3) 1.

(** The two buttons of the calendar header; a disabled button does
    nothing. *)
Definition prevDisabled (now viewMonth : Z) : bool :=
  bool_decide (ymd viewMonth = ymd (startMonth now)).

Definition nextDisabled (now viewMonth : Z) : bool :=
  (Date.getFullYear viewMonth =? Date.getFullYear (maxMonth now))
  && (Date.getMonth viewMonth =? Date.getMonth (maxMonth now)).

Inductive button := Prev | Next.

Definition press (now viewMonth : Z) (b : button) : Z :=
  match b with
  | Prev =>
      if prevDisabled now viewMonth then viewMonth
      else newDate (Date.getFullYear viewMonth)
                   (Date.getMonth viewMonth - 1) 1
  | Next =>
      if nextDisabled now viewMonth then viewMonth
      else newDate (Date.getFullYear viewMonth)
                   (Date.getMonth viewMonth + 1) 1
  end.

(** The tests of a day cell and its click handler. *)
Definition isBeforeToday (now : Z) (cell : Cell) : bool :=
  match date cell with
  | Some cd =>
      newDate (Date.getFullYear cd) (Date.getMonth cd) (Date.getDate cd)
      <? today now
  | None => false
  end.

Definition isBlocked (now : Z) (blockedDates : gset string) (cell : Cell)
    : bool :=
  match date cell with
  | Some cd => bool_decide (ymd cd ∈ blockedDates) || isBeforeToday now cell
  | None => false
  end.

Definition clickCell (now : Z) (st : PageState) (cell : Cell) : PageState :=
  match date cell with
  | Some cd =>
      if negb (isBlocked now (blockedDates st) cell)
      then {| selectedDate := Some cd;
              selectedTime := selectedTime st;
              availableTimes := availableTimes st;
              timesLoading := timesLoading st;
              blockedDates := blockedDates st |}
      else st
  | None => st
  end.

End Calendar.

(** The day number of the first day of the month with index [k], where
    the index counts months from January of the year 0. *)
Definition monthStart (k : Z) : Z :=
  Date.MakeDay (k / 12) (k `mod` 12 + 1) 1.

(** The month index of a time value. *)
Definition monthIndex (t : Z) : Z :=
  12 * Date.getFullYear t + Date.getMonth t.

(** The position reached in the four months of the calendar by a press
    of a header button, counted from the current month. *)
Definition walk (j : Z) (b : Calendar.button) : Z :=
  match b with
  | Calendar.Prev => Z.max 0 (j - 1)
  | Calendar.Next => Z.min 3 (j + 1)
  end.

(** The cell of day [d] of the month of [viewMonth]. *)
Definition dayCell (viewMonth d : Z) : Calendar.Cell :=
  {| Calendar.d := d;
     Calendar.date :=
       Some (newDate (Date.getFullYear viewMonth)
                     (Date.getMonth viewMonth) d);
     Calendar.muted := false |}.

(** ** Rooms: the list of rooms, its summaries and the checkbox lists *)

(** [{ typeId: '', sizeId: '' }] *)
Definition blankRoom : Room := {| typeId := ""; sizeId := "" |}.

(** The effect that keeps [rooms] as long as [roomsCount]
    ([setRooms((prev) => ...)]); [roomsCount] is only ever set to an
    integer or to [NaN].  [next.splice(n)] with a negative [n] counts
    from the end. *)
Definition syncRooms (roomsCount : int) (prev : list Room) : list Room :=
  match roomsCount with
  | None => prev
  | Some n =>
      let len := Z.of_nat (List.length prev) in
      if len <? n then prev ++ replicate (Z.to_nat (n - len)) blankRoom
      else if n <? len
      then take (Z.to_nat (if n <? 0 then Z.max (len + n) 0 else n)) prev
      else prev
  end.

(** [Math.max(0, parseInt(e.target.value || '0', 10))], the value the
    count selectors store. *)
Definition countOf (value : string) : int :=
  Z.max 0 <$> parseInt (if bool_decide (value = "") then "0" else value).

Module RoomType.
Record t := { id : string; label : string; multiplier : Q }.
End RoomType.

Module RoomSummary.
Record t := {
  typeId : string;
  label : string;
  count : nat;
  sizes : list string;
}.
End RoomSummary.

(** The room types of the current office page and of the promotional
    page, with their labels. *)
Definition OFFICE_ROOM_TYPES : list RoomType.t :=
  [ {| RoomType.id := "open-plan"; RoomType.label := "Open-plan area";
       RoomType.multiplier := 14 # 10 |};
    {| RoomType.id := "meeting"; RoomType.label := "Meeting room";
       RoomType.multiplier := 12 # 10 |};
    {| RoomType.id := "private-office"; RoomType.label := "Private office";
       RoomType.multiplier := 1 |};
    {| RoomType.id := "reception"; RoomType.label := "Reception";
       RoomType.multiplier := 11 # 10 |};
    {| RoomType.id := "corridor"; RoomType.label := "Corridor";
       RoomType.multiplier := 7 # 10 |};
    {| RoomType.id := "storage"; RoomType.label := "Storage / copy room";
       RoomType.multiplier := 8 # 10 |};
    {| RoomType.id := "kitchen"; RoomType.label := "Kitchen / tea point";
       RoomType.multiplier := 13 # 10 |};
    {| RoomType.id := "bathroom"; RoomType.label := "Toilet room";
       RoomType.multiplier := 12 # 10 |} ]%Q.

Definition HOME_ROOM_TYPES : list RoomType.t :=
  [ {| RoomType.id := "open-plan"; RoomType.label := "Living room";
       RoomType.multiplier := 15 # 10 |};
    {| RoomType.id := "bedroom"; RoomType.label := "Bedroom";
       RoomType.multiplier := 13 # 10 |};
    {| RoomType.id := "reception"; RoomType.label := "Hallway / corridor";
       RoomType.multiplier := 1 |};
    {| RoomType.id := "storage"; RoomType.label := "Storage / utility";
       RoomType.multiplier := 9 # 10 |};
    {| RoomType.id := "kitchen"; RoomType.label := "Kitchen";
       RoomType.multiplier := 16 # 10 |};
    {| RoomType.id := "bathroom"; RoomType.label := "Bathroom / toilet";
       RoomType.multiplier := 17 # 10 |} ]%Q.

(** [ROOM_TYPES.map((rt) => ...).filter((r) => r !== null)] *)
Definition roomSummaries (ROOM_TYPES : list RoomType.t) (rooms : list Room)
    : list RoomSummary.t :=
  omap (λ rt,
          let matching :=
            List.filter (λ r, bool_decide (typeId r = RoomType.id rt))
                        rooms in
          if bool_decide (List.length matching = 0%nat) then None
          else Some {| RoomSummary.typeId := RoomType.id rt;
                       RoomSummary.label := RoomType.label rt;
                       RoomSummary.count := List.length matching;
                       RoomSummary.sizes := sizeId <$> matching |})
       ROOM_TYPES.

(** [new Set(list)], [set.add(x)], [set.delete(x)] and
    [Array.from(set)] on the insertion order of the set. *)
Definition setAdd (x : string) (s : list string) : list string :=
  if bool_decide (x ∈ s) then s else s ++ [x].

Definition setOf (l : list string) : list string :=
  foldl (λ s x, setAdd x s) [] l.

Definition setDelete (x : string) (s : list string) : list string :=
  List.filter (λ y, negb (bool_decide (y = x))) s.

(** The new list a checkbox of the first residential page stores. *)
Definition checkboxList (checked : bool) (value : string)
    (currentList : list string) : list string :=
  let setA := setOf currentList in
  if checked then setAdd value setA else setDelete value setA.

(** The total of the add-ons of the first residential page. *)
Definition addOnsSum (keys : list string) : Q :=
  foldl (λ sum key, (sum + HomeCleanV1.addOnPrice key)%Q) 0%Q keys.

(** ** The address lookup of the current pages *)

(** [s.split(sep)] for a separator of two characters. *)
Fixpoint split2 (a b : ascii) (s : string) : list string :=
  match s with
  | "" => [""]
  | String c s' =>
      match s' with
      | String d s'' =>
          if Ascii.eqb c a && Ascii.eqb d b then "" :: split2 a b s''
          else match split2 a b s' with
               | [] => [String c ""]
               | w :: ws => String c w :: ws
               end
      | "" => [String c ""]
      end
  end.

(** [parts.join(sep)] *)
Fixpoint join (sep : string) (parts : list string) : string :=
  match parts with
  | [] => ""
  | [p] => p
  | p :: ps => p +:+ sep +:+ join sep ps
  end.

(** [s.replace(/\s+/g, '')], for the white space of ASCII. *)
Definition removeSpaces (s : string) : string :=
  str_filter (λ c, negb (Ascii.is_space c)) s.

Module AddressLookup.

Record Found := {
  fullAddress : string;
  line1 : string;
  line2 : string;
  town : string;
  county : string;
  postcode : string;
}.

Definition extractOutward (raw : string) : option string :=
  let compact := toUpperCase (removeSpaces raw) in
  if (str_length compact <? 5)%nat then None
  else Some (String.substring 0 (str_length compact - 3) compact).

(** The record made of one line of the address service's answer. *)
Definition parseAddress (dataPostcode address : string) : Found :=
  let parts :=
    List.filter (λ part, negb (bool_decide (trim part = "")))
                (split2 "," " " address) in
  let n := List.length parts in
  {| fullAddress := address;
     line1 := default "" (parts !! 0%nat);
     line2 := if (2 <? n)%nat then default "" (parts !! 1%nat) else "";
     town := if (2 <? n)%nat then default "" (parts !! (n - 2)%nat)
             else if (1 <? n)%nat then default "" (parts !! 1%nat)
             else "";
     county := if (1 <? n)%nat then default "" (parts !! (n - 1)%nat)
               else "";
     postcode := dataPostcode |}.

(** The state of the widget that a search touches. *)
Record State := {
  addresses : list Found;
  loading : bool;
  error : string;
  notCoveredMsg : option string;
}.

(** The answer of the address service: [response.ok],
    [response.status], [response.statusText] and the outcome of
    [response.json()], of which [data.addresses] (absent, or a list)
    and [data.postcode] are read. *)
Record Response := {
  ok : bool;
  status : Z;
  statusText : string;
  json : result (option (list string) * string);
}.

(** The two services a search may call. *)
Record Services := {
  (** [(await getDoc(doc(db, 'postcodes', outward))).exists()] *)
  covered : string → result bool;
  (** [await fetch('https://api.getaddress.io/find/' + noSpaces + ...)] *)
  find : string → result Response;
}.

Inductive request :=
| GetPostcodeDoc (outward : string)
| FindAddresses (noSpaces : string).

Definition failed (msg : string) (st : State) : State :=
  {| addresses := []; loading := false; error := msg;
     notCoveredMsg := notCoveredMsg st |}.

(** [handleSearch]: the state it leaves and the requests it sent, in
    order. *)
Definition handleSearch (io : Services) (postcode : string) (st : State)
    : State * list request :=
  if bool_decide (trim postcode = "")
  then ({| addresses := addresses st; loading := loading st;
           error := "Please enter a postcode";
           notCoveredMsg := notCoveredMsg st |}, [])
  else
    let formattedPostcode := toUpperCase (trim postcode) in
    match extractOutward formattedPostcode with
    | None => (failed "Please enter a valid UK postcode" st, [])
    | Some outward =>
        match covered io outward with
        | Throw _ =>
            (failed
               "Something went wrong checking coverage. Please try again."
               st,
             [GetPostcodeDoc outward])
        | Ok false =>
            ({| addresses := []; loading := false; error := "";
                notCoveredMsg :=
                  Some ("Sorry, we don't cover " +:+ formattedPostcode
                        +:+ " yet.") |},
             [GetPostcodeDoc outward])
        | Ok true =>
            let noSpaces := removeSpaces formattedPostcode in
            let requests :=
              [GetPostcodeDoc outward; FindAddresses noSpaces] in
            let caught :=
              failed
                "Error fetching addresses. Please try again or enter manually."
                st in
            match find io noSpaces with
            | Throw _ => (caught, requests)
            | Ok response =>
                if negb (ok response)
                then
                  (failed
                     (if status response =? 401
                      then
                        "API authentication failed. Please check your API key."
                      else if status response =? 404
                      then "Postcode not found. Please check and try again."
                      else if status response =? 429
                      then "API usage limit reached. Please try again later."
                      else "Error: " +:+ pretty (status response) +:+ " - "
                           +:+ statusText response) st,
                   requests)
                else
                  match json response with
                  | Throw _ => (caught, requests)
                  | Ok (Some (a :: l), dataPostcode) =>
                      ({| addresses :=
                            parseAddress dataPostcode <$> (a :: l);
                          loading := false; error := "";
                          notCoveredMsg := notCoveredMsg st |},
                       requests)
                  | Ok (_, _) =>
                      (failed "No addresses found for this postcode" st,
                       requests)
                  end
            end
        end
    end.

End AddressLookup.

(** Characters of the ASCII range, where the case mapping of the model
    is that of JavaScript. *)
Definition isAscii (c : ascii) : bool := (Ascii.N_of_ascii c <? 128)%N.

(** ** The steps of the current pages *)

Inductive press := PressNext | PressBack.

(** [r.typeId && r.sizeId] *)
Definition filledIn (r : Room) : bool :=
  negb (bool_decide (typeId r = "")) && negb (bool_decide (sizeId r = "")).

(** The sliding sections of the current office page. *)
Module OfficeSteps.

Record Inputs := {
  roomsCount : int;
  rooms : list Room;
  cleanliness : string;
  products : string;
  access : string;
  keyLocation : string;
}.

Definition canNext (i : Inputs) (step : Z) : bool :=
  if step =? 0
  then match roomsCount i with Some n => 0 <=? n | None => false end
       && negb (bool_decide (cleanliness i = ""))
  else if step =? 1
  then if bool_decide (roomsCount i = Some 0) then true
       else forallb filledIn (rooms i)
  else if step =? 2 then true
  else if step =? 3
  then negb (bool_decide (access i = ""))
       && (negb (bool_decide (access i = "key"))
           || negb (bool_decide (keyLocation i = "")))
  else true.

Definition goNext (i : Inputs) (step : Z) : Z :=
  if negb (canNext i step) then step
  else if (step =? 2) && bool_decide (products i = "") then step
  else Z.min 3 (step + 1).

Definition goBack (step : Z) : Z := Z.max 0 (step - 1).

Definition click (i : Inputs) (step : Z) (p : press) : Z :=
  match p with PressNext => goNext i step | PressBack => goBack step end.

End OfficeSteps.

(** The sliding sections of the promotional page. *)
Module PromoSteps.

Record Inputs := {
  rooms : list Room;
  access : string;
  keyLocation : string;
}.

(** [rooms[0] || { typeId: '', sizeId: '' }] *)
Definition singleRoom (i : Inputs) : Room :=
  default {| typeId := ""; sizeId := "" |} (head (rooms i)).

Definition canNext (i : Inputs) (step : Z) : bool :=
  if step =? 0 then filledIn (singleRoom i)
  else if step =? 1
  then negb (bool_decide (access i = ""))
       && (negb (bool_decide (access i = "alternative"))
           || negb (bool_decide (keyLocation i = "")))
  else true.

Definition goNext (i : Inputs) (step : Z) : Z :=
  if negb (canNext i step) then step else Z.min 2 (step + 1).

Definition goBack (step : Z) : Z := Z.max 0 (step - 1).

Definition click (i : Inputs) (step : Z) (p : press) : Z :=
  match p with PressNext => goNext i step | PressBack => goBack step end.

End PromoSteps.

(** ** Grouped room selections ([lib/bookingTypes.ts]) *)

Module RoomItem.
Record t := { typeId : string; sizeId : string; count : Z }.
End RoomItem.

(** [g.typeId === item.typeId && g.sizeId === item.sizeId] *)
Definition sameRoom (g : RoomItem.t) (item : Room) : bool :=
  bool_decide (RoomItem.typeId g = typeId item)
  && bool_decide (RoomItem.sizeId g = sizeId item).

(** One iteration of the loop of [groupRoomSelections]: the first group
    that [find] returns is counted up in place; without one a group of
    one is pushed at the end. *)
Fixpoint groupStep (grouped : list RoomItem.t) (item : Room)
    : list RoomItem.t :=
  match grouped with
  | [] => [ {| RoomItem.typeId := typeId item;
               RoomItem.sizeId := sizeId item;
               RoomItem.count := 1 |} ]
  | g :: rest =>
      if sameRoom g item
      then {| RoomItem.typeId := RoomItem.typeId g;
              RoomItem.sizeId := RoomItem.sizeId g;
              RoomItem.count := RoomItem.count g + 1 |} :: rest
      else g :: groupStep rest item
  end.

Definition groupRoomSelections (items : list Room) : list RoomItem.t :=
  foldl groupStep [] items.

(** The rooms of a list that belong to a group. *)
Definition roomsOf (g : RoomItem.t) (items : list Room) : list Room :=
  List.filter (sameRoom g) items.

(** The key of a group and of a room. *)
Definition groupKey (g : RoomItem.t) : string * string :=
  (RoomItem.typeId g, RoomItem.sizeId g).

Definition roomKey (r : Room) : string * string := (typeId r, sizeId r).

(* ===================================================================== *)
(** * Part II.  Properties                                                 *)
(* ===================================================================== *)

(** ** Half hours and the team rule *)

Lemma roundUpToHalf_halfIntegral (x : Q) : halfIntegral (roundUpToHalf x).
Proof. exists (Qceiling (x * 2)). reflexivity. Qed.

Lemma roundUpToHalf_comp (x y : Q) :
  (x == y)%Q → (roundUpToHalf x == roundUpToHalf y)%Q.
Proof.
  intros E. unfold roundUpToHalf.
  assert (Qceiling (x * 2) = Qceiling (y * 2)) as ->; [|reflexivity].
  apply Qceiling_comp. now rewrite E.
Qed.

Lemma roundUpToHalf_fix (x : Q) :
  halfIntegral x → (roundUpToHalf x == x)%Q.
Proof.
  intros [n E]. rewrite (roundUpToHalf_comp _ _ E), E.
  unfold roundUpToHalf.
  assert ((inject_Z n / 2 * 2 == inject_Z n)%Q) as E2 by field.
  rewrite (Qceiling_comp _ _ E2), Qceiling_Z. reflexivity.
Qed.

Lemma roundUpToHalf_mono (x y : Q) :
  (x <= y)%Q → (roundUpToHalf x <= roundUpToHalf y)%Q.
Proof.
  intros L. unfold roundUpToHalf.
  apply Qmult_le_compat_r; [|discriminate].
  rewrite <- Zle_Qle. apply Qceiling_resp_le.
  apply Qmult_le_compat_r; [assumption|discriminate].
Qed.

Lemma Qmax_halfIntegral (a b : Q) :
  halfIntegral a → halfIntegral b → halfIntegral (Qmax a b).
Proof.
  intros Ha Hb. destruct (Q.max_spec a b) as [[_ E]|[_ E]];
    destruct Ha as [n Hn], Hb as [m Hm]; [exists m|exists n]; now rewrite E.
Qed.

(** The base estimate of every computed variant is a whole number of half
    hours, at least the minimum. *)
Lemma base_shape (MIN x : Q) :
  halfIntegral MIN →
  halfIntegral (Qmax MIN (roundUpToHalf x)) ∧
  (MIN <= Qmax MIN (roundUpToHalf x))%Q.
Proof.
  intros HM. split.
  - apply Qmax_halfIntegral; [assumption|apply roundUpToHalf_halfIntegral].
  - apply Q.le_max_l.
Qed.

(** Without a team the second rounding changes nothing. *)
Lemma solo_estimate (MIN b : Q) :
  halfIntegral b → (MIN <= b)%Q → (Qmax MIN (roundUpToHalf b) == b)%Q.
Proof.
  intros Hb L. rewrite (roundUpToHalf_fix b Hb). now apply Q.max_r.
Qed.

(** With a team the estimate does not exceed the base. *)
Lemma team_estimate (MIN f b : Q) :
  halfIntegral b → (MIN <= b)%Q → (0 <= b)%Q → (1 <= f)%Q →
  (Qmax MIN (roundUpToHalf (b / f)) <= b)%Q.
Proof.
  intros Hb L Hb0 Hf. apply Q.max_lub; [assumption|].
  rewrite <- (roundUpToHalf_fix b Hb) at 2.
  apply roundUpToHalf_mono.
  assert (0 < f)%Q as Hf0 by (eapply Qlt_le_trans; [|exact Hf]; reflexivity).
  apply Qle_shift_div_r; [assumption|].
  rewrite <- (Qmult_1_l b) at 1. rewrite (Qmult_comm b f).
  apply Qmult_le_compat_r; assumption.
Qed.

Lemma Qgtb_lt (x y : Q) : Qgtb x y = true ↔ (y < x)%Q.
Proof.
  unfold Qgtb. rewrite negb_true_iff, <- not_true_iff_false, Qle_bool_iff.
  split; [apply Qnot_le_lt | apply Qlt_not_le].
Qed.

(** The four lines every computed pricing function ends its duration
    estimate with. *)
Lemma team_rule_lines (MIN thr f x : Q) :
  halfIntegral MIN → (0 <= MIN)%Q → (1 <= f)%Q →
  let base := Qmax MIN (roundUpToHalf x) in
  let team := Qgtb base thr in
  let est := Qmax MIN (roundUpToHalf (if team then (base / f)%Q else base)) in
  ((thr < base)%Q →
     team = true ∧ est = Qmax MIN (roundUpToHalf (base / f)%Q) ∧
     (est <= base)%Q) ∧
  (¬ (thr < base)%Q → team = false ∧ (est == base)%Q).
Proof.
  intros HM HM0 Hf base team est.
  destruct (base_shape MIN x HM) as [Hh Hle]. fold base in Hh, Hle.
  assert (0 <= base)%Q as Hb0 by (eapply Qle_trans; eassumption).
  subst est. destruct team eqn:Et.
  - split.
    + intros _. repeat split. now apply team_estimate.
    + intros N. exfalso. apply N. now apply Qgtb_lt.
  - split.
    + intros L%Qgtb_lt. unfold team in Et. congruence.
    + intros _. split; [reflexivity|]. now apply solo_estimate.
Qed.

Lemma halfIntegral_Z (n : Z) : halfIntegral (inject_Z n).
Proof. exists (2 * n)%Z. rewrite inject_Z_mult. field. Qed.

(** C6.  In every pricing variant the team rule holds: above the
    threshold (4 hours on the residential and the current office page, 6
    on the first office page) [teamApplied] is set, the estimate is the
    base divided by the team factor (1.6 or 1.7), rounded up to the half
    hour and floored at the minimum, and it does not exceed the base;
    otherwise [teamApplied] is clear and the estimate is the base. *)
Theorem team_rule_in_every_variant :
  (∀ form, teamRuleHolds 2 4 (16 # 10) (HomeCleanV1.pricing form)) ∧
  (∀ rooms extras form date,
     teamRuleHolds 2 4 (17 # 10)
       (OfficeClean.pricing rooms extras form date)) ∧
  (∀ rooms kitchensCount kitchenSizeId toiletRoomsCount avgCubicles extras
     form,
     teamRuleHolds 2 6 (17 # 10)
       (OfficeCleanV1.pricing rooms kitchensCount kitchenSizeId
          toiletRoomsCount avgCubicles extras form)) ∧
  teamRuleHolds 1 4 (17 # 10) HomeClean.pricing.
Proof.
  split; [|split; [|split]].
  - intros form.
    apply (team_rule_lines 2 4 (16 # 10));
      [apply (halfIntegral_Z 2) | discriminate | discriminate].
  - intros rooms extras form date.
    apply (team_rule_lines 2 4 (17 # 10));
      [apply (halfIntegral_Z 2) | discriminate | discriminate].
  - intros rooms kitchensCount kitchenSizeId toiletRoomsCount avgCubicles
      extras form.
    apply (team_rule_lines 2 6 (17 # 10));
      [apply (halfIntegral_Z 2) | discriminate | discriminate].
  - split.
    + intros L. exfalso. revert L. now vm_compute.
    + intros _. split; reflexivity.
Qed.

Lemma team_rule_witness :
  let q := HomeCleanV1.pricing eightBedrooms in
  (4 < baseEstimatedHours q)%Q ∧ teamApplied q = true ∧
  (estimatedHours q == 5)%Q ∧ (estimatedHours q <= baseEstimatedHours q)%Q.
Proof.
  assert (4 < baseEstimatedHours (HomeCleanV1.pricing eightBedrooms))%Q
    as L by reflexivity.
  destruct (proj1 team_rule_in_every_variant eightBedrooms) as [T _].
  destruct (T L) as (Ht & He & Hle).
  split; [exact L|]. split; [exact Ht|]. split; [reflexivity | exact Hle].
Defined.

(** ** The quote invariant *)

(** C1 (as the code has it).  On the residential and both office pages
    the estimate is at least the two-hour minimum and the total is the
    sum of labour, add-ons and supplies fee rounded to pence; the
    promotional page keeps the estimate at its one-hour minimum, charges
    nothing for labour, add-ons or supplies, and quotes the flat deposit
    of 25. *)
Theorem quote_invariant_by_variant :
  (∀ form, quoteInvariant 2 (HomeCleanV1.pricing form)) ∧
  (∀ rooms extras form date,
     quoteInvariant 2 (OfficeClean.pricing rooms extras form date)) ∧
  (∀ rooms kitchensCount kitchenSizeId toiletRoomsCount avgCubicles extras
     form,
     quoteInvariant 2
       (OfficeCleanV1.pricing rooms kitchensCount kitchenSizeId
          toiletRoomsCount avgCubicles extras form)) ∧
  ((1 <= estimatedHours HomeClean.pricing)%Q ∧
   (totalPrice HomeClean.pricing == 25)%Q ∧
   (labour HomeClean.pricing == 0)%Q ∧
   (addOnsTotal HomeClean.pricing == 0)%Q ∧
   (suppliesFee HomeClean.pricing == 0)%Q).
Proof.
  split; [|split; [|split]].
  - intros form. split; [apply Q.le_max_l | reflexivity].
  - intros rooms extras form date. split; [apply Q.le_max_l | reflexivity].
  - intros rooms kitchensCount kitchenSizeId toiletRoomsCount avgCubicles
      extras form.
    split; [apply Q.le_max_l | reflexivity].
  - split; [discriminate|]. split; [reflexivity|].
    split; [reflexivity|]. split; reflexivity.
Qed.

(** C1 (as stated) fails on the promotional page: its total is the
    deposit, not the rounded sum of its (zero) charges. *)
Lemma promo_total_is_not_the_sum : ¬ quoteInvariant 1 HomeClean.pricing.
Proof. intros [_ E]. revert E. now vm_compute. Qed.

(** ** Day availability *)

(** C8.  [getDayAvail] reads the lower-case weekday key and, when that
    key is absent (or null), the capitalised one; it answers [null] when
    the availability is not an object, when neither key has an entry, or
    when the entry is not an object; and for an entry it takes the start
    from [startTime] (or [from]) and the end from [endTime] (or [to]),
    each on its own defaulting to 07:00 and 20:00 when missing or empty.
    A record with only [endTime] 18:00 gives 07:00 to 18:00. *)
Theorem getDayAvail_lookup_and_defaults :
  (∀ (obj : object) (weekdayLower : string),
     let entry :=
       match obj !! weekdayLower with
       | Some Undefined | Some Null | None =>
           default Undefined (obj !! titleCaseDay weekdayLower)
       | Some v => v
       end in
     match entry with
     | Object aRec =>
         ∃ av, getDayAvail (Object obj) weekdayLower = Some av ∧
           available av = truthy (get aRec "available") ∧
           start av =
             (if truthy (get aRec "startTime") then get aRec "startTime"
              else if truthy (get aRec "from") then get aRec "from"
              else Str "07:00") ∧
           end_ av =
             (if truthy (get aRec "endTime") then get aRec "endTime"
              else if truthy (get aRec "to") then get aRec "to"
              else Str "20:00")
     | _ => getDayAvail (Object obj) weekdayLower = None
     end) ∧
  (∀ (availObj : value) (weekdayLower : string),
     (∀ obj, availObj ≠ Object obj) →
     getDayAvail availObj weekdayLower = None) ∧
  getDayAvail
    (Object {[ "monday" :=
                 Object {[ "available" := Bool true;
                           "endTime" := Str "18:00" ]} ]})
    "monday"
  = Some {| available := true; start := Str "07:00"; end_ := Str "18:00" |} ∧
  getDayAvail
    (Object {[ "Monday" :=
                 Object {[ "available" := Bool true;
                           "startTime" := Str "10:00" ]} ]})
    "monday"
  = Some {| available := true; start := Str "10:00"; end_ := Str "20:00" |}.
Proof.
  split; [|split; [|split]].
  - intros obj wd entry.
    assert (entry = nullish (get obj wd) (get obj (titleCaseDay wd))) as E.
    { unfold entry, get, nullish. now destruct (obj !! wd) as [[]|]. }
    clearbody entry. unfold getDayAvail. rewrite <- E.
    destruct entry as [| | | | |aRec]; try reflexivity.
    eexists. split; [reflexivity|]. now unfold or_else.
  - intros availObj wd N. destruct availObj; try reflexivity.
    now destruct (N fields).
  - now vm_compute.
  - now vm_compute.
Qed.

Lemma getDayAvail_witness :
  getDayAvail (Str "always") "monday" = None.
Proof.
  apply (proj1 (proj2 getDayAvail_lookup_and_defaults)). discriminate.
Defined.

(** ** Phone numbers *)

Lemma startsWith_spec (p s : string) :
  startsWith p s = true ↔ ∃ rest, s = p +:+ rest.
Proof.
  revert s. induction p as [|a p IH]; intros s; cbn.
  - split; [intros _; now exists s | reflexivity].
  - destruct s as [|b s].
    + split; [discriminate | intros [rest E]; discriminate].
    + rewrite andb_true_iff, Ascii.eqb_eq, IH. split.
      * intros [-> [rest ->]]. now exists rest.
      * intros [rest E]. injection E as -> ->. split; [reflexivity|].
        now exists rest.
Qed.

Lemma national_spec (raw : string) :
  startsWith "0" (digitsOf raw) && (10 <=? str_length (digitsOf raw))%nat
  = true ↔ national raw.
Proof.
  unfold national.
  rewrite andb_true_iff, startsWith_spec, Nat.leb_le. reflexivity.
Qed.

Lemma phoneRule_functional (raw out1 out2 : string) :
  phoneRule raw out1 → phoneRule raw out2 → out1 = out2.
Proof.
  intros [] []; try reflexivity; try contradiction. congruence.
Qed.

(** C7.  For a non-empty input the normaliser returns exactly what the
    rule prescribes: +44 and the digits after the leading 0 when the
    digits start with 0 and are at least ten; else + and the digits when
    they start with 44; else the trimmed input when that starts with +;
    else + and the digits. *)
Theorem toE164UK_follows_rule (raw out : string) :
  raw ≠ "" →
  is_Some (toE164UK (Some raw)) ∧
  (toE164UK (Some raw) = Some out ↔ phoneRule raw out) ∧
  toE164UK (Some "07123456789") = Some "+447123456789" ∧
  toE164UK (Some "442071234567") = Some "+442071234567" ∧
  toE164UK (Some "+1 212 555 0100") = Some "+1 212 555 0100".
Proof.
  intros Hne.
  enough (∃ o, toE164UK (Some raw) = Some o ∧ phoneRule raw o)
    as (o & Eo & Ro).
  { split; [now rewrite Eo|]. split; [|now vm_compute].
    rewrite Eo. split.
    - now intros [= <-].
    - intros R. f_equal. eapply phoneRule_functional; eassumption. }
  unfold toE164UK. destruct raw as [|c raw]; [congruence|].
  set (r := String c raw) in *. fold (digitsOf r).
  destruct (startsWith "0" (digitsOf r)
            && (10 <=? str_length (digitsOf r))%nat) eqn:E1.
  { apply national_spec in E1.
    destruct E1 as [[rest Er] Hl]. eexists. split; [reflexivity|].
    rewrite Er at 1. cbn [slice]. apply rule_national; [|exact Er].
    split; [now exists rest | exact Hl]. }
  assert (¬ national r) as N1
    by (rewrite <- national_spec; congruence).
  destruct (startsWith "44" (digitsOf r)) eqn:E2.
  { apply startsWith_spec in E2. eexists. split; [reflexivity|].
    now apply rule_international. }
  assert (¬ international r) as N2.
  { unfold international.
    rewrite <- (startsWith_spec "44"). congruence. }
  destruct (startsWith "+" (trim r)) eqn:E3.
  { apply startsWith_spec in E3. eexists. split; [reflexivity|].
    now apply rule_plus. }
  eexists. split; [reflexivity|]. apply rule_fallback; try assumption.
  unfold plusPrefixed. change (String "+" ?x) with ("+" +:+ x).
  rewrite <- (startsWith_spec "+"). congruence.
Qed.

Lemma toE164UK_witness :
  "0161 496 0000" ≠ "" ∧ phoneRule "0161 496 0000" "+441614960000".
Proof.
  assert ("0161 496 0000" ≠ "") as Hne by discriminate.
  split; [exact Hne|].
  apply (proj1 (proj1 (proj2 (toE164UK_follows_rule
                                "0161 496 0000" "+441614960000" Hne)))).
  reflexivity.
Defined.

(** ** Clock strings *)

Lemma clock_parses (hh mm : Z) :
  0 ≤ hh < 100 → 0 ≤ mm < 60 → clockParses hh mm = true.
Proof.
  intros Hh Hm.
  assert (forallb (λ h, forallb (clockParses h) (seqZ 0 60)) (seqZ 0 100)
          = true) as A by (vm_compute; reflexivity).
  rewrite forallb_forall in A.
  assert (In hh (seqZ 0 100)) as Ih
    by (apply list_elem_of_In, elem_of_seqZ; lia).
  specialize (A hh Ih). rewrite forallb_forall in A.
  apply A, list_elem_of_In, elem_of_seqZ. lia.
Qed.

Lemma Math_round_nonneg (q : Q) : (0 <= q)%Q → 0 ≤ Math_round q.
Proof.
  intros L. unfold Math_round.
  change 0 with (Qfloor 0). apply Qfloor_resp_le.
  apply Qle_trans with q; [assumption|].
  rewrite <- (Qplus_0_r q) at 1. apply Qplus_le_r. discriminate.
Qed.

(** C10.  [addHoursToTime] adds the rounded number of minutes to the
    start time and prints hour and minute of the total, the hour being
    the whole quotient by 60, not reduced modulo 24.  A slot at 20:00
    with an estimate of 5 hours ends at "25:00": the page offers that
    slot to a cleaner working until 21:00, and the residential page
    quotes 5 hours for eight bedrooms and persists that end time. *)
Theorem addHoursToTime_does_not_wrap :
  (∀ (hh mm : Z) (h : Q),
     0 ≤ hh < 24 → 0 ≤ mm < 60 → (0 <= h)%Q →
     let total := hh * 60 + mm + Math_round (h * 60) in
     addHoursToTime (clock hh mm) (Num h)
     = padStart 2 "0" (pretty (total / 60)) +:+ ":" +:+
       padStart 2 "0" (pretty (total `mod` 60))) ∧
  addHoursToTime "20:00" (Num 5) = "25:00" ∧
  (let H := decimalRuntime in
   "20" ∈ availableTimes
            (loadTimes mondayMorning (oneCleaner "09:00" "21:00")
                       (freshPage (Some thursday) ""))) ∧
  (estimatedHours (HomeCleanV1.pricing eightBedrooms) == 5)%Q ∧
  (∃ id doc,
     SetDoc "bookings" id doc
       ∈ HomeCleanV1.onSubmit None (1 # 2) (freshPage (Some thursday) "20")
           eightBedrooms ∧
     startTime doc = "20:00" ∧ endTime doc = "25:00").
Proof.
  split; [|split; [|split; [|split]]].
  - intros hh mm h Hh Hm Hq total.
    pose proof (clock_parses hh mm ltac:(lia) Hm) as P.
    unfold clockParses in P.
    rewrite !andb_true_iff, negb_true_iff, !bool_decide_eq_true,
      bool_decide_eq_false in P.
    destruct P as [[[Es Eh] Em] En].
    unfold addHoursToTime. rewrite Es.
    cbn [lookup list_lookup default from_option id].
    rewrite (bool_decide_eq_false_2 _ En), Eh, Em.
    cbn [iadd imul mbind option_bind fmap option_fmap option_map String_].
    fold total.
    assert (0 ≤ total).
    { pose proof (Math_round_nonneg (h * 60)) as R. unfold total.
      assert (0 <= h * 60)%Q
        by (apply Qmult_le_0_compat; [assumption|discriminate]).
      specialize (R ltac:(assumption)). lia. }
    clearbody total. rewrite Z.rem_mod_nonneg by lia. reflexivity.
  - now vm_compute.
  - apply (bool_decide_unpack _). now vm_compute.
  - reflexivity.
  - eexists _, _. split; [|split].
    + cbv zeta. apply list_elem_of_here.
    + reflexivity.
    + reflexivity.
Qed.

Lemma addHoursToTime_witness :
  addHoursToTime (clock 19 30) (Num (9 # 2)) = "24:00".
Proof.
  refine (proj1 addHoursToTime_does_not_wrap 19 30 (9 # 2)%Q _ _ _);
    [lia | lia | discriminate].
Defined.

(** ** Validation before side effects *)

Ltac validation_cases :=
  repeat match goal with
         | |- context [bool_decide (?x = "")] =>
             destruct (bool_decide_reflect (x = "")); cbn [orb]
         end.

(** The current office and residential pages stop at the first missing
    field with one alert and nothing written or sent. *)
Lemma current_pages_validate_first (rnd : Q) (st : PageState)
    (rooms : list Room) (extras : Extras) (form : Form) :
  incomplete st form →
  rejected (OfficeClean.onSubmit rnd st rooms extras form) ∧
  rejected (HomeClean.onSubmit rnd st form).
Proof.
  intros I. unfold rejected, OfficeClean.onSubmit, HomeClean.onSubmit.
  destruct (selectedDate st) as [date|] eqn:Ed;
    [|split; eexists; reflexivity].
  validation_cases; try (split; eexists; reflexivity).
  all: exfalso; unfold incomplete in I; intuition congruence.
Qed.

(** The promotional page also requires the products choice. *)
Lemma promo_requires_products (rnd : Q) (st : PageState) (form : Form) :
  products form = "" → rejected (HomeClean.onSubmit rnd st form).
Proof.
  intros E. unfold rejected, HomeClean.onSubmit.
  destruct (selectedDate st) as [date|]; [|eexists; reflexivity].
  validation_cases; try (eexists; reflexivity). all: congruence.
Qed.

(** C5 (where the code departs from it).  The first revisions of the
    residential and of the office page check date, time, name, email and
    phone only: a submission without address line, town and postcode is
    written to the bookings collection. *)
Theorem first_revisions_write_without_postcode :
  (∃ id doc,
     SetDoc "bookings" id doc
       ∈ HomeCleanV1.onSubmit None (1 # 2) (freshPage (Some thursday) "10")
           eightBedrooms ∧
     postcode (address doc) = "" ∧ line1 (address doc) = "" ∧
     town (address doc) = "") ∧
  (∃ id doc,
     SetDoc "bookings" id doc
       ∈ OfficeCleanV1.onSubmit (1 # 2) (freshPage (Some thursday) "10")
           [] 0 "" 0 1 noExtras noAddress ∧
     postcode (address doc) = "" ∧ line1 (address doc) = "" ∧
     town (address doc) = "").
Proof.
  split; eexists _, _; (split; [cbv zeta; apply list_elem_of_here|]);
    split; [reflexivity | split; reflexivity | reflexivity
           | split; reflexivity].
Qed.

(** ** Failed reads *)

Section FailedReads.
Context `{Runtime}.

(** C9.  A failed read never leaves the two computations as an error:
    when the roster cannot be read the scanner blocks nothing, and when
    the roster, the override of the day or the bookings of the day
    cannot be read (or anything else throws) the filter offers no slot.
    Both end in an ordinary page state. *)
Theorem failed_reads_are_absorbed (now : Z) (db : Firestore)
    (st : PageState) (e : exn) :
  (staffDocs db = Throw e →
   blockedDates (computeBlockedDays now db st) = ∅) ∧
  (staffDocs db = Throw e →
   availableTimes (loadTimes now db st) = []) ∧
  (∀ date, selectedDate st = Some date →
     unavailabilityDoc db (ymd date) = Throw e
     ∨ bookingDocs db (ymd date) = Throw e →
     availableTimes (loadTimes now db st) = []) ∧
  (loadTimesBody now db st = Throw e →
   availableTimes (loadTimes now db st) = []) ∧
  timesLoading (loadTimes now db st) = false.
Proof.
  split; [|split; [|split; [|split]]].
  - intros E. unfold computeBlockedDays. cbn [blockedDates].
    now rewrite E.
  - intros E. unfold loadTimes, loadTimesBody. cbn [availableTimes].
    destruct (selectedDate st) as [date|]; [|reflexivity].
    destruct (bool_decide _); [reflexivity|].
    destruct (unavailabilityDoc db (ymd date)); [|reflexivity].
    cbn [mbind result_bind].
    destruct (bookingDocs db (ymd date)); [|reflexivity].
    now rewrite E.
  - intros date Ed [E|E]; unfold loadTimes, loadTimesBody;
      cbn [availableTimes]; rewrite Ed; destruct (bool_decide _);
      try reflexivity.
    + now rewrite E.
    + destruct (unavailabilityDoc db (ymd date)); [|reflexivity].
      cbn [mbind result_bind]. now rewrite E.
  - intros E. unfold loadTimes. cbn [availableTimes]. now rewrite E.
  - reflexivity.
Qed.

End FailedReads.

Lemma failed_reads_witness :
  let H := decimalRuntime in
  blockedDates
    (computeBlockedDays mondayMorning unreadableRoster
       (freshPage (Some thursday) "9")) = ∅ ∧
  availableTimes
    (loadTimes mondayMorning unreadableRoster
       (freshPage (Some thursday) "9")) = [].
Proof.
  intros H.
  pose proof (@failed_reads_are_absorbed H mondayMorning unreadableRoster
                (freshPage (Some thursday) "9") FetchError) as (A & B & _).
  split; [apply A | apply B]; reflexivity.
Defined.

(** ** The calendar *)

Lemma civil_MakeDay (z : Z) :
  let '(y, m, d) := Date.civil z in Date.MakeDay y m d = z.
Proof.
  unfold Date.civil, Date.MakeDay. cbv zeta.
  set (z' := z + 719468).
  set (era := z' / 146097). set (doe := z' mod 146097).
  assert (0 ≤ doe < 146097) as Hdoe by (apply Z.mod_pos_bound; lia).
  assert (z' = era * 146097 + doe) as Hz
    by (unfold era, doe; rewrite (Z.div_mod z' 146097) at 1; lia).
  clearbody era doe.
  set (yoe := (doe - doe / 1460 + doe / 36524 - doe / 146096) / 365).
  assert (0 ≤ yoe < 400 ∧
          0 ≤ doe - (365 * yoe + yoe / 4 - yoe / 100) < 366) as Hyoe
    by (unfold yoe; Z.div_mod_to_equations; lia).
  clearbody yoe.
  set (doy := doe - (365 * yoe + yoe / 4 - yoe / 100)) in *.
  assert (doe = doy + (365 * yoe + yoe / 4 - yoe / 100)) as Hdoy
    by (unfold doy; lia).
  clearbody doy.
  set (mp := (5 * doy + 2) / 153).
  assert (0 ≤ mp < 12 ∧ 153 * mp ≤ 5 * doy + 2 < 153 * mp + 153) as Hmp
    by (unfold mp; Z.div_mod_to_equations; lia).
  clearbody mp.
  destruct (Z.ltb_spec mp 10).
  - destruct (Z.leb_spec (mp + 3) 2); [lia|].
    destruct (Z.ltb_spec 2 (mp + 3)); [|lia].
    replace (yoe + era * 400 + 0) with (yoe + era * 400) by lia.
    replace ((yoe + era * 400) / 400) with era
      by (Z.div_mod_to_equations; lia).
    replace ((yoe + era * 400) mod 400) with yoe
      by (Z.div_mod_to_equations; lia).
    replace (mp + 3 - 3) with mp by lia.
    Z.div_mod_to_equations; lia.
  - destruct (Z.leb_spec (mp - 9) 2); [|lia].
    destruct (Z.ltb_spec 2 (mp - 9)); [lia|].
    replace (yoe + era * 400 + 1 - 1) with (yoe + era * 400) by lia.
    replace ((yoe + era * 400) / 400) with era
      by (Z.div_mod_to_equations; lia).
    replace ((yoe + era * 400) mod 400) with yoe
      by (Z.div_mod_to_equations; lia).
    replace (mp - 9 + 9) with mp by lia.
    Z.div_mod_to_equations; lia.
Qed.

Lemma civil_range (z : Z) :
  let '(y, m, d) := Date.civil z in 1 ≤ m ≤ 12 ∧ 1 ≤ d ≤ 31.
Proof.
  unfold Date.civil. cbv zeta.
  set (doe := (z + 719468) mod 146097).
  assert (0 ≤ doe < 146097) as Hdoe by (apply Z.mod_pos_bound; lia).
  clearbody doe.
  set (yoe := (doe - doe / 1460 + doe / 36524 - doe / 146096) / 365).
  assert (0 ≤ yoe < 400 ∧
          0 ≤ doe - (365 * yoe + yoe / 4 - yoe / 100) < 366) as Hyoe
    by (unfold yoe; Z.div_mod_to_equations; lia).
  clearbody yoe.
  set (doy := doe - (365 * yoe + yoe / 4 - yoe / 100)) in *.
  clearbody doy.
  set (mp := (5 * doy + 2) / 153).
  assert (0 ≤ mp < 12 ∧ 153 * mp ≤ 5 * doy + 2 < 153 * mp + 153) as Hmp
    by (unfold mp; Z.div_mod_to_equations; lia).
  clearbody mp.
  destruct (Z.ltb_spec mp 10); (split; [lia|]);
    Z.div_mod_to_equations; lia.
Qed.

Lemma civil_inj (z1 z2 : Z) : Date.civil z1 = Date.civil z2 → z1 = z2.
Proof.
  intros E. pose proof (civil_MakeDay z1) as R1.
  pose proof (civil_MakeDay z2) as R2. rewrite E in R1.
  destruct (Date.civil z2) as [[y m] d]. congruence.
Qed.

Lemma MakeDay_shift (y m d i : Z) :
  Date.MakeDay y m (d + i) = Date.MakeDay y m d + i.
Proof. unfold Date.MakeDay. cbv zeta. lia. Qed.

Lemma Day_of_midnight (n r : Z) :
  0 ≤ r < Date.msPerDay → Date.Day (n * Date.msPerDay + r) = n.
Proof.
  intros Hr. unfold Date.Day, Date.msPerDay in *.
  Z.div_mod_to_equations; lia.
Qed.

Lemma setHours_midnight (t : Z) :
  Date.setHours t 0 = Date.Day t * Date.msPerDay.
Proof. unfold Date.setHours. lia. Qed.

(** Iteration [i] of the scan visits the day [i] days from today. *)
Lemma scanDate_is_offset (now i : Z) :
  scanDate now i = Date.setHours now 0 + i * Date.msPerDay.
Proof.
  unfold scanDate. rewrite !setHours_midnight.
  assert (Date.Day (Date.Day now * Date.msPerDay) = Date.Day now) as E0.
  { rewrite <- (Z.add_0_r (_ * _)). apply Day_of_midnight.
    unfold Date.msPerDay. lia. }
  unfold Date.setDate, Date.getDate, Date.getFullYear, Date.getMonth.
  rewrite E0. pose proof (civil_MakeDay (Date.Day now)) as R.
  destruct (Date.civil (Date.Day now)) as [[y m] d]. cbn [fst snd].
  replace (m - 1 + 1) with m by lia.
  rewrite MakeDay_shift, R, Day_of_midnight; [lia|].
  apply Z.mod_pos_bound. unfold Date.msPerDay. lia.
Qed.

(** ** Date keys *)

Lemma app_nil (t : string) : "" +:+ t = t.
Proof. reflexivity. Qed.

Lemma app_cons (c : ascii) (s t : string) :
  String c s +:+ t = String c (s +:+ t).
Proof. reflexivity. Qed.

Lemma str_length_app (s t : string) :
  str_length (s +:+ t) = (str_length s + str_length t)%nat.
Proof.
  induction s as [|c s IH]; [reflexivity|].
  rewrite app_cons. cbn. now rewrite IH.
Qed.

Lemma app_inj_tail (s1 s2 t1 t2 : string) :
  s1 +:+ t1 = s2 +:+ t2 → str_length t1 = str_length t2 →
  s1 = s2 ∧ t1 = t2.
Proof.
  revert s2. induction s1 as [|a s1 IH]; intros [|b s2] E L;
    rewrite ?app_nil, ?app_cons in E.
  - now split.
  - exfalso. apply (f_equal str_length) in E. cbn in E.
    rewrite str_length_app in E. lia.
  - exfalso. apply (f_equal str_length) in E. cbn in E.
    rewrite str_length_app in E. lia.
  - injection E as -> E. destruct (IH _ E L) as [-> ->]. now split.
Qed.

Lemma two_digits (n : Z) : 0 ≤ n < 100 → twoDigits n = true.
Proof.
  intros Hn.
  assert (forallb twoDigits (seqZ 0 100) = true) as A
    by (vm_compute; reflexivity).
  rewrite forallb_forall in A.
  apply A, list_elem_of_In, elem_of_seqZ. lia.
Qed.

Lemma pad2_inj (a b : Z) :
  0 ≤ a < 100 → 0 ≤ b < 100 →
  padStart 2 "0" (pretty a) = padStart 2 "0" (pretty b) → a = b.
Proof.
  intros Ha Hb E.
  pose proof (two_digits a Ha) as Pa. pose proof (two_digits b Hb) as Pb.
  unfold twoDigits in Pa, Pb.
  rewrite andb_true_iff, !bool_decide_eq_true in Pa, Pb.
  destruct Pa as [_ Pa], Pb as [_ Pb]. congruence.
Qed.

(** The key determines the calendar day. *)
Lemma ymd_inj (t1 t2 : Z) : ymd t1 = ymd t2 → Date.Day t1 = Date.Day t2.
Proof.
  unfold ymd, Date.getFullYear, Date.getMonth, Date.getDate. intros E.
  apply civil_inj.
  pose proof (civil_range (Date.Day t1)) as R1.
  pose proof (civil_range (Date.Day t2)) as R2.
  destruct (Date.civil (Date.Day t1)) as [[y1 m1] d1].
  destruct (Date.civil (Date.Day t2)) as [[y2 m2] d2].
  cbn [fst snd] in E.
  replace (m1 - 1 + 1) with m1 in E by lia.
  replace (m2 - 1 + 1) with m2 in E by lia.
  pose proof (two_digits m1 ltac:(lia)) as [L1 _]%andb_true_iff.
  pose proof (two_digits m2 ltac:(lia)) as [L2 _]%andb_true_iff.
  pose proof (two_digits d1 ltac:(lia)) as [K1 _]%andb_true_iff.
  pose proof (two_digits d2 ltac:(lia)) as [K2 _]%andb_true_iff.
  apply bool_decide_eq_true in L1, L2, K1, K2.
  apply app_inj_tail in E as [Ey E];
    [|rewrite ?app_cons, ?app_nil; cbn [str_length];
      rewrite !str_length_app, ?app_cons, ?app_nil; cbn [str_length]; lia].
  apply (inj pretty) in Ey. rewrite ?app_cons, ?app_nil in E.
  injection E as E.
  apply app_inj_tail in E as [Em E];
    [|rewrite ?app_cons, ?app_nil; cbn [str_length]; lia].
  rewrite ?app_cons, ?app_nil in E. injection E as Ed.
  apply pad2_inj in Em, Ed; try lia. congruence.
Qed.

(** ** The blocked-date scanner *)

Lemma Math_min_finite (a : Q) (qs : list Q) :
  ∃ m, Math_min (Num a) (Num <$> qs) = Num m ∧
       (m <= a)%Q ∧ Forall (λ q, (m <= q)%Q) qs ∧
       ((m == a)%Q ∨ Exists (λ q, (m == q)%Q) qs).
Proof.
  unfold Math_min. revert a.
  induction qs as [|q qs IH]; intros a; cbn [fmap list_fmap foldl lift2].
  - exists a. split; [reflexivity|]. split; [apply Qle_refl|].
    split; [constructor | left; reflexivity].
  - destruct (IH (Qmin a q)) as (m & E & L & F & X).
    exists m. split; [exact E|].
    assert (m <= a)%Q by (eapply Qle_trans; [exact L | apply Q.le_min_l]).
    assert (m <= q)%Q by (eapply Qle_trans; [exact L | apply Q.le_min_r]).
    split; [assumption|]. split; [now constructor|].
    destruct X as [X|X]; [|right; now constructor].
    destruct (Q.min_spec a q) as [[_ Em]|[_ Em]]; rewrite Em in X.
    + now left.
    + right. now constructor.
Qed.

Section Scanner.
Context `{Runtime}.

Lemma scan_membership (now : Z) (staff : list object) (k : string)
    (l : list Z) (acc : gset string) :
  k ∈ foldl (scanStep now staff) acc l ↔
  k ∈ acc ∨ ∃ i, i ∈ l ∧ scanBlocks now staff i = true
                 ∧ k = ymd (scanDate now i).
Proof.
  revert acc. induction l as [|j l IH]; intros acc; cbn [foldl].
  - split; [now left | intros [?|(i & Hi & _)]; [assumption|]].
    now apply not_elem_of_nil in Hi.
  - rewrite IH. unfold scanStep at 1.
    destruct (scanBlocks now staff j) eqn:Ej.
    + rewrite elem_of_union, elem_of_singleton. split.
      * intros [[->|?]|(i & Hi & Hb & ->)].
        -- right. exists j. split; [apply list_elem_of_here | now split].
        -- now left.
        -- right. exists i. split; [now apply list_elem_of_further|].
           now split.
      * intros [?|(i & Hi & Hb & ->)]; [left; now right|].
        apply elem_of_cons in Hi as [->|Hi]; [left; now left|].
        right. exists i. now repeat split.
    + split.
      * intros [?|(i & Hi & Hb & ->)]; [now left|].
        right. exists i. split; [now apply list_elem_of_further|].
        now split.
      * intros [?|(i & Hi & Hb & ->)]; [now left|].
        apply elem_of_cons in Hi as [->|Hi]; [congruence|].
        right. exists i. now repeat split.
Qed.

Lemma scan_day (now i : Z) :
  Date.Day (scanDate now i) = Date.Day now + i.
Proof.
  rewrite scanDate_is_offset, setHours_midnight.
  replace (Date.Day now * Date.msPerDay + i * Date.msPerDay)
    with ((Date.Day now + i) * Date.msPerDay + 0) by lia.
  apply Day_of_midnight. unfold Date.msPerDay. lia.
Qed.

(** Within the window the key of a day is in the set exactly when its
    own iteration added it. *)
Lemma scan_key (now : Z) (staff : list object) (i : Z) :
  -30 ≤ i < 60 →
  ymd (scanDate now i) ∈ foldl (scanStep now staff) ∅ (seqZ (-30) 90)
  ↔ scanBlocks now staff i = true.
Proof.
  intros Hi. rewrite scan_membership. split.
  - intros [Hn|(j & Hj & Hb & E)]; [now apply not_elem_of_empty in Hn|].
    apply ymd_inj in E. rewrite !scan_day in E.
    now replace i with j by lia.
  - intros Hb. right. exists i. split; [|now split].
    apply elem_of_seqZ. lia.
Qed.

End Scanner.

Section BlockedDates.
Context `{Runtime}.

(** The global notice is 12 for an empty roster and otherwise the least
    of the members' notices (a member without the field counting 12). *)
Lemma globalMinNotice_is_minimum (staff : list object) (notice : object → Q) :
  (∀ s, s ∈ staff →
     Number (nullish (get s "minNoticeHours") (Number_ (Num 12)))
     = Num (notice s)) →
  match staff with
  | [] => globalMinNotice staff = Num 12
  | _ :: _ =>
      ∃ m, globalMinNotice staff = Num m ∧
           (∀ s, s ∈ staff → (m <= notice s)%Q) ∧
           (∃ s, s ∈ staff ∧ (m == notice s)%Q)
  end.
Proof.
  intros N. destruct staff as [|s rest]; [reflexivity|].
  unfold globalMinNotice.
  rewrite (N s (list_elem_of_here _ _)).
  assert ((λ s0, Number (nullish (get s0 "minNoticeHours")
                                 (Number_ (Num 12)))) <$> rest
          = Num <$> (notice <$> rest)) as ->.
  { rewrite <- list_fmap_compose. apply list_fmap_ext.
    intros ? x Hx. apply N, list_elem_of_further.
    eapply list_elem_of_lookup_2, Hx. }
  destruct (Math_min_finite (notice s) (notice <$> rest))
    as (m & E & L & F & X).
  exists m. split; [exact E|]. split.
  - intros s0 [->|Hs]%elem_of_cons; [exact L|].
    rewrite Forall_forall in F. apply F, list_elem_of_fmap. now exists s0.
  - destruct X as [X|X].
    + exists s. split; [apply list_elem_of_here | exact X].
    + apply Exists_exists in X as (q & Hq & Eq).
      apply list_elem_of_fmap in Hq as (s0 & -> & Hs0).
      exists s0. split; [now apply list_elem_of_further | exact Eq].
Qed.

(** C4.  With the roster read, a day of the window from 30 days back to
    60 days ahead has its key in the blocked set exactly when it lies
    before today, or no active cleaner is available on its weekday, or
    the notice cutoff (now plus the global minimum notice, as a date)
    lies strictly after 20:00 of that day; so every past day of the
    window is blocked.  The global minimum notice is 12 for an empty
    roster and otherwise the least notice of the active cleaners. *)
Theorem blocked_date_rule (now : Z) (db : Firestore) (st : PageState)
    (staffSnap : list object) (i : Z) :
  staffDocs db = Ok staffSnap →
  -30 ≤ i < 60 →
  let staff := List.filter isActive staffSnap in
  let today0 := Date.setHours now 0 in
  let day := today0 + i * Date.msPerDay in
  let blocked := blockedDates (computeBlockedDays now db st) in
  (ymd day ∈ blocked ↔
     day < today0
     ∨ (∀ s, s ∈ staff → availableOn (weekdayOf day) s = false)
     ∨ num_lt (Num (inject_Z (day + 20 * Date.msPerHour)))
              (noticeCutoff now (globalMinNotice staff)) = true) ∧
  (i < 0 → ymd day ∈ blocked) ∧
  (∀ notice : object → Q,
     (∀ s, s ∈ staff →
        Number (nullish (get s "minNoticeHours") (Number_ (Num 12)))
        = Num (notice s)) →
     match staff with
     | [] => globalMinNotice staff = Num 12
     | _ :: _ =>
         ∃ m, globalMinNotice staff = Num m ∧
              (∀ s, s ∈ staff → (m <= notice s)%Q) ∧
              (∃ s, s ∈ staff ∧ (m == notice s)%Q)
     end).
Proof.
  intros E Hi staff today0 day blocked.
  assert (ymd day ∈ blocked ↔ scanBlocks now staff i = true) as B.
  { unfold blocked, computeBlockedDays. cbn [blockedDates]. rewrite E.
    cbn [mbind result_bind try_catch].
    unfold day, today0. rewrite <- scanDate_is_offset.
    now apply scan_key. }
  assert (scanBlocks now staff i = true ↔
          day < today0
          ∨ (∀ s, s ∈ staff → availableOn (weekdayOf day) s = false)
          ∨ num_lt (Num (inject_Z (day + 20 * Date.msPerHour)))
                   (noticeCutoff now (globalMinNotice staff)) = true) as S.
  { unfold scanBlocks. rewrite scanDate_is_offset. fold today0 day.
    assert (Date.setHours day 20 = day + 20 * Date.msPerHour) as ->.
    { unfold Date.setHours. unfold day, today0.
      rewrite setHours_midnight.
      replace (Date.Day now * Date.msPerDay + i * Date.msPerDay)
        with ((Date.Day now + i) * Date.msPerDay + 0) by lia.
      rewrite Day_of_midnight; [lia | unfold Date.msPerDay; lia]. }
    fold (noticeCutoff now (globalMinNotice staff)).
    destruct (Z.ltb_spec day today0) as [L|L]; [tauto|].
    destruct (existsb (availableOn (weekdayOf day)) staff) eqn:X;
      cbn [negb].
    - apply existsb_exists in X as (s & Hs & As).
      apply list_elem_of_In in Hs. split; [tauto|].
      intros [?|[A|?]]; [lia| |assumption].
      specialize (A s Hs). congruence.
    - split; [|reflexivity]. intros _. right. left. intros s Hs.
      destruct (availableOn (weekdayOf day) s) eqn:As; [|reflexivity].
      assert (existsb (availableOn (weekdayOf day)) staff = true);
        [|congruence].
      apply existsb_exists. exists s. now rewrite <- list_elem_of_In. }
  split; [now rewrite B|]. split.
  - intros Hneg. apply B, S. left. unfold day, Date.msPerDay. lia.
  - intros notice. apply globalMinNotice_is_minimum.
Qed.

End BlockedDates.

Lemma blocked_date_witness :
  let H := decimalRuntime in
  ymd (Date.setHours mondayMorning 0 + -1 * Date.msPerDay)
    ∈ blockedDates
        (computeBlockedDays mondayMorning (oneCleaner "09:00" "17:00")
           (freshPage None "")).
Proof.
  intros H.
  refine (proj1 (proj2 (@blocked_date_rule H mondayMorning
                          (oneCleaner "09:00" "17:00") (freshPage None "")
                          [everyDay "09:00" "17:00"] (-1) _ _)) _);
    [reflexivity | lia | lia].
Defined.

(** C4 (as stated) fails in two ways.  When the roster cannot be read
    the scanner blocks nothing, so yesterday is not blocked although it
    lies before today.  And the cutoff is a date, which holds whole
    milliseconds: at 10:00 with a notice of ten hours and half a
    millisecond, now plus the notice lies after 20:00 of today, an
    active cleaner is available, and today is not blocked. *)
Lemma blocked_date_rule_fails_as_stated :
  let H := decimalRuntime in
  let today := Date.setHours mondayMorning 0 in
  let yesterday := today + -1 * Date.msPerDay in
  (yesterday < today ∧
   ymd yesterday
     ∉ blockedDates
         (computeBlockedDays mondayMorning unreadableRoster
            (freshPage None ""))) ∧
  (∃ staff,
     staffDocs fussyRoster = Ok staff ∧
     forallb isActive staff = true ∧
     existsb (availableOn (weekdayOf today)) staff = true ∧
     globalMinNotice staff = Num fussyNotice ∧
     (inject_Z (today + 20 * Date.msPerHour)
      < inject_Z mondayMorning + fussyNotice * 3600000)%Q ∧
     ¬ today < today ∧
     ymd today
       ∉ blockedDates
           (computeBlockedDays mondayMorning fussyRoster
              (freshPage None ""))).
Proof.
  intros H today yesterday. split.
  - split; [now vm_compute|].
    assert (bool_decide
              (ymd yesterday
                 ∈ blockedDates
                     (computeBlockedDays mondayMorning unreadableRoster
                        (freshPage None ""))) = false) as B
      by (vm_compute; reflexivity).
    now apply bool_decide_eq_false in B.
  - eexists. split; [reflexivity|].
    split; [vm_compute; reflexivity|]. split; [vm_compute; reflexivity|].
    split; [vm_compute; reflexivity|]. split; [vm_compute; reflexivity|].
    split; [lia|].
    assert (bool_decide
              (ymd today
                 ∈ blockedDates
                     (computeBlockedDays mondayMorning fussyRoster
                        (freshPage None ""))) = false) as B
      by (vm_compute; reflexivity).
    now apply bool_decide_eq_false in B.
Qed.

(** ** The booking conflict filter *)

Lemma filter_filter {A} (p q : A → bool) (l : list A) :
  List.filter q (List.filter p l) = List.filter (λ x, p x && q x) l.
Proof.
  induction l as [|x l IH]; [reflexivity|]. cbn.
  destruct (p x); cbn; [destruct (q x)|]; now rewrite IH.
Qed.

Lemma StronglySorted_filter {A} (R : relation A) (p : A → bool)
    (l : list A) :
  StronglySorted R l → StronglySorted R (List.filter p l).
Proof.
  induction 1 as [|x l S IH F]; cbn; [constructor|].
  destruct (p x); [|assumption]. constructor; [assumption|].
  rewrite Forall_forall in *. intros y Hy.
  apply F. apply list_elem_of_In in Hy. apply list_elem_of_In.
  now apply filter_In in Hy as [Hy _].
Qed.

Lemma grid_keys : (λ h, h +:+ ":00") <$> ALL_TIMES = slotKey <$> seqZ 7 14.
Proof. reflexivity. Qed.

Lemma hourOf_slotKey (h : Z) : 7 ≤ h ≤ 20 → hourOf (slotKey h) = pretty h.
Proof.
  intros Hh.
  assert (forallb (λ z, bool_decide (hourOf (slotKey z) = pretty z))
                  (seqZ 7 14) = true) as A by (vm_compute; reflexivity).
  rewrite forallb_forall in A.
  eapply bool_decide_eq_true_1, A, list_elem_of_In, elem_of_seqZ. lia.
Qed.

Lemma grid_sorted : StronglySorted Z.lt (seqZ 7 14).
Proof. apply (bool_decide_unpack _). now vm_compute. Qed.

Section ConflictFilter.
Context `{Runtime}.

(** When the slot loop returns, it returns the hours of the candidate
    keys it offers, in the order of the candidates. *)
Lemma slotLoop_filter (date : Z) (cutoff : number) (weekday : string)
    (bookings dayStaff : list object) (candidate refined : list string) :
  slotLoop date cutoff weekday bookings dayStaff candidate = Ok refined →
  refined
  = hourOf <$> List.filter (slotOffered date cutoff weekday bookings dayStaff)
                           candidate.
Proof.
  revert refined. induction candidate as [|k ks IH]; intros refined.
  - now intros [= <-].
  - cbn [slotLoop List.filter]. unfold slotOffered at 1. fold (hourOf k).
    destruct (num_lt _ cutoff); cbn [negb andb].
    + apply IH.
    + cbn [timeToMinutes mbind result_bind].
      destruct (staffLoop weekday bookings _ dayStaff) as [b|e];
        [|discriminate].
      destruct (slotLoop date cutoff weekday bookings dayStaff ks)
        as [r|e]; [|discriminate].
      intros [= <-]. rewrite (IH r eq_refl). now destruct b.
Qed.

End ConflictFilter.

Section OfferedSlots.
Context `{Runtime}.

(** The removed set of an override: the truthy entries of its
    [bookedTimeSlots] map, or else its truthy hourly flags. *)
Lemma bookedLegacy_spec (data : object) (k : string) :
  k ∈ bookedLegacy (Some data) ↔
  match get data "bookedTimeSlots" with
  | Object booked => truthy (get booked k) = true
  | _ =>
      (∃ h, 7 ≤ h ≤ 20 ∧ k = slotKey h) ∧ truthy (get data k) = true
  end.
Proof.
  unfold bookedLegacy.
  assert (k ∈ (list_to_set
                 (List.filter (λ k0, truthy (get data k0))
                              ((λ h, pretty h +:+ ":00") <$> seqZ 7 14))
               : gset string)
          ↔ (∃ h, 7 ≤ h ≤ 20 ∧ k = slotKey h)
            ∧ truthy (get data k) = true)
    as L.
  { rewrite elem_of_list_to_set, list_elem_of_In, filter_In,
      <- list_elem_of_In, list_elem_of_fmap.
    setoid_rewrite elem_of_seqZ. split.
    - intros [(h & -> & Hh) T]. split; [|exact T]. exists h.
      split; [lia | reflexivity].
    - intros [(h & Hh & ->) T]. split; [|exact T]. exists h.
      split; [reflexivity | lia]. }
  destruct (get data "bookedTimeSlots") as [| | | | |booked]; try exact L.
  rewrite elem_of_dom. unfold is_Some, get.
  setoid_rewrite map_lookup_filter_Some. cbn. split.
  - intros (v & -> & T). exact T.
  - destruct (booked !! k) as [v|]; [|discriminate].
    intros T. now exists v.
Qed.

Lemma no_day_staff (weekday : string) (l : list object) :
  (∀ s, s ∈ l → isActive s = true → availableOn weekday s = false) →
  List.filter (λ x, isActive x && availableOn weekday x) l = [].
Proof.
  induction l as [|s l IH]; intros Hs; [reflexivity|]. cbn.
  pose proof (Hs s (list_elem_of_here _ _)) as Hs0.
  assert (isActive s && availableOn weekday s = false) as ->
    by (destruct (isActive s); [now rewrite Hs0 | reflexivity]).
  apply IH. intros s' Hs'. apply Hs. now apply list_elem_of_further.
Qed.

(** C3.  Whatever the override, the bookings, the roster and the date,
    the offered list consists of hour labels of the grid 7..20 in
    strictly ascending order, offers no hour whose key the override of
    the day removes, and is empty when the date is in the blocked set,
    when the roster has no active cleaner available on that weekday, and
    when no date is selected. *)
Theorem offered_slots_invariant (now : Z) (db : Firestore)
    (st : PageState) :
  let offered := availableTimes (loadTimes now db st) in
  (∃ hours : list Z,
     offered = pretty <$> hours ∧ StronglySorted Z.lt hours ∧
     Forall (λ h, 7 ≤ h ≤ 20) hours) ∧
  (∀ date snap h,
     selectedDate st = Some date →
     unavailabilityDoc db (ymd date) = Ok snap →
     h ∈ offered → h +:+ ":00" ∉ bookedLegacy snap) ∧
  (∀ date, selectedDate st = Some date → ymd date ∈ blockedDates st →
     offered = []) ∧
  (∀ date staffSnap,
     selectedDate st = Some date → staffDocs db = Ok staffSnap →
     (∀ s, s ∈ staffSnap → isActive s = true →
        availableOn (weekdayOf date) s = false) →
     offered = []) ∧
  (selectedDate st = None → offered = []).
Proof.
  intros offered.
  assert (∀ date, selectedDate st = Some date →
          offered = [] ∨
          ∃ snap p, unavailabilityDoc db (ymd date) = Ok snap ∧
            offered
            = pretty <$>
                List.filter
                  (λ h, negb (bool_decide (slotKey h ∈ bookedLegacy snap))
                        && p h)
                  (seqZ 7 14)) as Shape.
  { intros date Ed. unfold offered, loadTimes, loadTimesBody.
    cbn [availableTimes]. rewrite Ed.
    destruct (bool_decide _); [now left|].
    destruct (unavailabilityDoc db (ymd date)) as [snap|]; [|now left].
    cbn [mbind result_bind].
    destruct (bookingDocs db (ymd date)) as [bookings|]; [|now left].
    cbn [mbind result_bind].
    destruct (staffDocs db) as [staffSnap|]; [|now left].
    cbn [mbind result_bind].
    destruct (List.filter (availableOn (weekdayOf date)) _)
      as [|s rest]; [now left|].
    match goal with
    | |- context [slotLoop ?d ?c ?w ?b ?ss ?cand] =>
        destruct (slotLoop d c w b ss cand) as [refined|] eqn:El;
          [|now left];
        apply slotLoop_filter in El;
        set (q := slotOffered d c w b ss) in El
    end.
    right. exists snap, (λ h, q (slotKey h)). split; [reflexivity|].
    cbn [try_catch]. rewrite El, grid_keys, !filter_map_swap, filter_filter.
    rewrite <- list_fmap_compose. apply list_fmap_ext.
    intros i h Hh. cbn. apply hourOf_slotKey.
    apply list_elem_of_lookup_2, list_elem_of_In, filter_In in Hh as [Hh _].
    apply list_elem_of_In, elem_of_seqZ in Hh. lia. }
  split; [|split; [|split; [|split]]].
  - destruct (selectedDate st) as [date|] eqn:Ed.
    + destruct (Shape date eq_refl) as [->|(snap & p & _ & ->)].
      * exists []. split; [reflexivity|]. split; constructor.
      * eexists. split; [reflexivity|]. split.
        -- apply StronglySorted_filter, grid_sorted.
        -- apply Forall_forall. intros h Hh.
           apply list_elem_of_In, filter_In in Hh as [Hh _].
           apply list_elem_of_In, elem_of_seqZ in Hh. lia.
    + exists []. split; [|split; constructor].
      unfold offered, loadTimes, loadTimesBody. cbn [availableTimes].
      now rewrite Ed.
  - intros date snap h Ed Es Hh.
    destruct (Shape date Ed) as [E|(snap' & p & Es' & E)];
      rewrite E in Hh; [now apply not_elem_of_nil in Hh|].
    assert (snap' = snap) as -> by congruence.
    apply list_elem_of_fmap in Hh as (z & -> & Hz).
    apply list_elem_of_In, filter_In in Hz as [_ Hz].
    apply andb_true_iff in Hz as [Hz _].
    apply negb_true_iff, bool_decide_eq_false in Hz. exact Hz.
  - intros date Ed Hb. unfold offered, loadTimes, loadTimesBody.
    cbn [availableTimes]. rewrite Ed.
    now rewrite (bool_decide_eq_true_2 _ Hb).
  - intros date staffSnap Ed Es Hs.
    unfold offered, loadTimes, loadTimesBody. cbn [availableTimes].
    rewrite Ed. destruct (bool_decide _); [reflexivity|].
    destruct (unavailabilityDoc db (ymd date)); [|reflexivity].
    cbn [mbind result_bind].
    destruct (bookingDocs db (ymd date)); [|reflexivity].
    cbn [mbind result_bind]. rewrite Es. cbn [mbind result_bind].
    rewrite filter_filter.
    now rewrite no_day_staff.
  - intros Ed. unfold offered, loadTimes, loadTimesBody.
    cbn [availableTimes]. now rewrite Ed.
Qed.

End OfferedSlots.

Lemma offered_slots_witness :
  let H := decimalRuntime in
  "10:00" ∉ bookedLegacy
              (Some {[ "bookedTimeSlots" :=
                         Object {[ "9:00" := Bool true;
                                   "10:00" := Bool false ]} ]}).
Proof.
  intros H.
  refine (proj1 (proj2 (@offered_slots_invariant H mondayMorning nineBooked
                          (freshPage (Some thursday) "")))
                thursday _ "10" eq_refl eq_refl _).
  apply (bool_decide_unpack _). now vm_compute.
Defined.

(** ** One cleaner, one booking *)

Lemma Qle_bool_inject (a b : Z) :
  Qle_bool (inject_Z a) (inject_Z b) = (a <=? b).
Proof. unfold Qle_bool, inject_Z. cbn. now rewrite !Z.mul_1_r. Qed.

Lemma within_inject (m a b : Z) :
  within (of_int (Some m)) (Num (inject_Z a)) (Num (inject_Z b))
  = bool_decide (a ≤ m < b).
Proof.
  unfold within, num_ge, num_lt, of_int. rewrite !Qle_bool_inject.
  destruct (Z.leb_spec a m), (Z.leb_spec b m); cbn;
    symmetry;
    first [apply bool_decide_eq_true_2 | apply bool_decide_eq_false_2];
    lia.
Qed.

Lemma num_lt_later (a b : Z) (c : number) :
  a ≤ b → num_lt (Num (inject_Z a)) c = false →
  num_lt (Num (inject_Z b)) c = false.
Proof.
  intros L. destruct c as [|q]; [reflexivity|]. unfold num_lt.
  rewrite !negb_false_iff, !Qle_bool_iff. intros Hq.
  eapply Qle_trans; [exact Hq|]. now rewrite <- Zle_Qle.
Qed.

Section LunchBooking.
Context `{Runtime}.
Variables (weekday : string) (s b : object).
Hypothesis window :
  getDayAvail (get s "availability") weekday
  = Some {| available := true; start := Str "09:00"; end_ := Str "17:00" |}.
Hypothesis buffer : get s "travelBufferMins" = Number_ (Num 30).
Hypothesis bookingStart : get b "startTime" = Str "12:00".
Hypothesis bookingEnd : get b "endTime" = Str "13:00".

Lemma lunch_collision (slotMins : int) :
  collidesWith slotMins (Num 30) b
  = Ok (match slotMins with
        | Some m => bool_decide (690 ≤ m < 810)
        | None => false
        end).
Proof.
  unfold collidesWith. rewrite bookingStart, bookingEnd.
  change (timeToMinutes (Str "12:00")) with (Ok (Some 720) : result int).
  change (timeToMinutes (Str "13:00")) with (Ok (Some 780) : result int).
  cbn [truthy negb orb mbind result_bind bool_decide decide_rel].
  change (negb (bool_decide ("12:00" = ""))) with true.
  change (negb (bool_decide ("13:00" = ""))) with true.
  cbn [negb orb]. f_equal.
  change (Math_max (Num 0) (num_sub (of_int (Some 720)) (Num 30)))
    with (Num (inject_Z 690)).
  change (num_add (of_int (Some 780)) (Num 30)) with (Num (inject_Z 810)).
  destruct slotMins as [m|]; [apply within_inject | reflexivity].
Qed.

Lemma lunch_verdict (slotMins : int) :
  staffLoop weekday [b] slotMins [s]
  = Ok (match slotMins with
        | Some m =>
            bool_decide (540 ≤ m < 1020)
            && negb (bool_decide (690 ≤ m < 810))
        | None => false
        end).
Proof.
  cbn [staffLoop]. rewrite window. cbn [available start end_ negb].
  change (timeToMinutes (Str "09:00")) with (Ok (Some 540) : result int).
  change (timeToMinutes (Str "17:00")) with (Ok (Some 1020) : result int).
  cbn [mbind result_bind]. rewrite buffer.
  change (Number (nullish (Number_ (Num 30)) (Number_ (Num 30))))
    with (Num 30).
  cbn [some]. rewrite lunch_collision. cbn [mbind result_bind].
  destruct slotMins as [m|]; [|reflexivity].
  change (of_int (Some 540)) with (Num (inject_Z 540)).
  change (of_int (Some 1020)) with (Num (inject_Z 1020)).
  rewrite within_inject.
  destruct (bool_decide (540 ≤ m < 1020)); [|reflexivity].
  now destruct (bool_decide (690 ≤ m < 810)).
Qed.

Lemma lunch_slotLoop (date : Z) (cutoff : number) (candidate : list string) :
  slotLoop date cutoff weekday [b] [s] candidate
  = Ok (hourOf <$> List.filter (slotOffered date cutoff weekday [b] [s])
                               candidate).
Proof.
  assert (∃ refined,
            slotLoop date cutoff weekday [b] [s] candidate = Ok refined)
    as [refined E].
  { induction candidate as [|k ks [r IH]]; [eexists; reflexivity|].
    cbn [slotLoop]. destruct (num_lt _ cutoff); [eexists; exact IH|].
    cbn [timeToMinutes mbind result_bind]. rewrite lunch_verdict.
    cbn [mbind result_bind]. rewrite IH. eexists; reflexivity. }
  rewrite E. f_equal. now apply slotLoop_filter.
Qed.

Lemma lunch_offered (date : Z) (cutoff : number) (h : Z) :
  7 ≤ h ≤ 20 →
  slotOffered date cutoff weekday [b] [s] (slotKey h)
  = negb (num_lt (Num (inject_Z (Date.setHours date h))) cutoff)
    && bool_decide (540 ≤ h * 60 < 1020)
    && negb (bool_decide (690 ≤ h * 60 < 810)).
Proof.
  intros Hh. unfold slotOffered.
  assert (parseInt (hourOf (slotKey h)) = Some h
          ∧ timeToMinutes (Str (slotKey h)) = Ok (Some (h * 60))) as [-> ->].
  { assert (forallb (λ z, bool_decide (parseInt (hourOf (slotKey z)) = Some z)
                          && match timeToMinutes (Str (slotKey z)) with
                             | Ok (Some m) => m =? z * 60
                             | _ => false
                             end)
              (seqZ 7 14) = true) as A by (vm_compute; reflexivity).
    rewrite forallb_forall in A.
    assert (In h (seqZ 7 14)) as Ih
      by (apply list_elem_of_In, elem_of_seqZ; lia).
    apply A, andb_true_iff in Ih as [P T].
    apply bool_decide_eq_true in P. split; [exact P|].
    destruct (timeToMinutes (Str (slotKey h))) as [[m|]|]; try discriminate.
    apply Z.eqb_eq in T. now subst. }
  cbn [mbind result_bind fmap option_fmap option_map of_int].
  rewrite lunch_verdict. now rewrite andb_assoc.
Qed.

End LunchBooking.

Section LunchScenario.
Context `{Runtime}.

(** C2.  One cleaner is on duty on the selected day, from 09:00 to 17:00
    with a travel buffer of 30 minutes, and the day has one booking from
    12:00 to 13:00.  If no override removes the hours 11 to 14 and 11:00
    is not before the notice cutoff, the filter offers 11 and 14 and
    withholds 12 and 13: the booking collides with a slot at minute [m]
    exactly when 690 <= m < 810, and the cleaner takes a slot exactly
    when it lies in the working window and does not collide. *)
Theorem lunch_booking_blocks_noon (now date : Z) (db : Firestore)
    (st : PageState) (staffSnap : list object) (s b : object)
    (snap : option object) :
  selectedDate st = Some date →
  ymd date ∉ blockedDates st →
  unavailabilityDoc db (ymd date) = Ok snap →
  (∀ h, 11 ≤ h ≤ 14 → slotKey h ∉ bookedLegacy snap) →
  bookingDocs db (ymd date) = Ok [b] →
  get b "startTime" = Str "12:00" →
  get b "endTime" = Str "13:00" →
  staffDocs db = Ok staffSnap →
  List.filter (availableOn (weekdayOf date)) (List.filter isActive staffSnap)
  = [s] →
  getDayAvail (get s "availability") (weekdayOf date)
  = Some {| available := true; start := Str "09:00"; end_ := Str "17:00" |} →
  get s "travelBufferMins" = Number_ (Num 30) →
  num_lt (Num (inject_Z (Date.setHours date 11)))
         (noticeCutoff now (minNotice s [])) = false →
  let offered := availableTimes (loadTimes now db st) in
  ("11" ∈ offered ∧ "14" ∈ offered ∧
   ("12" ∉ offered) ∧ ("13" ∉ offered)) ∧
  (∀ m : Z,
     collidesWith (Some m) (Num 30) b = Ok (bool_decide (690 ≤ m < 810))) ∧
  (∀ m : Z,
     staffLoop (weekdayOf date) [b] (Some m) [s]
     = Ok (bool_decide (540 ≤ m < 1020)
           && negb (bool_decide (690 ≤ m < 810)))).
Proof.
  intros Ed Hnb Eu Hov Eb Bs Be Es Hday Hw Hbuf Hcut offered.
  split; [|split].
  2: { intros m. apply (lunch_collision b Bs Be (Some m)). }
  2: { intros m.
       apply (lunch_verdict (weekdayOf date) s b Hw Hbuf Bs Be (Some m)). }
  set (cutoff := noticeCutoff now (minNotice s [])) in *.
  set (keep := λ h : Z,
         negb (bool_decide (slotKey h ∈ bookedLegacy snap))
         && slotOffered date cutoff (weekdayOf date) [b] [s] (slotKey h)).
  assert (offered = (hourOf ∘ slotKey) <$> List.filter keep (seqZ 7 14))
    as ->.
  { unfold offered, loadTimes, loadTimesBody. cbn [availableTimes].
    rewrite Ed, (bool_decide_eq_false_2 _ Hnb), Eu.
    cbn [mbind result_bind]. rewrite Eb. cbn [mbind result_bind].
    rewrite Es. cbn [mbind result_bind]. rewrite Hday.
    fold (noticeCutoff now (minNotice s [])). fold cutoff.
    rewrite (lunch_slotLoop (weekdayOf date) s b Hw Hbuf Bs Be).
    cbn [try_catch].
    now rewrite grid_keys, !filter_map_swap, filter_filter,
      <- list_fmap_compose. }
  assert (∀ h, 7 ≤ h ≤ 20 →
            pretty h ∈ (hourOf ∘ slotKey) <$> List.filter keep (seqZ 7 14)
            ↔ keep h = true) as K.
  { intros h Hh. rewrite list_elem_of_fmap. split.
    - intros (z & E & Hz).
      apply list_elem_of_In, filter_In in Hz as [Hz Kz].
      apply list_elem_of_In, elem_of_seqZ in Hz. cbn in E.
      rewrite hourOf_slotKey in E by lia. apply (inj pretty) in E.
      now subst.
    - intros Kh. exists h. split.
      + cbn. now rewrite hourOf_slotKey.
      + apply list_elem_of_In, filter_In. split; [|exact Kh].
        apply list_elem_of_In, elem_of_seqZ. lia. }
  assert (∀ h, 11 ≤ h ≤ 14 →
            keep h = bool_decide (540 ≤ h * 60 < 1020)
                     && negb (bool_decide (690 ≤ h * 60 < 810))) as V.
  { intros h Hh. unfold keep.
    rewrite (bool_decide_eq_false_2 _ (Hov h Hh)).
    rewrite (lunch_offered (weekdayOf date) s b Hw Hbuf Bs Be) by lia.
    rewrite (num_lt_later (Date.setHours date 11) (Date.setHours date h));
      [reflexivity | unfold Date.setHours, Date.msPerHour; lia | exact Hcut]. }
  change "11" with (pretty 11). change "12" with (pretty 12).
  change "13" with (pretty 13). change "14" with (pretty 14).
  rewrite !K by lia. rewrite !V by lia.
  split; [reflexivity|]. split; [reflexivity|]. split; discriminate.
Qed.

End LunchScenario.

Lemma lunch_booking_witness :
  let H := decimalRuntime in
  let offered :=
    availableTimes
      (loadTimes mondayMorning (oneCleaner "09:00" "17:00")
                 (freshPage (Some thursday) "")) in
  "11" ∈ offered ∧ "14" ∈ offered ∧
  ("12" ∉ offered) ∧ ("13" ∉ offered).
Proof.
  intros H.
  refine (proj1 (@lunch_booking_blocks_noon H mondayMorning thursday
                   (oneCleaner "09:00" "17:00") (freshPage (Some thursday) "")
                   [everyDay "09:00" "17:00"] (everyDay "09:00" "17:00")
                   lunchBooking None
                   eq_refl _ eq_refl _ eq_refl eq_refl eq_refl eq_refl
                   eq_refl _ eq_refl _)).
  - apply not_elem_of_empty.
  - intros h _. apply not_elem_of_empty.
  - now vm_compute.
  - now vm_compute.
Defined.

(** ** Decimal strings *)

Lemma is_nat_pretty_char (d : N) :
  (d < 10)%N → Ascii.is_nat (pretty_N_char d) = Some (N.to_nat d).
Proof.
  intros Hd.
  assert (d = 0 ∨ d = 1 ∨ d = 2 ∨ d = 3 ∨ d = 4 ∨ d = 5 ∨ d = 6 ∨ d = 7
          ∨ d = 8 ∨ d = 9)%N as C by lia.
  repeat destruct C as [->|C]; try subst d; reflexivity.
Qed.

Lemma digits_pretty_N_go (x : N) (s : string) :
  (0 < x)%N →
  ∃ k, ∀ acc,
    digits acc (pretty_N_go x s)
    = digits (Some (k * default 0 acc + Z.of_N x)) s.
Proof.
  revert s. induction (N.lt_wf_0 x) as [x _ IH]. intros s Hx.
  rewrite pretty_N_go_step by assumption.
  assert (x `mod` 10 < 10)%N as Hm by (apply N.mod_lt; lia).
  pose proof (N.div_mod x 10 ltac:(lia)) as Ex.
  destruct (decide (x `div` 10 = 0)%N) as [E0|N0].
  - rewrite E0 in Ex. rewrite E0, pretty_N_go_0. exists 10. intros acc.
    cbn [digits]. rewrite (is_nat_pretty_char _ Hm), N_nat_Z.
    do 3 f_equal. lia.
  - assert (0 < x `div` 10)%N as Hq by (apply N.neq_0_lt_0; exact N0).
    destruct (IH (x `div` 10)%N ltac:(apply N.div_lt; lia)
                (String (pretty_N_char (x `mod` 10)) s) Hq)
      as [k Hk].
    exists (10 * k). intros acc. rewrite Hk. cbn [digits].
    rewrite (is_nat_pretty_char _ Hm), N_nat_Z.
    cbn [default from_option id]. do 2 f_equal.
    rewrite Ex at 3. rewrite N2Z.inj_add, N2Z.inj_mul.
    change (Z.of_N 10) with 10. lia.
Qed.

Lemma pretty_N_go_head (x : N) (s : string) :
  (0 < x)%N →
  ∃ d t, (d < 10)%N ∧ pretty_N_go x s = String (pretty_N_char d) t.
Proof.
  revert s. induction (N.lt_wf_0 x) as [x _ IH]. intros s Hx.
  rewrite pretty_N_go_step by assumption.
  assert (x `mod` 10 < 10)%N as Hm by (apply N.mod_lt; lia).
  destruct (decide (x `div` 10 = 0)%N) as [E0|N0].
  - rewrite E0, pretty_N_go_0. eauto.
  - apply IH; [apply N.div_lt; lia | now apply N.neq_0_lt_0].
Qed.

Lemma str_forall_pretty_N_go (x : N) (s : string) :
  str_forall is_digit s = true →
  str_forall is_digit (pretty_N_go x s) = true.
Proof.
  revert s. induction (N.lt_wf_0 x) as [x _ IH]. intros s Hs.
  destruct (decide (x = 0)%N) as [->|N0]; [now rewrite pretty_N_go_0|].
  rewrite pretty_N_go_step by lia.
  apply IH; [apply N.div_lt; lia|].
  cbn [str_forall]. rewrite Hs, andb_true_r. unfold is_digit.
  rewrite is_nat_pretty_char; [reflexivity | apply N.mod_lt; lia].
Qed.

Lemma parseInt_digit_head (c : ascii) (t : string) :
  is_digit c = true → parseInt (String c t) = digits None (String c t).
Proof.
  destruct c as [[] [] [] [] [] [] [] []]; try discriminate; reflexivity.
Qed.

Lemma pretty_pos_shape (p : positive) :
  ∃ c t, is_digit c = true ∧ pretty (Z.pos p) = String c t ∧
         str_forall is_digit (String c t) = true ∧
         digits None (String c t) = Some (Z.pos p).
Proof.
  unfold pretty, pretty_Z, pretty, pretty_positive, pretty, pretty_N.
  destruct (decide (N.pos p = 0%N)) as [E|_]; [discriminate|].
  destruct (pretty_N_go_head (N.pos p) "" ltac:(lia)) as (d & t & Hd & E).
  destruct (digits_pretty_N_go (N.pos p) "" ltac:(lia)) as [k Hk].
  exists (pretty_N_char d), t. rewrite <- E.
  split; [unfold is_digit; now rewrite is_nat_pretty_char|].
  split; [reflexivity|].
  split; [now apply str_forall_pretty_N_go|].
  rewrite Hk. cbn. f_equal. lia.
Qed.

(** Reading back a printed integer. *)
Lemma parseInt_pretty (z : Z) : parseInt (pretty z) = Some z.
Proof.
  destruct z as [|p|p].
  - reflexivity.
  - destruct (pretty_pos_shape p) as (c & t & Hc & E & _ & Hd).
    rewrite E, parseInt_digit_head by assumption. exact Hd.
  - destruct (pretty_pos_shape p) as (c & t & Hc & E & _ & Hd).
    change (pretty (Z.neg p)) with ("-" +:+ pretty (Z.pos p)).
    rewrite E. change (parseInt ("-" +:+ String c t))
      with (Z.opp <$> digits None (String c t)).
    rewrite Hd. reflexivity.
Qed.

Lemma pretty_nonneg_digits (z : Z) :
  0 ≤ z → pretty z ≠ "" ∧ str_forall is_digit (pretty z) = true ∧
          digits None (pretty z) = Some z.
Proof.
  intros Hz. destruct z as [|p|p]; [now vm_compute| |lia].
  destruct (pretty_pos_shape p) as (c & t & Hc & E & Hf & Hd).
  rewrite E. now split.
Qed.

(** ** Hour labels *)

(** X1.  The label of an hour on the twelve-hour clock: the hour itself
    up to 12 and the hour less 12 after it, with AM before 12 and PM
    from 12 on (so 0 is shown as 0 AM and 24 as 12 PM); a text that is
    no number is shown as NaN AM; the fourteen slots of the grid have
    fourteen different labels. *)
Theorem displayHour_twelve_hour_clock :
  (∀ h : Z,
     displayHour (pretty h)
     = pretty (if 12 <? h then h - 12 else h) +:+ ":00 "
       +:+ (if 12 <=? h then "PM" else "AM")) ∧
  (∀ s, parseInt s = None → displayHour s = "NaN:00 AM") ∧
  (∀ h : Z, 7 ≤ h ≤ 20 →
     ∃ n, 1 ≤ n ≤ 12 ∧
          displayHour (pretty h)
          = pretty n +:+ ":00 " +:+ (if h <? 12 then "AM" else "PM")) ∧
  NoDup (displayHour <$> ALL_TIMES).
Proof.
  assert (∀ h : Z,
     displayHour (pretty h)
     = pretty (if 12 <? h then h - 12 else h) +:+ ":00 "
       +:+ (if 12 <=? h then "PM" else "AM")) as F.
  { intros h. unfold displayHour. rewrite parseInt_pretty. reflexivity. }
  split; [exact F|]. split; [|split].
  - intros s E. unfold displayHour. rewrite E. reflexivity.
  - intros h Hh. rewrite F.
    exists (if 12 <? h then h - 12 else h). split.
    + destruct (Z.ltb_spec 12 h); lia.
    + destruct (Z.leb_spec 12 h), (Z.ltb_spec h 12); try lia; reflexivity.
  - apply (bool_decide_unpack _). vm_compute. reflexivity.
Qed.

(** ** Order ids *)






(** ** Splitting at a separator *)

Lemma split_no_sep (sep : ascii) (a : string) :
  str_forall (λ c, negb (Ascii.eqb c sep)) a = true → split sep a = [a].
Proof.
  induction a as [|c a IH]; [reflexivity|]. cbn [str_forall split].
  intros [Hc Ha]%andb_true_iff. apply negb_true_iff in Hc.
  now rewrite Hc, (IH Ha).
Qed.

Lemma split_app_sep (sep : ascii) (a rest : string) :
  str_forall (λ c, negb (Ascii.eqb c sep)) a = true →
  split sep (a +:+ String sep rest) = a :: split sep rest.
Proof.
  induction a as [|c a IH]; intros Ha.
  - rewrite app_nil. cbn [split]. now rewrite Ascii.eqb_refl.
  - cbn [str_forall] in Ha. apply andb_true_iff in Ha as [Hc Ha].
    apply negb_true_iff in Hc. rewrite app_cons. cbn [split].
    now rewrite Hc, (IH Ha).
Qed.

Lemma str_forall_impl (p q : ascii → bool) (s : string) :
  (∀ c, p c = true → q c = true) →
  str_forall p s = true → str_forall q s = true.
Proof.
  intros I. induction s as [|c s IH]; [reflexivity|]. cbn [str_forall].
  intros [Hc Hs]%andb_true_iff. now rewrite (I c Hc), (IH Hs).
Qed.

Lemma digit_is_no_dash (c : ascii) :
  is_digit c = true → negb (Ascii.eqb c "-") = true.
Proof.
  destruct c as [[] [] [] [] [] [] [] []]; try discriminate; reflexivity.
Qed.

(** ** Reading the weekday back from a date key *)

Lemma pad2_digits (n : Z) :
  0 ≤ n < 100 →
  padStart 2 "0" (pretty n) ≠ "" ∧
  str_forall is_digit (padStart 2 "0" (pretty n)) = true ∧
  digits None (padStart 2 "0" (pretty n)) = Some n.
Proof.
  intros Hn.
  assert (forallb (λ n, negb (bool_decide (padStart 2 "0" (pretty n) = ""))
                        && str_forall is_digit (padStart 2 "0" (pretty n))
                        && bool_decide (digits None (padStart 2 "0" (pretty n))
                                        = Some n))
                  (seqZ 0 100) = true) as A by (vm_compute; reflexivity).
  rewrite forallb_forall in A.
  specialize (A n ltac:(apply list_elem_of_In, elem_of_seqZ; lia)).
  rewrite !andb_true_iff, negb_true_iff, bool_decide_eq_false,
    bool_decide_eq_true in A.
  tauto.
Qed.

Lemma ToIntegerOrInfinity_Z (q : Q) (z : Z) :
  (q == inject_Z z)%Q → ToIntegerOrInfinity q = z.
Proof.
  intros E. unfold ToIntegerOrInfinity.
  destruct (Qle_bool 0 q).
  - rewrite (Qfloor_comp _ _ E). apply Qfloor_Z.
  - rewrite (Qceiling_comp _ _ E). apply Qceiling_Z.
Qed.

Lemma truthy_inject_Z (z : Z) :
  z ≠ 0 → truthy (Number_ (Num (inject_Z z))) = true.
Proof.
  intros Hz. cbn [truthy]. apply negb_true_iff.
  destruct (Qeq_bool (inject_Z z) 0) eqn:E; [|reflexivity].
  apply Qeq_bool_eq in E. unfold Qeq, inject_Z in E. cbn in E. lia.
Qed.

Lemma getDay_midnight (t : Z) :
  Date.getDay (Date.Day t * Date.msPerDay) = Date.getDay t.
Proof.
  unfold Date.getDay. f_equal. f_equal.
  rewrite <- (Z.add_0_r (_ * _)). apply Day_of_midnight.
  unfold Date.msPerDay. lia.
Qed.

Section StaffPayFacts.
Context `{Runtime}.
Hypothesis decimal : readsDecimals _.

Lemma Number_pretty (z : Z) :
  0 ≤ z → Number (Str (pretty z)) = Num (inject_Z z).
Proof.
  intros Hz. destruct (pretty_nonneg_digits z Hz) as (Hne & Hf & Hd).
  cbn [Number]. now rewrite (decimal _ Hne Hf), Hd.
Qed.

Lemma Number_pad2 (z : Z) :
  0 ≤ z < 100 → Number (Str (padStart 2 "0" (pretty z))) = Num (inject_Z z).
Proof.
  intros Hz. destruct (pad2_digits z Hz) as (Hne & Hf & Hd).
  cbn [Number]. now rewrite (decimal _ Hne Hf), Hd.
Qed.

Lemma isWeekendYmd_of_ymd (t : Z) :
  100 ≤ Date.getFullYear t →
  StaffPay.isWeekendYmd (Some (ymd t)) = isWeekend (Some t).
Proof.
  unfold Date.getFullYear. intros Hy.
  unfold StaffPay.isWeekendYmd, ymd, Date.getFullYear, Date.getMonth,
    Date.getDate.
  pose proof (civil_range (Date.Day t)) as R.
  pose proof (civil_MakeDay (Date.Day t)) as M.
  destruct (Date.civil (Date.Day t)) as [[y m] d]. cbn [fst snd] in *.
  replace (m - 1 + 1) with m by lia.
  destruct (pretty_nonneg_digits y ltac:(lia)) as (Hne & Hf & _).
  destruct (pad2_digits m ltac:(lia)) as (_ & Hfm & _).
  destruct (pad2_digits d ltac:(lia)) as (_ & Hfd & _).
  rewrite bool_decide_eq_false_2.
  2:{ destruct (pretty y); [congruence | discriminate]. }
  rewrite !(app_cons "-"), !app_nil.
  rewrite split_app_sep
    by (eapply str_forall_impl; [apply digit_is_no_dash | exact Hf]).
  rewrite split_app_sep
    by (eapply str_forall_impl; [apply digit_is_no_dash | exact Hfm]).
  rewrite split_no_sep
    by (eapply str_forall_impl; [apply digit_is_no_dash | exact Hfd]).
  cbn [fmap list_fmap lookup list_lookup].
  rewrite Number_pretty, !Number_pad2 by lia.
  rewrite !truthy_inject_Z by lia. cbn [negb orb].
  cbn [num_sub lift2 newDateOf].
  rewrite (ToIntegerOrInfinity_Z (inject_Z y) y) by reflexivity.
  rewrite (ToIntegerOrInfinity_Z (inject_Z d) d) by reflexivity.
  rewrite (ToIntegerOrInfinity_Z (inject_Z m - 1)%Q (m - 1)).
  2:{ unfold Z.sub. rewrite inject_Z_plus. reflexivity. }
  unfold newDate.
  replace ((0 <=? y) && (y <=? 99)) with false
    by (symmetry; apply andb_false_iff; right; apply Z.leb_gt; lia).
  replace ((m - 1) / 12) with 0 by (Z.div_mod_to_equations; lia).
  replace ((m - 1) `mod` 12 + 1) with m by (Z.div_mod_to_equations; lia).
  rewrite Z.add_0_r, M, getDay_midnight. reflexivity.
Qed.

End StaffPayFacts.

(** The runtime of the sample inputs reads decimals. *)

Lemma rev_app_rev_app (s a b : string) :
  String.rev_app (String.rev_app s a) b = String.rev_app a (s +:+ b).
Proof.
  revert a. induction s as [|c s IH]; intros a; [reflexivity|].
  cbn [String.rev_app]. rewrite IH. reflexivity.
Qed.

Lemma str_forall_rev_app (p : ascii → bool) (s a : string) :
  str_forall p (String.rev_app s a) = str_forall p s && str_forall p a.
Proof.
  revert a. induction s as [|c s IH]; intros a; [reflexivity|].
  cbn [String.rev_app str_forall]. rewrite IH. cbn [str_forall].
  destruct (p c), (str_forall p s), (str_forall p a); reflexivity.
Qed.

Lemma app_empty_r (s : string) : s +:+ "" = s.
Proof.
  induction s as [|c s IH]; [reflexivity|]. now rewrite app_cons, IH.
Qed.

Lemma trimStart_no_space (s : string) :
  str_forall (λ c, negb (Ascii.is_space c)) s = true → trimStart s = s.
Proof.
  destruct s as [|c s]; [reflexivity|]. cbn [str_forall trimStart].
  intros [Hc _]%andb_true_iff. apply negb_true_iff in Hc. now rewrite Hc.
Qed.

Lemma trim_no_space (s : string) :
  str_forall (λ c, negb (Ascii.is_space c)) s = true → trim s = s.
Proof.
  intros Hs. unfold trim. rewrite (trimStart_no_space s Hs).
  unfold String.rev. rewrite trimStart_no_space.
  - rewrite rev_app_rev_app. cbn. apply app_empty_r.
  - rewrite str_forall_rev_app, Hs. reflexivity.
Qed.

Lemma digit_is_no_space (c : ascii) :
  is_digit c = true → negb (Ascii.is_space c) = true.
Proof.
  destruct c as [[] [] [] [] [] [] [] []]; try discriminate; reflexivity.
Qed.

Lemma decimalRuntime_readsDecimals : readsDecimals decimalRuntime.
Proof.
  intros s Hne Hf. cbn [StringToNumber decimalRuntime].
  rewrite trim_no_space
    by (eapply str_forall_impl; [apply digit_is_no_space | exact Hf]).
  destruct s as [|c s]; [congruence|]. cbn [str_forall] in Hf.
  apply andb_true_iff in Hf as [Hc _].
  now rewrite parseInt_digit_head.
Qed.

(** X3.  The weekend test of the pay rules reads the day of the week
    back from a date key: for a date from the year 100 on, the key
    written by [ymd] is a weekend exactly when the date is a Saturday or
    a Sunday.  A missing or empty key, and a key of fewer than three
    parts, is no weekend. *)
Theorem isWeekendYmd_reads_ymd_back `{Runtime} :
  (readsDecimals _ →
   ∀ t, 100 ≤ Date.getFullYear t →
        StaffPay.isWeekendYmd (Some (ymd t))
        = bool_decide (Date.getDay t = 0 ∨ Date.getDay t = 6)) ∧
  StaffPay.isWeekendYmd None = false ∧
  StaffPay.isWeekendYmd (Some "") = false ∧
  (∀ s, (List.length (split "-" s) < 3)%nat →
        StaffPay.isWeekendYmd (Some s) = false).
Proof.
  split; [|split; [|split]]; try reflexivity.
  - intros D t Ht. rewrite (isWeekendYmd_of_ymd D t Ht).
    cbn [isWeekend].
    destruct (Z.eqb_spec (Date.getDay t) 0), (Z.eqb_spec (Date.getDay t) 6);
      cbn [orb]; symmetry;
      (apply bool_decide_eq_true_2; tauto) ||
      (apply bool_decide_eq_false_2; tauto).
  - intros s L. unfold StaffPay.isWeekendYmd.
    destruct (bool_decide (s = "")); [reflexivity|].
    destruct (split "-" s) as [|a [|b [|c l]]]; cbn in L |- *;
      try reflexivity; lia.
Qed.

Lemma isWeekendYmd_witness :
  let H := decimalRuntime in
  StaffPay.isWeekendYmd (Some (ymd (thursday + 2 * Date.msPerDay))) = true.
Proof.
  intros H.
  rewrite (proj1 (@isWeekendYmd_reads_ymd_back H)
             decimalRuntime_readsDecimals
             (thursday + 2 * Date.msPerDay) ltac:(vm_compute; discriminate)).
  reflexivity.
Defined.

(** X4.  The pay rate of a job: 21 for a service whose name contains
    "deep" in any letter case and 15 for any other, plus 2 at a weekend.
    For the date key and service type of a submission it is the rate of
    the selected date's day of the week; a job without a date is paid as
    a weekday. *)
Theorem staff_rate_table `{Runtime} :
  (∀ job,
     let deep :=
       includes "deep"
                (toLowerCase (default "" (StaffPay.serviceType job))) in
     let weekend := StaffPay.isWeekendYmd (StaffPay.date job) in
     StaffPay.getStaffRateForJob job
     = ((if deep then 21 else 15) + (if weekend then 2 else 0))%Q) ∧
  (readsDecimals _ →
   ∀ s t, 100 ≤ Date.getFullYear t →
     StaffPay.getStaffRateForJob
       {| StaffPay.serviceType := Some s; StaffPay.date := Some (ymd t) |}
     = HomeClean.getStaffRateForJob s t) ∧
  (∀ s, StaffPay.getStaffRateForJob
          {| StaffPay.serviceType := s; StaffPay.date := None |}
        = if includes "deep" (toLowerCase (default "" s)) then 21%Q
          else 15%Q).
Proof.
  split; [|split].
  - intros job deep weekend. unfold StaffPay.getStaffRateForJob.
    fold deep weekend. destruct deep, weekend; reflexivity.
  - intros D s t Ht.
    unfold StaffPay.getStaffRateForJob, HomeClean.getStaffRateForJob.
    cbn [StaffPay.serviceType StaffPay.date default from_option id].
    now rewrite (isWeekendYmd_of_ymd D t Ht).
  - reflexivity.
Qed.

Lemma staff_rate_witness :
  let H := decimalRuntime in
  StaffPay.getStaffRateForJob
    {| StaffPay.serviceType := Some "Deep Clean";
       StaffPay.date := Some (ymd (thursday + 2 * Date.msPerDay)) |}
  = 23%Q.
Proof.
  intros H.
  rewrite (proj1 (proj2 (@staff_rate_table H))
             decimalRuntime_readsDecimals "Deep Clean"
             (thursday + 2 * Date.msPerDay) ltac:(vm_compute; discriminate)).
  reflexivity.
Defined.

(** ** Months *)

Lemma newDate_monthStart (y m d : Z) :
  ¬ 0 ≤ y ≤ 99 →
  newDate y m d = (monthStart (12 * y + m) + (d - 1)) * Date.msPerDay.
Proof.
  intros Hy. unfold newDate, monthStart.
  replace ((0 <=? y) && (y <=? 99)) with false
    by (symmetry; apply andb_false_iff;
        destruct (Z.leb_spec 0 y), (Z.leb_spec y 99); auto; lia).
  replace ((12 * y + m) / 12) with (y + m / 12)
    by (Z.div_mod_to_equations; lia).
  replace ((12 * y + m) `mod` 12) with (m `mod` 12)
    by (Z.div_mod_to_equations; lia).
  rewrite <- MakeDay_shift. do 2 f_equal. lia.
Qed.

Lemma monthStart_step (k : Z) :
  28 ≤ monthStart (k + 1) - monthStart k ≤ 31.
Proof.
  unfold monthStart.
  pose proof (Z.div_mod k 12 ltac:(lia)) as Ek.
  pose proof (Z.mod_pos_bound k 12 ltac:(lia)) as Hr.
  set (y := k / 12) in *. set (r := k `mod` 12) in *. clearbody y r.
  assert (r = 0 ∨ r = 1 ∨ r = 2 ∨ r = 3 ∨ r = 4 ∨ r = 5 ∨ r = 6 ∨ r = 7
          ∨ r = 8 ∨ r = 9 ∨ r = 10 ∨ r = 11) as C by lia.
  assert (r < 11 → (k + 1) / 12 = y ∧ (k + 1) `mod` 12 = r + 1) as A
    by (intros; Z.div_mod_to_equations; lia).
  assert (r = 11 → (k + 1) / 12 = y + 1 ∧ (k + 1) `mod` 12 = 0) as B
    by (intros; Z.div_mod_to_equations; lia).
  repeat destruct C as [->|C]; try subst r;
    try (destruct A as [-> ->]; [lia|]);
    try (destruct B as [-> ->]; [lia|]);
    unfold Date.MakeDay; cbv zeta;
    repeat match goal with
           | |- context [?a <=? ?b] => destruct (Z.leb_spec a b); try lia
           | |- context [?a <? ?b] => destruct (Z.ltb_spec a b); try lia
           end;
    Z.div_mod_to_equations; lia.
Qed.

Lemma monthStart_lt (k k' : Z) : k < k' → monthStart k < monthStart k'.
Proof.
  intros L. replace k' with (k + 1 + (k' - k - 1)) by lia.
  assert (0 ≤ k' - k - 1) as Hn by lia. revert Hn.
  generalize (k' - k - 1). clear k' L. intros n Hn.
  pattern n. apply natlike_ind; [| |exact Hn].
  - pose proof (monthStart_step k). rewrite Z.add_0_r. lia.
  - intros x Hx IH. pose proof (monthStart_step (k + 1 + x)).
    replace (k + 1 + Z.succ x) with (k + 1 + x + 1) by lia. lia.
Qed.

Lemma monthStart_le (k k' : Z) : k ≤ k' → monthStart k ≤ monthStart k'.
Proof.
  intros L. destruct (decide (k = k')) as [->|N]; [lia|].
  pose proof (monthStart_lt k k' ltac:(lia)). lia.
Qed.

Lemma civil_before_next (z : Z) :
  let '(y, m, d) := Date.civil z in z < monthStart (12 * y + m).
Proof.
  unfold monthStart, Date.civil. cbv zeta.
  set (z' := z + 719468).
  set (era := z' / 146097). set (doe := z' mod 146097).
  assert (0 ≤ doe < 146097) as Hdoe by (apply Z.mod_pos_bound; lia).
  assert (z = era * 146097 + doe - 719468) as Hz
    by (pose proof (Z.div_mod z' 146097 ltac:(lia)); unfold era, doe, z' in *;
        lia).
  clearbody era doe. clear z'.
  set (yoe := (doe - doe / 1460 + doe / 36524 - doe / 146096) / 365).
  assert (0 ≤ yoe < 400 ∧
          0 ≤ doe - (365 * yoe + yoe / 4 - yoe / 100) < 366 ∧
          (yoe < 399 →
           doe < 365 * (yoe + 1) + (yoe + 1) / 4 - (yoe + 1) / 100))
    as Hyoe by (unfold yoe; Z.div_mod_to_equations; lia).
  clearbody yoe.
  set (doy := doe - (365 * yoe + yoe / 4 - yoe / 100)) in *.
  assert (doe = doy + (365 * yoe + yoe / 4 - yoe / 100)) as Hdoy
    by (unfold doy; lia).
  clearbody doy.
  set (mp := (5 * doy + 2) / 153).
  assert (0 ≤ mp < 12 ∧ 153 * mp ≤ 5 * doy + 2 < 153 * mp + 153) as Hmp
    by (unfold mp; Z.div_mod_to_equations; lia).
  clearbody mp.
  set (Y := yoe + era * 400).
  assert (Y / 400 = era ∧ Y `mod` 400 = yoe) as [EY1 EY2]
    by (unfold Y; Z.div_mod_to_equations; lia).
  assert (yoe < 399 → (Y + 1) / 400 = era ∧ (Y + 1) `mod` 400 = yoe + 1)
    as EY3 by (intros; unfold Y; Z.div_mod_to_equations; lia).
  assert (yoe = 399 → (Y + 1) / 400 = era + 1 ∧ (Y + 1) `mod` 400 = 0)
    as EY4 by (intros; unfold Y; Z.div_mod_to_equations; lia).
  clearbody Y.
  set (m := if mp <? 10 then mp + 3 else mp - 9).
  assert (1 ≤ m ≤ 12 ∧ (mp < 10 → m = mp + 3) ∧ (10 ≤ mp → m = mp - 9))
    as Hm by (unfold m; destruct (Z.ltb_spec mp 10); lia).
  clearbody m.
  set (c := if m <=? 2 then 1 else 0).
  assert ((m ≤ 2 → c = 1) ∧ (2 < m → c = 0)) as Hc
    by (unfold c; destruct (Z.leb_spec m 2); lia).
  clearbody c.
  assert ((12 * (Y + c) + m) / 12 = (if m =? 12 then Y + c + 1 else Y + c)
          ∧ (12 * (Y + c) + m) `mod` 12 + 1 = (if m =? 12 then 1 else m + 1))
    as [-> ->]
    by (destruct (Z.eqb_spec m 12); Z.div_mod_to_equations; lia).
  unfold Date.MakeDay. cbv zeta.
  destruct (Z.eqb_spec m 12) as [E12|N12].
  - (* December: the next month is January of the next year *)
    assert (mp = 9 ∧ c = 0) as [-> ->] by lia.
    change (1 <=? 2) with true. change (2 <? 1) with false. cbv iota.
    replace (Y + 0 + 1 - 1) with Y by lia. rewrite EY1, EY2.
    Z.div_mod_to_equations; lia.
  - destruct (Z.leb_spec (m + 1) 2) as [L2|L2].
    + (* January: the next month is February of the same year *)
      assert (mp = 10 ∧ c = 1 ∧ m = 1) as (-> & -> & ->) by lia.
      change (2 <? 1 + 1) with false. cbv iota.
      replace (Y + 1 - 1) with Y by lia. rewrite EY1, EY2.
      Z.div_mod_to_equations; lia.
    + destruct (Z.ltb_spec 2 (m + 1)) as [_|]; [|lia].
      destruct (decide (m = 2)) as [->|N2].
      * (* February: the next month is March, the first month of the
           next year of the era *)
        assert (mp = 11 ∧ c = 1) as [-> ->] by lia.
        destruct (decide (yoe = 399)) as [E|N].
        -- destruct (EY4 E) as [-> ->]. Z.div_mod_to_equations; lia.
        -- destruct (EY3 ltac:(lia)) as [-> ->].
           Z.div_mod_to_equations; lia.
      * assert (mp < 9 ∧ c = 0 ∧ m = mp + 3) as (Hmp9 & -> & ->) by lia.
        rewrite Z.add_0_r, EY1, EY2.
        Z.div_mod_to_equations; lia.
Qed.

(** The date of a day lies in its month. *)
Lemma civil_monthStart (z : Z) :
  let '(y, m, d) := Date.civil z in
  1 ≤ m ≤ 12 ∧ 1 ≤ d ∧
  z = monthStart (12 * y + (m - 1)) + (d - 1) ∧
  z < monthStart (12 * y + (m - 1) + 1).
Proof.
  pose proof (civil_MakeDay z) as M. pose proof (civil_range z) as R.
  pose proof (civil_before_next z) as B.
  destruct (Date.civil z) as [[y m] d].
  split; [lia|]. split; [lia|]. split.
  - unfold monthStart.
    replace ((12 * y + (m - 1)) / 12) with y
      by (Z.div_mod_to_equations; lia).
    replace ((12 * y + (m - 1)) `mod` 12 + 1) with m
      by (Z.div_mod_to_equations; lia).
    rewrite <- MakeDay_shift, <- M. f_equal. lia.
  - replace (12 * y + (m - 1) + 1) with (12 * y + m) by lia. exact B.
Qed.

(** A day between the first of a month and the first of the next is a
    day of that month. *)
Lemma civil_of_month (k z : Z) :
  monthStart k ≤ z < monthStart (k + 1) →
  Date.civil z = (k / 12, k `mod` 12 + 1, z - monthStart k + 1).
Proof.
  intros Hz. pose proof (civil_monthStart z) as C.
  destruct (Date.civil z) as [[y m] d].
  destruct C as (Hm & Hd & E & L).
  assert (12 * y + (m - 1) = k) as Ek.
  { destruct (Z.lt_trichotomy (12 * y + (m - 1)) k) as [Lt|[Eq|Gt]];
      [|exact Eq|].
    - pose proof (monthStart_le (12 * y + (m - 1) + 1) k ltac:(lia)). lia.
    - pose proof (monthStart_le (k + 1) (12 * y + (m - 1)) ltac:(lia)).
      lia. }
  rewrite <- Ek at 1 2.
  replace ((12 * y + (m - 1)) / 12) with y by (Z.div_mod_to_equations; lia).
  replace ((12 * y + (m - 1)) `mod` 12 + 1) with m
    by (Z.div_mod_to_equations; lia).
  f_equal. rewrite <- Ek. lia.
Qed.

Lemma Day_midnight (n : Z) : Date.Day (n * Date.msPerDay) = n.
Proof.
  rewrite <- (Z.add_0_r (_ * _)). apply Day_of_midnight.
  unfold Date.msPerDay. lia.
Qed.

(** Year, month and day of the days of the month with index [k]. *)
Lemma date_of_month_day (k d : Z) :
  1 ≤ d ≤ monthStart (k + 1) - monthStart k →
  let t := (monthStart k + (d - 1)) * Date.msPerDay in
  Date.getFullYear t = k / 12 ∧ Date.getMonth t = k `mod` 12 ∧
  Date.getDate t = d ∧ Date.TimeWithinDay t = 0.
Proof.
  intros Hd t. unfold Date.getFullYear, Date.getMonth, Date.getDate, t.
  rewrite Day_midnight, (civil_of_month k) by lia. cbn [fst snd].
  repeat split; try lia.
  unfold Date.TimeWithinDay, Date.msPerDay. now rewrite Z.mod_mul.
Qed.

Lemma month_of_time (t : Z) :
  0 ≤ Date.getMonth t < 12 ∧
  monthIndex t / 12 = Date.getFullYear t ∧
  monthIndex t `mod` 12 = Date.getMonth t ∧
  monthStart (monthIndex t) ≤ Date.Day t < monthStart (monthIndex t + 1).
Proof.
  unfold monthIndex, Date.getFullYear, Date.getMonth.
  pose proof (civil_monthStart (Date.Day t)) as C.
  destruct (Date.civil (Date.Day t)) as [[y m] d]. cbn [fst snd].
  destruct C as (Hm & Hd & E & L).
  split; [lia|]. split; [Z.div_mod_to_equations; lia|].
  split; [Z.div_mod_to_equations; lia|].
  replace (12 * y + (m - 1) + 1) with (12 * y + (m - 1) + 1) in L by lia.
  lia.
Qed.

(** ** The calendar grid *)

Lemma padWeek_spec (fuel : nat) (cells : list Calendar.Cell) :
  ∃ j : nat,
    (j ≤ fuel)%nat ∧
    Calendar.padWeek fuel cells = cells ++ replicate j Calendar.blank ∧
    (∀ i : nat, (i < j)%nat →
                Z.of_nat (List.length cells + i) `mod` 7 ≠ 0) ∧
    ((j < fuel)%nat → Z.of_nat (List.length cells + j) `mod` 7 = 0).
Proof.
  revert cells. induction fuel as [|fuel IH]; intros cells.
  - exists 0%nat. cbn [Calendar.padWeek replicate].
    rewrite app_nil_r. repeat split; lia.
  - cbn [Calendar.padWeek].
    destruct (Z.eqb_spec (Z.of_nat (List.length cells) `mod` 7) 0) as [E|N].
    + exists 0%nat. cbn [replicate]. rewrite app_nil_r, Nat.add_0_r.
      repeat split; lia.
    + destruct (IH (cells ++ [Calendar.blank])) as (j & Hj & E & Hn & Hz).
      exists (S j). rewrite E, <- app_assoc. cbn [app replicate].
      rewrite length_app in Hn, Hz. cbn [List.length] in Hn, Hz.
      split; [lia|]. split; [reflexivity|]. split.
      * intros [|i] Hi; [now rewrite Nat.add_0_r|].
        replace (List.length cells + S i)%nat
          with (List.length cells + 1 + i)%nat by lia.
        apply Hn. lia.
      * intros Hlt.
        replace (List.length cells + S j)%nat
          with (List.length cells + 1 + j)%nat by lia.
        apply Hz. lia.
Qed.

Lemma padWeek_7 (cells : list Calendar.Cell) :
  ∃ j : nat,
    (j < 7)%nat ∧
    Calendar.padWeek 7 cells = cells ++ replicate j Calendar.blank ∧
    Z.of_nat (List.length cells + j) `mod` 7 = 0.
Proof.
  destruct (padWeek_spec 7 cells) as (j & Hj & E & Hn & Hz).
  assert (j < 7)%nat as Hlt.
  { destruct (decide (j = 7%nat)) as [->|]; [|lia]. exfalso.
    pose proof (Hn 0%nat ltac:(lia)). pose proof (Hn 1%nat ltac:(lia)).
    pose proof (Hn 2%nat ltac:(lia)). pose proof (Hn 3%nat ltac:(lia)).
    pose proof (Hn 4%nat ltac:(lia)). pose proof (Hn 5%nat ltac:(lia)).
    pose proof (Hn 6%nat ltac:(lia)).
    revert H H0 H1 H2 H3 H4 H5. rewrite !Nat2Z.inj_add. cbn [Z.of_nat].
    generalize (Z.of_nat (List.length cells)). intros n.
    Z.div_mod_to_equations. lia. }
  exists j. split; [exact Hlt|]. split; [exact E|]. now apply Hz.
Qed.

Lemma grid_unfold (v : Z) :
  100 ≤ Date.getFullYear v →
  let k := monthIndex v in
  let n := monthStart (k + 1) - monthStart k in
  (∀ d, newDate (Date.getFullYear v) (Date.getMonth v) d
        = (monthStart k + (d - 1)) * Date.msPerDay) ∧
  ∃ j : nat,
    (j < 7)%nat ∧
    Calendar.grid v
    = replicate (Z.to_nat ((monthStart k + 3) `mod` 7)) Calendar.blank
      ++ (dayCell v <$> seqZ 1 n) ++ replicate j Calendar.blank ∧
    Z.of_nat (Z.to_nat ((monthStart k + 3) `mod` 7) + Z.to_nat n + j)
      `mod` 7 = 0.
Proof.
  intros Hy k n.
  assert (∀ m d, newDate (Date.getFullYear v) m d
                 = (monthStart (12 * Date.getFullYear v + m) + (d - 1))
                   * Date.msPerDay) as F
    by (intros; apply newDate_monthStart; lia).
  split; [intros d; apply F|].
  unfold Calendar.grid. rewrite !F.
  replace (12 * Date.getFullYear v + (Date.getMonth v + 1)) with (k + 1)
    by (unfold k, monthIndex; lia).
  fold (monthIndex v). fold k.
  pose proof (monthStart_step k) as S.
  destruct (date_of_month_day k n ltac:(lia)) as (_ & _ & En & _).
  unfold n in En at 1.
  replace (monthStart k + (monthStart (k + 1) - monthStart k - 1))
    with (monthStart (k + 1) + (0 - 1)) in En by lia.
  rewrite En.
  replace ((Date.getDay ((monthStart k + (1 - 1)) * Date.msPerDay) + 6)
             `mod` 7) with ((monthStart k + 3) `mod` 7).
  2:{ unfold Date.getDay. rewrite Day_midnight. Z.div_mod_to_equations. lia. }
  destruct (padWeek_7
              (replicate (Z.to_nat ((monthStart k + 3) `mod` 7)) Calendar.blank
               ++ ((λ d, {| Calendar.d := d;
                            Calendar.date :=
                              Some (newDate (Date.getFullYear v)
                                            (Date.getMonth v) d);
                            Calendar.muted := false |}) <$> seqZ 1 n)))
    as (j & Hj & E & Hz).
  exists j. split; [exact Hj|]. split.
  - rewrite <- app_assoc in E. exact E.
  - rewrite length_app, length_replicate, length_fmap, length_seqZ in Hz.
    exact Hz.
Qed.

Lemma grid_day_cells (v : Z) (i : nat) (c : Calendar.Cell) (t : Z) :
  100 ≤ Date.getFullYear v →
  Calendar.grid v !! i = Some c → Calendar.date c = Some t →
  let k := monthIndex v in
  ∃ d, 1 ≤ d ≤ monthStart (k + 1) - monthStart k ∧ c = dayCell v d ∧
       Z.of_nat i = (monthStart k + 3) `mod` 7 + (d - 1) ∧
       t = (monthStart k + (d - 1)) * Date.msPerDay.
Proof.
  intros Hy Hi Hc k.
  destruct (grid_unfold v Hy) as (F & j & Hj & E & _). fold k in F, E.
  rewrite E in Hi. clear E.
  pose proof (Z.mod_pos_bound (monthStart k + 3) 7 ltac:(lia)) as Hl.
  apply lookup_app_Some in Hi as [Hi|[Hge Hi]].
  { apply lookup_replicate in Hi as [-> _]. discriminate. }
  rewrite length_replicate in Hge, Hi.
  apply lookup_app_Some in Hi as [Hi|[_ Hi]].
  2:{ apply lookup_replicate in Hi as [-> _]. discriminate. }
  apply list_lookup_fmap_Some in Hi as (d & -> & Hd).
  apply lookup_seqZ in Hd as [-> Hd].
  eexists. split; [|split; [reflexivity|split]].
  - lia.
  - lia.
  - cbn [dayCell Calendar.date] in Hc. injection Hc as <-.
    rewrite F. f_equal; lia.
Qed.

(** X5.  The grid of a month is a run of blank cells, the cells of the
    days 1 to n of that month in order, and a run of blank cells, where
    n is the length of the month: each run is shorter than a week, the
    rows are whole weeks, the cell of day d carries the midnight of day
    d of the viewed month, and the day after day n is the first of the
    next month. *)
Theorem grid_lists_the_month (v : Z) :
  100 ≤ Date.getFullYear v →
  ∃ lead n trail : nat,
    Calendar.grid v
    = replicate lead Calendar.blank
      ++ (dayCell v <$> seqZ 1 (Z.of_nat n))
      ++ replicate trail Calendar.blank ∧
    (lead < 7)%nat ∧ (trail < 7)%nat ∧ (28 ≤ n ≤ 31)%nat ∧
    ((lead + n + trail) `mod` 7 = 0)%nat ∧
    (∀ d, 1 ≤ d ≤ Z.of_nat n →
       ∃ t, Calendar.date (dayCell v d) = Some t ∧
            Date.getFullYear t = Date.getFullYear v ∧
            Date.getMonth t = Date.getMonth v ∧
            Date.getDate t = d ∧ Date.TimeWithinDay t = 0) ∧
    (let next := newDate (Date.getFullYear v) (Date.getMonth v)
                         (Z.of_nat n + 1) in
     Date.getDate next = 1 ∧ monthIndex next = monthIndex v + 1).
Proof.
  intros Hy.
  destruct (grid_unfold v Hy) as (F & j & Hj & E & Hz).
  set (k := monthIndex v) in *.
  pose proof (monthStart_step k) as S.
  pose proof (Z.mod_pos_bound (monthStart k + 3) 7 ltac:(lia)) as Hl.
  destruct (month_of_time v) as (Hm & Ey & Em & _). fold k in Ey, Em.
  exists (Z.to_nat ((monthStart k + 3) `mod` 7)),
         (Z.to_nat (monthStart (k + 1) - monthStart k)), j.
  rewrite Z2Nat.id by lia.
  split; [exact E|]. split; [lia|]. split; [exact Hj|]. split; [lia|].
  split; [|split].
  - apply Nat2Z.inj. rewrite Nat2Z.inj_mod. exact Hz.
  - intros d Hd. eexists. split; [reflexivity|]. rewrite F.
    destruct (date_of_month_day k d Hd) as (A & B & C & D).
    rewrite A, B, C, D. auto.
  - cbv zeta. rewrite F.
    replace (monthStart k + (monthStart (k + 1) - monthStart k + 1 - 1))
      with (monthStart (k + 1) + (1 - 1)) by lia.
    pose proof (monthStart_step (k + 1)) as S'.
    destruct (date_of_month_day (k + 1) 1 ltac:(lia)) as (A & B & C & _).
    split; [exact C|]. unfold monthIndex at 1. rewrite A, B.
    Z.div_mod_to_equations. lia.
Qed.

Lemma grid_witness :
  ∃ lead n trail : nat,
    Calendar.grid mondayMorning
    = replicate lead Calendar.blank
      ++ (dayCell mondayMorning <$> seqZ 1 (Z.of_nat n))
      ++ replicate trail Calendar.blank ∧
    (28 ≤ n ≤ 31)%nat.
Proof.
  destruct (grid_lists_the_month mondayMorning
              ltac:(vm_compute; discriminate))
    as (lead & n & trail & E & _ & _ & Hn & _).
  exists lead, n, trail. split; assumption.
Defined.

Lemma weekday_header (g : Z) :
  0 ≤ g < 7 →
  Calendar.weekdays !! Z.to_nat ((g + 6) `mod` 7)
  = Some (toUpperCase
            (String.substring 0 3
               (match g with
                | 0 => "Sunday" | 1 => "Monday" | 2 => "Tuesday"
                | 3 => "Wednesday" | 4 => "Thursday" | 5 => "Friday"
                | _ => "Saturday"
                end))).
Proof.
  intros Hg.
  assert (g = 0 ∨ g = 1 ∨ g = 2 ∨ g = 3 ∨ g = 4 ∨ g = 5 ∨ g = 6) as C
    by lia.
  repeat destruct C as [->|C]; try subst g; reflexivity.
Qed.

(** X6.  Every day stands in the column of its day of the week: the
    header above the cell at position i, counted along the rows of
    seven, is the upper-case short name of the weekday of the cell's
    date. *)
Theorem grid_columns_are_weekdays (v : Z) (i : nat) (c : Calendar.Cell)
    (t : Z) :
  100 ≤ Date.getFullYear v →
  Calendar.grid v !! i = Some c → Calendar.date c = Some t →
  (Date.getDay t + 6) `mod` 7 = Z.of_nat i `mod` 7 ∧
  Calendar.weekdays !! (i `mod` 7)%nat
  = Some (toUpperCase (String.substring 0 3 (Date.weekdayLong t))).
Proof.
  intros Hy Hi Hc.
  destruct (grid_day_cells v i c t Hy Hi Hc) as (d & Hd & _ & Ei & ->).
  set (k := monthIndex v) in *.
  assert ((Date.getDay ((monthStart k + (d - 1)) * Date.msPerDay) + 6)
            `mod` 7 = Z.of_nat i `mod` 7) as E.
  { unfold Date.getDay. rewrite Day_midnight, Ei.
    generalize (monthStart k). intros s. Z.div_mod_to_equations. lia. }
  split; [exact E|].
  unfold Date.weekdayLong.
  set (g := Date.getDay ((monthStart k + (d - 1)) * Date.msPerDay)) in *.
  assert (0 ≤ g < 7) as Hg
    by (unfold g, Date.getDay; apply Z.mod_pos_bound; lia).
  rewrite <- (weekday_header g Hg), E. f_equal.
  rewrite <- (Nat2Z.id (i `mod` 7)), Nat2Z.inj_mod. reflexivity.
Qed.

Lemma grid_columns_witness :
  Calendar.weekdays !! (6 `mod` 7)%nat
  = Some (toUpperCase
            (String.substring 0 3
               (Date.weekdayLong (newDate 2026 10 1)))).
Proof.
  refine (proj2 (grid_columns_are_weekdays mondayMorning 6
                   (dayCell mondayMorning 1) (newDate 2026 10 1) _ _ _)).
  - vm_compute. discriminate.
  - vm_compute. reflexivity.
  - vm_compute. reflexivity.
Defined.

(** ** Month navigation *)

Lemma today_same_day (now : Z) :
  Date.Day (Calendar.today now) = Date.Day now.
Proof.
  unfold Calendar.today. rewrite setHours_midnight. apply Day_midnight.
Qed.

Lemma today_monthIndex (now : Z) :
  Date.getFullYear (Calendar.today now) = Date.getFullYear now ∧
  Date.getMonth (Calendar.today now) = Date.getMonth now.
Proof.
  unfold Date.getFullYear, Date.getMonth. now rewrite today_same_day.
Qed.

(** The first of the month [j] months after the current one. *)
Lemma month_ahead (now j : Z) :
  100 ≤ Date.getFullYear now → 0 ≤ j →
  ∃ t, t = monthStart (monthIndex now + j) * Date.msPerDay ∧
       newDate (Date.getFullYear now) (Date.getMonth now + j) 1 = t ∧
       Date.getFullYear t = (monthIndex now + j) / 12 ∧
       Date.getMonth t = (monthIndex now + j) `mod` 12 ∧
       100 ≤ Date.getFullYear t ∧
       12 * Date.getFullYear t + Date.getMonth t = monthIndex now + j ∧
       Date.Day t = monthStart (monthIndex now + j).
Proof.
  intros Hy Hj. eexists. split; [reflexivity|].
  remember (monthIndex now + j) as k eqn:Ek.
  pose proof (monthStart_step k) as S.
  destruct (date_of_month_day k 1 ltac:(lia)) as (A & B & _).
  replace (monthStart k + (1 - 1)) with (monthStart k) in A, B by lia.
  destruct (month_of_time now) as (Hm & Ey & Em & _).
  split; [|split; [exact A|split; [exact B|split; [|split]]]].
  - rewrite newDate_monthStart by lia. f_equal.
    rewrite Z.sub_diag, Z.add_0_r. f_equal. unfold monthIndex in Ek. lia.
  - rewrite A. transitivity (monthIndex now / 12).
    + rewrite Ey. exact Hy.
    + apply Z.div_le_mono; lia.
  - rewrite A, B. Z.div_mod_to_equations. lia.
  - apply Day_midnight.
Qed.

Lemma press_walks (now j : Z) (b : Calendar.button) :
  100 ≤ Date.getFullYear now → 0 ≤ j ≤ 3 →
  Calendar.press now
    (newDate (Date.getFullYear now) (Date.getMonth now + j) 1) b
  = newDate (Date.getFullYear now) (Date.getMonth now + walk j b) 1.
Proof.
  intros Hy Hj.
  destruct (month_ahead now j Hy ltac:(lia))
    as (t & Et & E & Ay & Am & Hy' & Ek & Dt).
  rewrite E.
  destruct (today_monthIndex now) as [Ty Tm].
  destruct b; unfold Calendar.press.
  - (* Prev *)
    unfold Calendar.prevDisabled, Calendar.startMonth. rewrite Ty, Tm.
    destruct (month_ahead now 0 Hy ltac:(lia))
      as (t0 & Et0 & E0 & _ & _ & _ & _ & Dt0).
    replace (Date.getMonth now + 0) with (Date.getMonth now) in E0 by lia.
    rewrite E0.
    destruct (decide (j = 0)) as [->|Nj].
    + assert (t = t0) as -> by congruence.
      rewrite bool_decide_eq_true_2 by reflexivity.
      change (walk 0 Calendar.Prev) with 0. now rewrite E.
    + rewrite bool_decide_eq_false_2.
      2:{ intros Ed. apply ymd_inj in Ed. rewrite Dt, Dt0 in Ed.
          pose proof (monthStart_lt (monthIndex now + 0)
                        (monthIndex now + j) ltac:(lia)). lia. }
      cbn [walk]. rewrite Z.max_r by lia.
      destruct (month_ahead now (j - 1) Hy ltac:(lia))
        as (t1 & -> & -> & _).
      rewrite newDate_monthStart by lia.
      rewrite Z.sub_diag, Z.add_0_r. do 2 f_equal. lia.
  - (* Next *)
    unfold Calendar.nextDisabled, Calendar.maxMonth. rewrite Ty, Tm.
    destruct (month_ahead now 3 Hy ltac:(lia))
      as (t3 & _ & E3 & By & Bm & _). rewrite E3, By, Bm, Ay, Am.
    destruct (decide (j = 3)) as [->|Nj].
    + rewrite !Z.eqb_refl. cbn [andb].
      change (walk 3 Calendar.Next) with 3. now rewrite E.
    + replace (((monthIndex now + j) / 12 =? (monthIndex now + 3) / 12)
               && ((monthIndex now + j) `mod` 12
                   =? (monthIndex now + 3) `mod` 12)) with false.
      2:{ symmetry. apply andb_false_iff.
          destruct (Z.eqb_spec ((monthIndex now + j) / 12)
                               ((monthIndex now + 3) / 12)); [|now left].
          destruct (Z.eqb_spec ((monthIndex now + j) `mod` 12)
                               ((monthIndex now + 3) `mod` 12));
            [|now right].
          exfalso. generalize dependent (monthIndex now). intros.
          Z.div_mod_to_equations. lia. }
      cbn [walk]. rewrite Z.min_r by lia.
      destruct (month_ahead now (j + 1) Hy ltac:(lia))
        as (t1 & -> & -> & _).
      rewrite newDate_monthStart by lia.
      rewrite Z.sub_diag, Z.add_0_r. do 2 f_equal. lia.
Qed.

Lemma presses_walk (now : Z) (presses : list Calendar.button) (j : Z) :
  100 ≤ Date.getFullYear now → 0 ≤ j ≤ 3 →
  0 ≤ foldl walk j presses ≤ 3 ∧
  foldl (Calendar.press now)
        (newDate (Date.getFullYear now) (Date.getMonth now + j) 1) presses
  = newDate (Date.getFullYear now)
            (Date.getMonth now + foldl walk j presses) 1.
Proof.
  intros Hy. revert j.
  induction presses as [|b presses IH]; intros j Hj; cbn [foldl].
  - split; [exact Hj | reflexivity].
  - rewrite press_walks by assumption. apply IH.
    destruct b; cbn [walk]; lia.
Qed.

Lemma startMonth_is_month_0 (now : Z) :
  Calendar.startMonth now
  = newDate (Date.getFullYear now) (Date.getMonth now + 0) 1.
Proof.
  unfold Calendar.startMonth.
  destruct (today_monthIndex now) as [-> ->]. now rewrite Z.add_0_r.
Qed.

(** X7.  The calendar shows the current month and the three months after
    it, and no other: whatever buttons are pressed, the month shown is
    the first of the month as many months ahead as the presses walk
    between 0 and 3, Prev stepping back but not below 0 and Next
    stepping on but not beyond 3. *)
Theorem calendar_stays_within_four_months (now : Z)
    (presses : list Calendar.button) :
  100 ≤ Date.getFullYear now →
  let j := foldl walk 0 presses in
  0 ≤ j ≤ 3 ∧
  foldl (Calendar.press now) (Calendar.startMonth now) presses
  = newDate (Date.getFullYear now) (Date.getMonth now + j) 1.
Proof.
  intros Hy. cbv zeta. rewrite startMonth_is_month_0.
  apply presses_walk; [exact Hy | lia].
Qed.

Lemma calendar_navigation_witness :
  foldl (Calendar.press mondayMorning) (Calendar.startMonth mondayMorning)
        [Calendar.Next; Calendar.Next; Calendar.Next; Calendar.Next;
         Calendar.Prev]
  = newDate 2026 12 1.
Proof.
  exact (proj2 (calendar_stays_within_four_months mondayMorning
                  [Calendar.Next; Calendar.Next; Calendar.Next;
                   Calendar.Next; Calendar.Prev]
                  ltac:(vm_compute; discriminate))).
Defined.

(** ** Picking a date *)

Lemma day_cell_round_trip (k d : Z) :
  100 ≤ k / 12 → 1 ≤ d ≤ monthStart (k + 1) - monthStart k →
  let t := (monthStart k + (d - 1)) * Date.msPerDay in
  newDate (Date.getFullYear t) (Date.getMonth t) (Date.getDate t) = t.
Proof.
  intros Hy Hd t. destruct (date_of_month_day k d Hd) as (A & B & C & _).
  fold t in A, B, C. rewrite A, B, C, newDate_monthStart by lia.
  unfold t. do 3 f_equal. Z.div_mod_to_equations. lia.
Qed.

(** X8.  A click on a cell of the calendar selects the date of the cell
    exactly when the cell is a day that is neither before today nor in
    the blocked set, and changes nothing otherwise; a date that can be
    clicked is the midnight of a day from the first of the current month
    to the end of the third month after it. *)
Theorem only_open_days_can_be_selected (now : Z) (st : PageState)
    (presses : list Calendar.button) (i : nat) (cell : Calendar.Cell) :
  100 ≤ Date.getFullYear now →
  let view :=
    foldl (Calendar.press now) (Calendar.startMonth now) presses in
  Calendar.grid view !! i = Some cell →
  match Calendar.date cell with
  | None => Calendar.clickCell now st cell = st
  | Some t =>
      (if bool_decide (Calendar.today now ≤ t ∧ ymd t ∉ blockedDates st)
       then selectedDate (Calendar.clickCell now st cell) = Some t
       else Calendar.clickCell now st cell = st) ∧
      blockedDates (Calendar.clickCell now st cell) = blockedDates st ∧
      Calendar.startMonth now ≤ t
        < newDate (Date.getFullYear now) (Date.getMonth now + 4) 1 ∧
      Date.TimeWithinDay t = 0
  end.
Proof.
  intros Hy view Hi.
  destruct (Calendar.date cell) as [t|] eqn:Ec.
  2:{ unfold Calendar.clickCell. now rewrite Ec. }
  assert (0 ≤ foldl walk 0 presses ≤ 3 ∧
          foldl (Calendar.press now) (Calendar.startMonth now) presses
          = newDate (Date.getFullYear now)
                    (Date.getMonth now + foldl walk 0 presses) 1)
    as [Hj Ev]
    by (rewrite startMonth_is_month_0; apply presses_walk;
        [exact Hy | lia]).
  fold view in Ev. set (j := foldl walk 0 presses) in *. clearbody j.
  destruct (month_ahead now j Hy ltac:(lia))
    as (tv & Etv & E & Ay & Am & Hy' & Ek & Dt).
  rewrite E in Ev. clear E.
  assert (monthIndex view = monthIndex now + j) as Ei
    by (unfold monthIndex at 1; rewrite Ev; exact Ek).
  rewrite <- Ev in Hy'.
  destruct (grid_day_cells view i cell t Hy' Hi Ec) as (d & Hd & _ & _ & Et).
  rewrite Ei in Hd, Et. set (k := monthIndex now + j) in *.
  assert (100 ≤ k / 12) as Hk by (rewrite Ev, Ay in Hy'; exact Hy').
  pose proof (day_cell_round_trip k d Hk Hd) as R. cbv zeta in R.
  rewrite <- Et in R.
  destruct (date_of_month_day k d Hd) as (_ & _ & _ & Hmid).
  cbv zeta in Hmid. rewrite <- Et in Hmid.
  assert (Calendar.isBlocked now (blockedDates st) cell
          = negb (bool_decide (Calendar.today now ≤ t
                               ∧ ymd t ∉ blockedDates st))) as Eb.
  { unfold Calendar.isBlocked, Calendar.isBeforeToday. rewrite Ec, R.
    destruct (bool_decide_reflect
                (Calendar.today now ≤ t ∧ ymd t ∉ blockedDates st))
      as [[H1 H2]|Hn]; cbn [negb].
    - rewrite (bool_decide_eq_false_2 _ H2).
      now rewrite (proj2 (Z.ltb_ge _ _) H1).
    - destruct (decide (ymd t ∈ blockedDates st)) as [Hin|Hin].
      + now rewrite (bool_decide_eq_true_2 _ Hin).
      + rewrite (proj2 (Z.ltb_lt t (Calendar.today now)))
          by (apply Z.nle_gt; tauto).
        apply orb_true_r. }
  split; [|split; [|split]].
  - unfold Calendar.clickCell. rewrite Ec, Eb, negb_involutive.
    destruct (bool_decide _); reflexivity.
  - unfold Calendar.clickCell. rewrite Ec.
    destruct (Calendar.isBlocked now (blockedDates st) cell); reflexivity.
  - rewrite startMonth_is_month_0.
    destruct (month_ahead now 0 Hy ltac:(lia)) as (t0 & -> & -> & _).
    destruct (month_ahead now 4 Hy ltac:(lia)) as (t4 & -> & -> & _).
    pose proof (monthStart_le (monthIndex now + 0) k ltac:(unfold k; lia)).
    pose proof (monthStart_le (k + 1) (monthIndex now + 4)
                  ltac:(unfold k; lia)).
    rewrite Et. unfold Date.msPerDay. lia.
  - exact Hmid.
Qed.

Lemma date_selection_witness :
  selectedDate
    (Calendar.clickCell mondayMorning (freshPage None "")
       (dayCell mondayMorning 5))
  = Some (newDate 2026 10 5).
Proof.
  pose proof (only_open_days_can_be_selected mondayMorning
                (freshPage None "") [] 10 (dayCell mondayMorning 5)
                ltac:(vm_compute; discriminate)
                ltac:(vm_compute; reflexivity)) as W.
  cbn [Calendar.date dayCell] in W. destruct W as [W _].
  rewrite bool_decide_eq_true_2 in W; [exact W|].
  split; [vm_compute; discriminate | apply not_elem_of_empty].
Defined.

(** ** The list of rooms *)

(** X9.  The effect makes the list of rooms as long as the count: it
    keeps the rooms already entered up to the count and adds blank rooms
    after them, and running it again changes nothing; a count that is no
    number leaves the list alone, and a count read from a selector is
    never negative. *)
Theorem syncRooms_resizes (prev : list Room) :
  (∀ n : Z, 0 ≤ n →
     syncRooms (Some n) prev
     = take (Z.to_nat n) prev
       ++ replicate (Z.to_nat n - List.length prev) blankRoom ∧
     List.length (syncRooms (Some n) prev) = Z.to_nat n ∧
     syncRooms (Some n) (syncRooms (Some n) prev)
     = syncRooms (Some n) prev) ∧
  syncRooms None prev = prev ∧
  (∀ value n, countOf value = Some n → 0 ≤ n).
Proof.
  assert (∀ (l : list Room) (n : Z), 0 ≤ n →
     syncRooms (Some n) l
     = take (Z.to_nat n) l
       ++ replicate (Z.to_nat n - List.length l) blankRoom) as F.
  { intros l n Hn. unfold syncRooms. cbv zeta.
    destruct (Z.ltb_spec (Z.of_nat (List.length l)) n) as [L|L].
    - rewrite take_ge by lia. do 2 f_equal. lia.
    - replace (Z.to_nat n - List.length l)%nat with 0%nat by lia.
      cbn [replicate]. rewrite app_nil_r.
      destruct (Z.ltb_spec n (Z.of_nat (List.length l))) as [L'|L'].
      + destruct (Z.ltb_spec n 0); [lia | reflexivity].
      + now rewrite take_ge by lia. }
  assert (∀ (l : list Room) (n : Z), 0 ≤ n →
     List.length (syncRooms (Some n) l) = Z.to_nat n) as G.
  { intros l n Hn. rewrite F by assumption.
    rewrite length_app, length_take, length_replicate. lia. }
  split; [|split; [reflexivity|]].
  - intros n Hn. split; [now apply F|]. split; [now apply G|].
    rewrite (F (syncRooms _ _)) by assumption.
    rewrite G by assumption. rewrite take_ge by (rewrite G; lia).
    rewrite Nat.sub_diag. apply app_nil_r.
  - intros value n. unfold countOf.
    destruct (parseInt _) as [z|]; [|discriminate].
    cbn. intros [= <-]. lia.
Qed.

Lemma syncRooms_witness :
  syncRooms (Some 3) [{| typeId := "meeting"; sizeId := "m" |}]
  = [{| typeId := "meeting"; sizeId := "m" |}; blankRoom; blankRoom].
Proof.
  exact (proj1 (proj1 (syncRooms_resizes
                         [{| typeId := "meeting"; sizeId := "m" |}])
                  3 ltac:(lia))).
Defined.

(** ** Room summaries *)

Lemma filter_length_disjoint {A} (p q : A → bool) (l : list A) :
  (∀ x, p x = true → q x = true → False) →
  List.length (List.filter (λ x, p x || q x) l)
  = (List.length (List.filter p l) + List.length (List.filter q l))%nat.
Proof.
  intros D. induction l as [|x l IH]; [reflexivity|]. cbn [List.filter].
  destruct (p x) eqn:Ep, (q x) eqn:Eq; cbn [orb List.length].
  - destruct (D x Ep Eq).
  - rewrite IH. lia.
  - rewrite IH. lia.
  - exact IH.
Qed.

Lemma filter_ext {A} (p q : A → bool) (l : list A) :
  (∀ x, p x = q x) → List.filter p l = List.filter q l.
Proof.
  intros E. induction l as [|x l IH]; [reflexivity|]. cbn [List.filter].
  now rewrite E, IH.
Qed.

Lemma bool_decide_elem_cons (x a : string) (l : list string) :
  bool_decide (x ∈ a :: l) = bool_decide (x = a) || bool_decide (x ∈ l).
Proof.
  destruct (bool_decide_reflect (x = a)) as [E|E],
           (bool_decide_reflect (x ∈ l)) as [I|I]; cbn [orb].
  1-3: apply bool_decide_eq_true_2; rewrite elem_of_cons; tauto.
  apply bool_decide_eq_false_2; rewrite elem_of_cons; tauto.
Qed.

Section RoomSummaries.
Variable rooms : list Room.

Lemma roomSummaries_elem (ROOM_TYPES : list RoomType.t)
    (s : RoomSummary.t) :
  s ∈ roomSummaries ROOM_TYPES rooms ↔
  ∃ rt, rt ∈ ROOM_TYPES ∧
        List.filter (λ r, bool_decide (typeId r = RoomType.id rt)) rooms
        ≠ [] ∧
        s = {| RoomSummary.typeId := RoomType.id rt;
               RoomSummary.label := RoomType.label rt;
               RoomSummary.count :=
                 List.length
                   (List.filter
                      (λ r, bool_decide (typeId r = RoomType.id rt)) rooms);
               RoomSummary.sizes :=
                 sizeId <$>
                   List.filter
                     (λ r, bool_decide (typeId r = RoomType.id rt)) rooms |}.
Proof.
  unfold roomSummaries. rewrite list_elem_of_omap. cbv zeta. split.
  - intros (rt & Hrt & E). exists rt. split; [exact Hrt|].
    destruct (List.filter _ rooms) as [|r m]; [discriminate|].
    rewrite bool_decide_eq_false_2 in E by discriminate.
    injection E as <-. split; [discriminate | reflexivity].
  - intros (rt & Hrt & Hne & ->). exists rt. split; [exact Hrt|].
    destruct (List.filter _ rooms) as [|r m]; [congruence|].
    now rewrite bool_decide_eq_false_2 by discriminate.
Qed.

Lemma roomSummaries_ids (ROOM_TYPES : list RoomType.t) :
  RoomSummary.typeId <$> roomSummaries ROOM_TYPES rooms
  = List.filter
      (λ id, negb (bool_decide
                     (List.filter (λ r, bool_decide (typeId r = id)) rooms
                      = [])))
      (RoomType.id <$> ROOM_TYPES).
Proof.
  unfold roomSummaries. cbv zeta.
  induction ROOM_TYPES as [|rt l IH]; [reflexivity|].
  cbn [omap list_omap fmap list_fmap List.filter].
  destruct (List.filter (λ r, bool_decide (typeId r = RoomType.id rt)) rooms)
    as [|r m].
  - rewrite (bool_decide_eq_true_2 (List.length [] = 0%nat))
      by reflexivity.
    rewrite (bool_decide_eq_true_2 ([] = [])) by reflexivity.
    cbn [negb]. exact IH.
  - rewrite (bool_decide_eq_false_2 (List.length (r :: m) = 0%nat))
      by discriminate.
    rewrite (bool_decide_eq_false_2 (r :: m = [])) by discriminate.
    cbn [negb fmap list_fmap RoomSummary.typeId]. f_equal. exact IH.
Qed.

Lemma roomSummaries_total (ROOM_TYPES : list RoomType.t) :
  NoDup (RoomType.id <$> ROOM_TYPES) →
  sum_list (RoomSummary.count <$> roomSummaries ROOM_TYPES rooms)
  = List.length
      (List.filter
         (λ r, bool_decide (typeId r ∈ RoomType.id <$> ROOM_TYPES)) rooms).
Proof.
  unfold roomSummaries. cbv zeta.
  induction ROOM_TYPES as [|rt l IH]; intros ND.
  - cbn. induction rooms as [|r rs IHr]; [reflexivity|].
    cbn [List.filter].
    rewrite bool_decide_eq_false_2 by apply not_elem_of_nil.
    exact IHr.
  - rewrite fmap_cons in ND. apply NoDup_cons in ND as [Hn ND].
    rewrite fmap_cons. cbn [omap list_omap].
    rewrite (filter_ext
               (λ r, bool_decide
                       (typeId r ∈ RoomType.id rt :: (RoomType.id <$> l)))
               (λ r, bool_decide (typeId r = RoomType.id rt)
                     || bool_decide (typeId r ∈ RoomType.id <$> l)))
      by (intros; apply bool_decide_elem_cons).
    rewrite filter_length_disjoint.
    2:{ intros r E%bool_decide_eq_true I%bool_decide_eq_true.
        apply Hn. now rewrite <- E. }
    rewrite <- (IH ND).
    destruct (List.filter (λ r, bool_decide (typeId r = RoomType.id rt))
                          rooms) as [|r m].
    + now rewrite (bool_decide_eq_true_2 (List.length [] = 0%nat)).
    + now rewrite (bool_decide_eq_false_2 (List.length (r :: m) = 0%nat)).
Qed.

End RoomSummaries.

(** X10.  The summaries of the rooms, on the office page and on the
    promotional page: one summary for every listed room type that has at
    least one room, in the order of the list of types, with the number
    of rooms of that type and their sizes in the order the rooms were
    entered; the counts add up to the number of rooms that have a listed
    type, so rooms without a type are left out. *)
Theorem roomSummaries_partition (rooms : list Room)
    (ROOM_TYPES : list RoomType.t) :
  ROOM_TYPES = OFFICE_ROOM_TYPES ∨ ROOM_TYPES = HOME_ROOM_TYPES →
  let summaries := roomSummaries ROOM_TYPES rooms in
  let matching id :=
    List.filter (λ r, bool_decide (typeId r = id)) rooms in
  (∀ s, s ∈ summaries ↔
        ∃ rt, rt ∈ ROOM_TYPES ∧ matching (RoomType.id rt) ≠ [] ∧
              s = {| RoomSummary.typeId := RoomType.id rt;
                     RoomSummary.label := RoomType.label rt;
                     RoomSummary.count :=
                       List.length (matching (RoomType.id rt));
                     RoomSummary.sizes :=
                       sizeId <$> matching (RoomType.id rt) |}) ∧
  RoomSummary.typeId <$> summaries
  = List.filter (λ id, negb (bool_decide (matching id = [])))
                (RoomType.id <$> ROOM_TYPES) ∧
  NoDup (RoomSummary.typeId <$> summaries) ∧
  sum_list (RoomSummary.count <$> summaries)
  = List.length
      (List.filter
         (λ r, bool_decide (typeId r ∈ RoomType.id <$> ROOM_TYPES)) rooms).
Proof.
  intros HT summaries matching.
  assert (NoDup (RoomType.id <$> ROOM_TYPES)) as ND
    by (destruct HT as [-> | ->]; apply (bool_decide_unpack _);
        vm_compute; reflexivity).
  split; [|split; [|split]].
  - intros s. apply roomSummaries_elem.
  - apply roomSummaries_ids.
  - unfold summaries. rewrite roomSummaries_ids.
    apply NoDup_ListNoDup, List.NoDup_filter, NoDup_ListNoDup, ND.
  - now apply roomSummaries_total.
Qed.

Lemma roomSummaries_witness :
  sum_list (RoomSummary.count
              <$> roomSummaries OFFICE_ROOM_TYPES
                    [{| typeId := "meeting"; sizeId := "m" |}; blankRoom;
                     {| typeId := "meeting"; sizeId := "s" |}])
  = 2%nat.
Proof.
  rewrite (proj2 (proj2 (proj2 (roomSummaries_partition
             [{| typeId := "meeting"; sizeId := "m" |}; blankRoom;
              {| typeId := "meeting"; sizeId := "s" |}]
             OFFICE_ROOM_TYPES (or_introl eq_refl))))).
  reflexivity.
Defined.

(** ** Checkbox lists *)

Lemma setAdd_spec (x : string) (s : list string) :
  NoDup s →
  NoDup (setAdd x s) ∧ ∀ y, y ∈ setAdd x s ↔ y = x ∨ y ∈ s.
Proof.
  intros ND. unfold setAdd.
  destruct (bool_decide_reflect (x ∈ s)) as [I|I].
  - split; [exact ND|]. intros y. split; [now right|].
    now intros [->|?].
  - split.
    + apply NoDup_app. split; [exact ND|]. split; [|apply NoDup_singleton].
      intros y Hy ->%list_elem_of_singleton. contradiction.
    + intros y. rewrite elem_of_app, list_elem_of_singleton. tauto.
Qed.

Lemma setOf_fold (l s : list string) :
  NoDup s →
  NoDup (foldl (λ s x, setAdd x s) s l) ∧
  (∀ y, y ∈ foldl (λ s x, setAdd x s) s l ↔ y ∈ s ∨ y ∈ l) ∧
  (NoDup (s ++ l) → foldl (λ s x, setAdd x s) s l = s ++ l).
Proof.
  revert s. induction l as [|x l IH]; intros s ND; cbn [foldl].
  - split; [exact ND|]. split.
    + intros y. rewrite elem_of_nil. tauto.
    + intros _. now rewrite app_nil_r.
  - destruct (setAdd_spec x s ND) as [ND' M].
    destruct (IH _ ND') as (A & B & C). split; [exact A|]. split.
    + intros y. rewrite B, M, elem_of_cons. tauto.
    + intros NDl.
      assert (x ∉ s) as Hx.
      { apply NoDup_app in NDl as (_ & D & _). intros Hin.
        apply (D x Hin). apply list_elem_of_here. }
      assert (setAdd x s = s ++ [x]) as E
        by (unfold setAdd; now rewrite bool_decide_eq_false_2).
      rewrite E in C |- *. rewrite C; rewrite <- app_assoc; [reflexivity|].
      exact NDl.
Qed.

Lemma setOf_spec (l : list string) :
  NoDup (setOf l) ∧ (∀ y, y ∈ setOf l ↔ y ∈ l) ∧
  (NoDup l → setOf l = l).
Proof.
  destruct (setOf_fold l [] (NoDup_nil_2)) as (A & B & C).
  split; [exact A|]. split; [|exact C].
  intros y. unfold setOf. rewrite B, elem_of_nil. tauto.
Qed.

Lemma setDelete_spec (x : string) (s : list string) :
  NoDup s →
  NoDup (setDelete x s) ∧ ∀ y, y ∈ setDelete x s ↔ y ≠ x ∧ y ∈ s.
Proof.
  intros ND. unfold setDelete. split.
  - apply NoDup_ListNoDup, List.NoDup_filter, NoDup_ListNoDup, ND.
  - intros y. rewrite !list_elem_of_In, List.filter_In, negb_true_iff,
      bool_decide_eq_false. tauto.
Qed.

Lemma addOnsSum_acc (a : Q) (l : list string) :
  (foldl (λ sum key, (sum + HomeCleanV1.addOnPrice key)%Q) a l
   == a + addOnsSum l)%Q.
Proof.
  unfold addOnsSum. revert a.
  induction l as [|x l IH]; intros a; cbn [foldl].
  - now rewrite Qplus_0_r.
  - rewrite IH, (IH (0 + _)%Q). ring.
Qed.

Lemma addOnsSum_cons (x : string) (l : list string) :
  (addOnsSum (x :: l) == HomeCleanV1.addOnPrice x + addOnsSum l)%Q.
Proof.
  unfold addOnsSum at 1. cbn [foldl]. rewrite addOnsSum_acc. ring.
Qed.

Lemma addOnsSum_delete (x : string) (l : list string) :
  NoDup l → x ∈ l →
  (addOnsSum (setDelete x l) + HomeCleanV1.addOnPrice x == addOnsSum l)%Q.
Proof.
  unfold setDelete.
  induction l as [|y l IH]; intros ND Hin;
    [now apply elem_of_nil in Hin|].
  apply NoDup_cons in ND as [Hy ND]. cbn [List.filter].
  destruct (bool_decide_reflect (y = x)) as [->|Ne]; cbn [negb].
  - rewrite addOnsSum_cons.
    assert (List.filter (λ y, negb (bool_decide (y = x))) l = l) as ->.
    { clear IH ND Hin. induction l as [|z l IH]; [reflexivity|].
      cbn [List.filter].
      rewrite bool_decide_eq_false_2
        by (intros ->; apply Hy, list_elem_of_here).
      cbn [negb]. f_equal. apply IH. intros Hin. apply Hy.
      now apply list_elem_of_further. }
    ring.
  - apply elem_of_cons in Hin as [->|Hin]; [congruence|].
    rewrite !addOnsSum_cons, <- (IH ND Hin). ring.
Qed.

(** X11.  The list behind a group of checkboxes on the first residential
    page is kept as a set in insertion order: it never holds a value
    twice, ticking a box adds its value at the end unless it is there,
    and clearing a box removes it.  For the add-ons this moves the
    add-ons total of the quote by exactly the price of the box. *)
Theorem checkbox_lists_are_sets (value : string)
    (currentList : list string) :
  (∀ checked, NoDup (checkboxList checked value currentList)) ∧
  (∀ x, x ∈ checkboxList true value currentList
        ↔ x = value ∨ x ∈ currentList) ∧
  (∀ x, x ∈ checkboxList false value currentList
        ↔ x ≠ value ∧ x ∈ currentList) ∧
  (NoDup currentList → value ∉ currentList →
   checkboxList true value currentList = currentList ++ [value] ∧
   checkboxList false value currentList = currentList ∧
   checkboxList false value (checkboxList true value currentList)
   = currentList ∧
   addOnsSum (checkboxList true value currentList)
   = (addOnsSum currentList + HomeCleanV1.addOnPrice value)%Q) ∧
  (NoDup currentList → value ∈ currentList →
   checkboxList true value currentList = currentList ∧
   (addOnsSum (checkboxList false value currentList)
    + HomeCleanV1.addOnPrice value == addOnsSum currentList)%Q) ∧
  (∀ form, addOnsTotal (HomeCleanV1.pricing form)
           = addOnsSum (HomeCleanV1.addOns form)).
Proof.
  destruct (setOf_spec currentList) as (ND & M & Eq).
  destruct (setAdd_spec value _ ND) as [NDa Ma].
  destruct (setDelete_spec value _ ND) as [NDd Md].
  assert (∀ l : list string, value ∉ l → setDelete value l = l) as Del.
  { intros l Hl. unfold setDelete. induction l as [|z l IH]; [reflexivity|].
    cbn [List.filter].
    rewrite bool_decide_eq_false_2
      by (intros ->; apply Hl, list_elem_of_here).
    cbn [negb]. f_equal. apply IH. intros Hin. apply Hl.
    now apply list_elem_of_further. }
  split; [|split; [|split; [|split; [|split]]]].
  - intros [|]; assumption.
  - intros x. unfold checkboxList. cbv zeta. rewrite Ma, M. tauto.
  - intros x. unfold checkboxList. cbv zeta. rewrite Md, M. tauto.
  - intros NDl Hn. unfold checkboxList. cbv zeta. rewrite (Eq NDl).
    assert (setAdd value currentList = currentList ++ [value]) as Ea
      by (unfold setAdd; now rewrite bool_decide_eq_false_2).
    rewrite Ea. split; [reflexivity|]. split; [now apply Del|]. split.
    + rewrite (proj2 (proj2 (setOf_spec (currentList ++ [value])))).
      * unfold setDelete. rewrite List.filter_app. cbn [List.filter].
        rewrite bool_decide_eq_true_2 by reflexivity. cbn [negb].
        rewrite app_nil_r. now apply Del.
      * apply NoDup_app. split; [exact NDl|].
        split; [|apply NoDup_singleton].
        intros y Hy ->%list_elem_of_singleton. contradiction.
    + unfold addOnsSum. now rewrite foldl_app.
  - intros NDl Hin. unfold checkboxList. cbv zeta. rewrite (Eq NDl).
    split.
    + unfold setAdd. now rewrite bool_decide_eq_true_2.
    + now apply addOnsSum_delete.
  - reflexivity.
Qed.

Lemma checkbox_lists_witness :
  checkboxList true "Oven (£40)" ["Fridge (£20)"]
  = ["Fridge (£20)"; "Oven (£40)"].
Proof.
  refine (proj1 (proj1 (proj2 (proj2 (proj2
            (checkbox_lists_are_sets "Oven (£40)" ["Fridge (£20)"]))))
            _ _)).
  - apply NoDup_singleton.
  - intros H%list_elem_of_singleton. discriminate.
Defined.

(** ** Reversal, trimming and filtering of strings *)

Lemma str_app_assoc (x y z : string) :
  (x +:+ y) +:+ z = x +:+ (y +:+ z).
Proof.
  induction x as [|c x IH]; [now rewrite !app_nil|].
  now rewrite !app_cons, IH.
Qed.

Lemma rev_app_cat (s a : string) :
  String.rev_app s a = String.rev_app s "" +:+ a.
Proof.
  revert a. induction s as [|c s IH]; intros a; [reflexivity|].
  cbn [String.rev_app]. rewrite IH, (IH (String c "")).
  now rewrite str_app_assoc, app_cons, app_nil.
Qed.

Lemma rev_rev (s : string) : String.rev (String.rev s) = s.
Proof. unfold String.rev. rewrite rev_app_rev_app. apply app_empty_r. Qed.

Lemma rev_cat (x y : string) :
  String.rev (x +:+ y) = String.rev y +:+ String.rev x.
Proof.
  unfold String.rev.
  assert (∀ a, String.rev_app (x +:+ y) a
               = String.rev_app y (String.rev_app x a)) as E.
  { induction x as [|c x IH]; intros a; [reflexivity|].
    rewrite app_cons. cbn [String.rev_app]. apply IH. }
  rewrite E. apply rev_app_cat.
Qed.

Lemma str_filter_app (p : ascii → bool) (s t : string) :
  str_filter p (s +:+ t) = str_filter p s +:+ str_filter p t.
Proof.
  induction s as [|c s IH]; [reflexivity|].
  rewrite app_cons. cbn [str_filter]. destruct (p c); [|exact IH].
  now rewrite app_cons, IH.
Qed.

Lemma str_filter_rev_app (p : ascii → bool) (s a : string) :
  str_filter p (String.rev_app s a)
  = String.rev_app (str_filter p s) (str_filter p a).
Proof.
  revert a. induction s as [|c s IH]; intros a; [reflexivity|].
  cbn [String.rev_app str_filter]. rewrite IH. cbn [str_filter].
  now destruct (p c).
Qed.

Lemma str_filter_rev (p : ascii → bool) (s : string) :
  str_filter p (String.rev s) = String.rev (str_filter p s).
Proof. apply str_filter_rev_app. Qed.

Lemma str_filter_idem (p : ascii → bool) (s : string) :
  str_filter p (str_filter p s) = str_filter p s.
Proof.
  induction s as [|c s IH]; [reflexivity|]. cbn [str_filter].
  destruct (p c) eqn:E; [|exact IH]. cbn [str_filter]. now rewrite E, IH.
Qed.

Lemma str_forall_filter (p : ascii → bool) (s : string) :
  str_forall p (str_filter p s) = true.
Proof.
  induction s as [|c s IH]; [reflexivity|]. cbn [str_filter].
  destruct (p c) eqn:E; [|exact IH]. cbn [str_forall]. now rewrite E, IH.
Qed.

Lemma str_filter_all (p : ascii → bool) (s : string) :
  str_forall p s = true → str_filter p s = s.
Proof.
  induction s as [|c s IH]; [reflexivity|]. cbn [str_forall str_filter].
  intros [Hc Hs]%andb_true_iff. now rewrite Hc, (IH Hs).
Qed.

Lemma space_is_no_digit (c : ascii) :
  Ascii.is_space c = true → is_digit c = false.
Proof.
  destruct c as [[] [] [] [] [] [] [] []]; try discriminate; reflexivity.
Qed.

Lemma digits_trimStart (s : string) :
  str_filter is_digit (trimStart s) = str_filter is_digit s.
Proof.
  induction s as [|c s IH]; [reflexivity|]. cbn [trimStart].
  destruct (Ascii.is_space c) eqn:E; [|reflexivity].
  cbn [str_filter]. now rewrite (space_is_no_digit c E).
Qed.

Lemma digits_trim (s : string) :
  str_filter is_digit (trim s) = str_filter is_digit s.
Proof.
  unfold trim.
  rewrite str_filter_rev, digits_trimStart, str_filter_rev, rev_rev.
  apply digits_trimStart.
Qed.

(** A string splits into the white space [trimStart] drops and what it
    keeps, and what it keeps does not begin with white space. *)
Lemma trimStart_split (s : string) :
  ∃ sp, s = sp +:+ trimStart s ∧
        match trimStart s with
        | String c _ => Ascii.is_space c = false
        | "" => True
        end.
Proof.
  induction s as [|c s (sp & E & H)]; [now exists ""|].
  cbn [trimStart]. destruct (Ascii.is_space c) eqn:Ec.
  - exists (String c sp). split; [|exact H].
    rewrite app_cons. now f_equal.
  - exists "". split; [reflexivity | exact Ec].
Qed.

Lemma trimStart_idem (s : string) : trimStart (trimStart s) = trimStart s.
Proof.
  destruct (trimStart_split s) as (_ & _ & H).
  destruct (trimStart s) as [|c t]; [reflexivity|].
  cbn [trimStart]. now rewrite H.
Qed.

Lemma trim_idem (s : string) : trim (trim s) = trim s.
Proof.
  unfold trim. set (a := trimStart s).
  destruct (trimStart_split s) as (_ & _ & Ha). fold a in Ha.
  set (b := trimStart (String.rev a)).
  destruct (trimStart_split (String.rev a)) as (sp & E & _). fold b in E.
  assert (trimStart (String.rev b) = String.rev b) as E1.
  { apply (f_equal String.rev) in E. rewrite rev_rev, rev_cat in E.
    destruct (String.rev b) as [|c t]; [reflexivity|].
    rewrite app_cons in E. rewrite E in Ha. cbn [trimStart].
    now rewrite Ha. }
  rewrite E1, rev_rev. unfold b. now rewrite trimStart_idem.
Qed.

(** ** The phone normaliser, once more *)

Lemma startsWith_app (p rest : string) : startsWith p (p +:+ rest) = true.
Proof. apply startsWith_spec. now exists rest. Qed.

(** X12.  A number is normalised once and for all: whatever the
    normaliser returns begins with a plus sign, and normalising it again
    returns it unchanged.  Nothing is returned for a missing or empty
    input only. *)
Theorem toE164UK_is_idempotent (raw : option string) :
  (toE164UK raw = None ↔ raw = None ∨ raw = Some "") ∧
  (∀ out, toE164UK raw = Some out →
     startsWith "+" out = true ∧ toE164UK (Some out) = Some out).
Proof.
  split.
  - destruct raw as [[|c s]|]; cbn [toE164UK].
    + split; [now right | reflexivity].
    + split.
      * cbv zeta. destruct (_ && _); [discriminate|].
        destruct (startsWith "44" _); [discriminate|].
        destruct (startsWith "+" _); discriminate.
      * intros [?|?]; discriminate.
    + split; [now left | reflexivity].
  - intros out E.
    destruct raw as [[|c s]|]; [discriminate| |discriminate].
    set (raw := String c s) in *.
    assert (∀ d : string,
              str_forall is_digit d = true →
              startsWith "0" d && (10 <=? str_length d)%nat = false →
              toE164UK (Some ("+" +:+ d)) = Some ("+" +:+ d)) as Plus.
    { intros d Hd H0. rewrite app_cons, app_nil.
      unfold toE164UK. cbn [str_filter is_digit Ascii.is_nat].
      change (str_filter
                (λ c, match Ascii.is_nat c with
                      | Some _ => true | None => false end) d)
        with (str_filter is_digit d).
      rewrite (str_filter_all _ _ Hd), H0.
      destruct (startsWith "44" d); [reflexivity|].
      assert (trim (String "+" d) = String "+" d) as ->.
      { apply trim_no_space. cbn [str_forall].
        eapply str_forall_impl; [apply digit_is_no_space | exact Hd]. }
      reflexivity. }
    unfold toE164UK in E. fold (digitsOf raw) in E.
    pose proof (str_forall_filter is_digit raw) as Hd.
    fold (digitsOf raw) in Hd.
    destruct (startsWith "0" (digitsOf raw)
              && (10 <=? str_length (digitsOf raw))%nat) eqn:E1.
    { (* national *)
      apply andb_true_iff in E1 as [S0 _].
      apply startsWith_spec in S0 as [rest Er].
      rewrite app_cons, app_nil in Er. rewrite Er in E, Hd.
      cbn [slice] in E. injection E as <-.
      cbn [str_forall] in Hd. apply andb_true_iff in Hd as [_ Hr].
      split; [reflexivity|].
      change ("+44" +:+ rest) with ("+" +:+ ("44" +:+ rest)).
      apply Plus; [exact Hr | reflexivity]. }
    destruct (startsWith "44" (digitsOf raw)) eqn:E2.
    { injection E as <-. split; [reflexivity|].
      apply Plus; assumption. }
    destruct (startsWith "+" (trim raw)) eqn:E3.
    { injection E as <-. split; [exact E3|].
      pose proof E3 as E3'. apply startsWith_spec in E3' as [t Et].
      rewrite app_cons, app_nil in Et.
      unfold toE164UK. rewrite Et. rewrite <- Et.
      rewrite digits_trim. fold (digitsOf raw).
      rewrite E1, E2, trim_idem, E3. reflexivity. }
    injection E as <-. split; [reflexivity|].
    apply Plus; assumption.
Qed.

Lemma toE164UK_idempotent_witness :
  toE164UK (Some "+441614960000") = Some "+441614960000".
Proof.
  exact (proj2 (proj2 (toE164UK_is_idempotent (Some "0161 496 0000"))
                  "+441614960000" eq_refl)).
Defined.

(** ** Postcodes *)

Lemma str_forall_app (p : ascii → bool) (s t : string) :
  str_forall p (s +:+ t) = str_forall p s && str_forall p t.
Proof.
  induction s as [|c s IH]; [reflexivity|].
  rewrite app_cons. cbn [str_forall]. rewrite IH. apply andb_assoc.
Qed.

Lemma str_filter_trimStart (p : ascii → bool) (s : string) :
  (∀ c, Ascii.is_space c = true → p c = false) →
  str_filter p (trimStart s) = str_filter p s.
Proof.
  intros Hp. induction s as [|c s IH]; [reflexivity|]. cbn [trimStart].
  destruct (Ascii.is_space c) eqn:E; [|reflexivity].
  cbn [str_filter]. now rewrite (Hp c E).
Qed.

Lemma str_filter_trim (p : ascii → bool) (s : string) :
  (∀ c, Ascii.is_space c = true → p c = false) →
  str_filter p (trim s) = str_filter p s.
Proof.
  intros Hp. unfold trim.
  rewrite str_filter_rev, str_filter_trimStart, str_filter_rev, rev_rev
    by exact Hp.
  now apply str_filter_trimStart.
Qed.

Lemma upper_upper (c : ascii) : upper (upper c) = upper c.
Proof. destruct c as [[] [] [] [] [] [] [] []]; reflexivity. Qed.

Lemma is_space_upper (c : ascii) :
  Ascii.is_space (upper c) = Ascii.is_space c.
Proof. destruct c as [[] [] [] [] [] [] [] []]; reflexivity. Qed.

Lemma toUpperCase_idem (s : string) :
  toUpperCase (toUpperCase s) = toUpperCase s.
Proof.
  induction s as [|c s IH]; [reflexivity|]. cbn [toUpperCase].
  now rewrite upper_upper, IH.
Qed.

Lemma toUpperCase_app (s t : string) :
  toUpperCase (s +:+ t) = toUpperCase s +:+ toUpperCase t.
Proof.
  induction s as [|c s IH]; [reflexivity|].
  rewrite app_cons. cbn [toUpperCase]. now rewrite app_cons, IH.
Qed.

Lemma str_length_toUpperCase (s : string) :
  str_length (toUpperCase s) = str_length s.
Proof.
  induction s as [|c s IH]; [reflexivity|]. cbn. now rewrite IH.
Qed.

Lemma removeSpaces_toUpperCase (s : string) :
  removeSpaces (toUpperCase s) = toUpperCase (removeSpaces s).
Proof.
  unfold removeSpaces. induction s as [|c s IH]; [reflexivity|].
  cbn [toUpperCase str_filter]. rewrite is_space_upper.
  destruct (Ascii.is_space c); cbn [negb toUpperCase]; now rewrite IH.
Qed.

Lemma substring_split (n : nat) (s : string) :
  (n ≤ str_length s)%nat →
  ∃ t, s = String.substring 0 n s +:+ t ∧
       str_length (String.substring 0 n s) = n ∧
       str_length t = (str_length s - n)%nat.
Proof.
  revert s. induction n as [|n IH]; intros s Hn.
  - exists s. destruct s; cbn; repeat split; lia.
  - destruct s as [|c s]; cbn in Hn; [lia|].
    destruct (IH s ltac:(lia)) as (t & E & L & Lt).
    exists t. cbn [String.substring]. rewrite app_cons.
    split; [now f_equal|]. cbn [str_length]. split; lia.
Qed.

Lemma app_inj_head (s1 s2 t1 t2 : string) :
  s1 +:+ t1 = s2 +:+ t2 → str_length s1 = str_length s2 →
  s1 = s2 ∧ t1 = t2.
Proof.
  revert s2. induction s1 as [|a s1 IH]; intros [|b s2] E L;
    cbn in L; try lia; rewrite ?app_nil, ?app_cons in E.
  - now split.
  - injection E as -> E. destruct (IH _ E ltac:(lia)) as [-> ->].
    now split.
Qed.

(** X13.  The outward code of a postcode typed in ASCII is the postcode
    without its white space, in upper case, less its last three
    characters; there is none when fewer than five characters are left.
    The code has at least two characters, no white space and no
    lower-case letter, and depends neither on the spacing nor on the
    letter case of what was typed. *)
Theorem extractOutward_splits_the_postcode (raw : string) :
  str_forall isAscii raw = true →
  let compact := toUpperCase (removeSpaces raw) in
  (AddressLookup.extractOutward raw = None
   ↔ (str_length compact < 5)%nat) ∧
  (∀ out, AddressLookup.extractOutward raw = Some out →
     ∃ inward, compact = out +:+ inward ∧ str_length inward = 3%nat ∧
               (2 ≤ str_length out)%nat ∧
               removeSpaces out = out ∧ toUpperCase out = out) ∧
  AddressLookup.extractOutward (toUpperCase raw)
  = AddressLookup.extractOutward raw ∧
  AddressLookup.extractOutward (removeSpaces raw)
  = AddressLookup.extractOutward raw ∧
  AddressLookup.extractOutward (trim raw)
  = AddressLookup.extractOutward raw.
Proof.
  intros _ compact. unfold AddressLookup.extractOutward. cbv zeta.
  fold compact. split; [|split; [|split; [|split]]].
  - destruct (Nat.ltb_spec (str_length compact) 5); split;
      try discriminate; try reflexivity; lia.
  - intros out. destruct (Nat.ltb_spec (str_length compact) 5) as [L|L];
      [discriminate|]. intros [= <-].
    destruct (substring_split (str_length compact - 3) compact
                ltac:(lia)) as (t & E & Lo & Lt).
    exists t. split; [exact E|]. split; [lia|]. split; [lia|].
    set (out := String.substring 0 (str_length compact - 3) compact) in *.
    assert (removeSpaces compact = compact) as Rc.
    { unfold compact. rewrite <- removeSpaces_toUpperCase.
      unfold removeSpaces. now rewrite str_filter_idem. }
    assert (toUpperCase compact = compact) as Uc
      by apply toUpperCase_idem.
    split.
    + unfold removeSpaces in *. apply str_filter_all.
      pose proof (str_forall_filter
                    (λ c, negb (Ascii.is_space c)) compact) as F.
      rewrite Rc, E, str_forall_app in F.
      now apply andb_true_iff in F as [F _].
    + rewrite E, toUpperCase_app in Uc.
      apply app_inj_head in Uc as [Uo _]; [exact Uo|].
      apply str_length_toUpperCase.
  - now rewrite removeSpaces_toUpperCase, toUpperCase_idem.
  - unfold removeSpaces. now rewrite str_filter_idem.
  - unfold removeSpaces. rewrite str_filter_trim; [reflexivity|].
    now intros c ->.
Qed.

Lemma extractOutward_witness :
  AddressLookup.extractOutward "m1 1aa" = Some "M1".
Proof.
  pose proof (proj1 (proj2 (proj2 (extractOutward_splits_the_postcode
                                     "m1 1aa" eq_refl)))) as E.
  rewrite <- E. reflexivity.
Defined.

(** ** Lines of the address service *)

Lemma split2_no_sep (a b : ascii) (p : string) :
  includes (String a (String b "")) p = false → split2 a b p = [p].
Proof.
  induction p as [|c p IH]; [reflexivity|].
  cbn [includes]. intros [S I]%orb_false_iff.
  cbn [split2]. destruct p as [|d p']; [reflexivity|].
  cbn [startsWith] in S. rewrite andb_true_r in S.
  rewrite (Ascii.eqb_sym a c), (Ascii.eqb_sym b d) in S. rewrite S.
  now rewrite (IH I).
Qed.

Lemma split2_app_sep (a b : ascii) (p rest : string) :
  Ascii.eqb a b = false →
  includes (String a (String b "")) p = false →
  split2 a b (p +:+ String a (String b rest)) = p :: split2 a b rest.
Proof.
  intros Hab. induction p as [|c p IH].
  - intros _. rewrite app_nil. cbn [split2].
    now rewrite !Ascii.eqb_refl.
  - cbn [includes]. intros [S I]%orb_false_iff.
    rewrite app_cons. cbn [split2].
    destruct p as [|d p'].
    + rewrite app_nil. rewrite app_nil in IH.
      replace (Ascii.eqb c a && Ascii.eqb a b) with false
        by (rewrite Hab; now destruct (Ascii.eqb c a)).
      now rewrite (IH I).
    + rewrite app_cons. rewrite app_cons in IH.
      cbn [startsWith] in S. rewrite andb_true_r in S.
      rewrite (Ascii.eqb_sym a c), (Ascii.eqb_sym b d) in S. rewrite S.
      now rewrite (IH I).
Qed.

Lemma split2_join (segments : list string) :
  segments ≠ [] →
  Forall (λ p, includes ", " p = false) segments →
  split2 "," " " (join ", " segments) = segments.
Proof.
  intros Hne F. induction F as [|p l Hp F IH]; [congruence|].
  destruct l as [|q l].
  - cbn [join]. now apply split2_no_sep.
  - change (join ", " (p :: q :: l))
      with (p +:+ ", " +:+ join ", " (q :: l)).
    rewrite !app_cons, app_nil.
    rewrite split2_app_sep by (reflexivity || assumption).
    f_equal. apply IH. discriminate.
Qed.

Lemma lookup_last (x : string) (l : list string) :
  Some (default "" ((x :: l) !! List.length l)) = last (x :: l).
Proof.
  revert x. induction l as [|y l IH]; intros x; [reflexivity|].
  cbn [List.length]. rewrite lookup_cons_ne_0 by lia.
  cbn [Nat.pred]. rewrite IH. reflexivity.
Qed.

Lemma lookup_before_last (x y : string) (l : list string) :
  Some (default "" ((x :: y :: l) !! List.length l))
  = last (removelast (x :: y :: l)).
Proof.
  revert x y. induction l as [|z l IH]; intros x y; [reflexivity|].
  cbn [List.length]. rewrite lookup_cons_ne_0 by lia.
  cbn [Nat.pred]. rewrite IH.
  cbn [removelast]. destruct l; reflexivity.
Qed.

(** X14.  A line of the address service, in ASCII, is cut at every comma
    followed by a space and the blank pieces are dropped; the first
    piece left is line 1 and the last is the county, the piece before
    the last is the town, and the second piece is line 2 if at least
    three are left.  So with exactly three pieces the town is repeated
    as line 2, and with exactly two the town is repeated as the county. *)
Theorem parseAddress_fields (dataPostcode : string)
    (segments : list string) :
  segments ≠ [] →
  Forall (λ p, includes ", " p = false) segments →
  Forall (λ p, str_forall isAscii p = true) segments →
  let parts :=
    List.filter (λ p, negb (bool_decide (trim p = ""))) segments in
  let found :=
    AddressLookup.parseAddress dataPostcode (join ", " segments) in
  AddressLookup.postcode found = dataPostcode ∧
  AddressLookup.fullAddress found = join ", " segments ∧
  match parts with
  | [] =>
      AddressLookup.line1 found = "" ∧ AddressLookup.line2 found = "" ∧
      AddressLookup.town found = "" ∧ AddressLookup.county found = ""
  | [p0] =>
      AddressLookup.line1 found = p0 ∧ AddressLookup.line2 found = "" ∧
      AddressLookup.town found = "" ∧ AddressLookup.county found = ""
  | [p0; p1] =>
      AddressLookup.line1 found = p0 ∧ AddressLookup.line2 found = "" ∧
      AddressLookup.town found = p1 ∧ AddressLookup.county found = p1
  | p0 :: p1 :: rest =>
      AddressLookup.line1 found = p0 ∧ AddressLookup.line2 found = p1 ∧
      Some (AddressLookup.town found) = last (removelast (p1 :: rest)) ∧
      Some (AddressLookup.county found) = last rest
  end.
Proof.
  intros Hne F _ parts found. unfold found, AddressLookup.parseAddress.
  rewrite (split2_join segments Hne F). fold parts. cbv zeta.
  cbn [AddressLookup.postcode AddressLookup.fullAddress
       AddressLookup.line1 AddressLookup.line2 AddressLookup.town
       AddressLookup.county].
  split; [reflexivity|]. split; [reflexivity|].
  destruct parts as [|p0 [|p1 [|p2 rest]]]; try (repeat split; reflexivity).
  cbn [List.length]. change (2 <? S (S (S (List.length rest))))%nat with true.
  change (1 <? S (S (S (List.length rest))))%nat with true. cbv iota.
  split; [reflexivity|]. split; [reflexivity|].
  replace (S (S (S (List.length rest))) - 2)%nat
    with (S (List.length rest)) by lia.
  replace (S (S (S (List.length rest))) - 1)%nat
    with (S (S (List.length rest))) by lia.
  rewrite !lookup_cons_ne_0 by lia. cbn [Nat.pred].
  split; [apply lookup_before_last | apply lookup_last].
Qed.

Lemma parseAddress_witness :
  let found :=
    AddressLookup.parseAddress "M1 1AA"
      "10 High Street, , , , , Manchester, Lancashire" in
  AddressLookup.line2 found = "Manchester" ∧
  AddressLookup.town found = "Manchester" ∧
  AddressLookup.county found = "Lancashire".
Proof.
  pose proof (parseAddress_fields "M1 1AA"
                ["10 High Street"; ""; ""; ""; ""; "Manchester";
                 "Lancashire"] ltac:(discriminate)
                ltac:(repeat constructor) ltac:(repeat constructor)) as W.
  cbv zeta in W. destruct W as (_ & _ & W).
  change (List.filter _ _)
    with ["10 High Street"; "Manchester"; "Lancashire"] in W.
  destruct W as (_ & W2 & Wt & Wc). cbv zeta.
  change (join ", " _)
    with "10 High Street, , , , , Manchester, Lancashire" in W2, Wt, Wc.
  split; [exact W2|]. split.
  - apply (inj Some). exact Wt.
  - apply (inj Some). exact Wc.
Defined.

(** ** Searching for an address *)

(** X15.  A search for a postcode typed in ASCII asks the address
    service only after the coverage check has found the outward code of
    the postcode among the covered ones, and asks it once; a blank
    postcode sends nothing.  Every search that starts ends with the
    loading flag off, and whenever it ends with an error message the
    list of addresses is empty; the list is filled only from a
    successful answer that holds at least one address. *)
Theorem handleSearch_asks_only_when_covered (io : AddressLookup.Services)
    (postcode : string) (st : AddressLookup.State) :
  str_forall isAscii postcode = true →
  let formatted := toUpperCase (trim postcode) in
  let st' := (AddressLookup.handleSearch io postcode st).1 in
  let requests := (AddressLookup.handleSearch io postcode st).2 in
  (∀ q, AddressLookup.FindAddresses q ∈ requests →
     ∃ outward,
       AddressLookup.extractOutward formatted = Some outward ∧
       AddressLookup.covered io outward = Ok true ∧
       q = removeSpaces formatted ∧
       requests = [AddressLookup.GetPostcodeDoc outward;
                   AddressLookup.FindAddresses q]) ∧
  (trim postcode = "" →
   requests = [] ∧
   AddressLookup.addresses st' = AddressLookup.addresses st ∧
   AddressLookup.loading st' = AddressLookup.loading st) ∧
  (trim postcode ≠ "" →
   AddressLookup.loading st' = false ∧
   (AddressLookup.error st' ≠ "" → AddressLookup.addresses st' = []) ∧
   (AddressLookup.addresses st' ≠ [] →
    AddressLookup.error st' = "" ∧
    ∃ response a l dataPostcode,
      AddressLookup.find io (removeSpaces formatted) = Ok response ∧
      AddressLookup.ok response = true ∧
      AddressLookup.json response = Ok (Some (a :: l), dataPostcode) ∧
      AddressLookup.addresses st'
      = AddressLookup.parseAddress dataPostcode <$> (a :: l))).
Proof.
  intros _. cbv zeta. unfold AddressLookup.handleSearch.
  destruct (bool_decide_reflect (trim postcode = "")) as [Eb|Nb].
  { cbn [fst snd]. split; [|split].
    - intros q Hq. now apply elem_of_nil in Hq.
    - intros _. repeat split.
    - congruence. }
  cbv zeta.
  destruct (AddressLookup.extractOutward (toUpperCase (trim postcode)))
    as [outward|] eqn:Eo.
  2:{ cbn [fst snd]. split; [|split].
      - intros q Hq. now apply elem_of_nil in Hq.
      - congruence.
      - intros _. split; [reflexivity|]. split; [reflexivity|].
        intros H. now destruct H. }
  destruct (AddressLookup.covered io outward) as [[|]|e] eqn:Ec.
  - (* covered *)
    destruct (AddressLookup.find io _) as [response|e] eqn:Ef.
    2:{ cbn [fst snd]. split; [|split].
        - intros q Hq. apply elem_of_cons in Hq as [Hq|Hq];
            [discriminate|].
          apply list_elem_of_singleton in Hq. injection Hq as ->.
          exists outward. repeat split. exact Ec.
        - congruence.
        - intros _. split; [reflexivity|]. split; [reflexivity|].
          intros H. now destruct H. }
    assert (∀ (s : AddressLookup.State) q,
              AddressLookup.FindAddresses q
              ∈ [AddressLookup.GetPostcodeDoc outward;
                 AddressLookup.FindAddresses
                   (removeSpaces (toUpperCase (trim postcode)))] →
              ∃ outward0,
                Some outward = Some outward0 ∧
                AddressLookup.covered io outward0 = Ok true ∧
                q = removeSpaces (toUpperCase (trim postcode)) ∧
                [AddressLookup.GetPostcodeDoc outward;
                 AddressLookup.FindAddresses
                   (removeSpaces (toUpperCase (trim postcode)))]
                = [AddressLookup.GetPostcodeDoc outward0;
                   AddressLookup.FindAddresses q]) as R.
    { intros _ q Hq. apply elem_of_cons in Hq as [Hq|Hq]; [discriminate|].
      apply list_elem_of_singleton in Hq. injection Hq as ->.
      exists outward. repeat split. exact Ec. }
    destruct (AddressLookup.ok response) eqn:Eok; cbn [negb].
    2:{ cbn [fst snd]. split; [apply (R st)|]. split; [congruence|].
        intros _. split; [reflexivity|]. split; [reflexivity|].
        intros H. now destruct H. }
    destruct (AddressLookup.json response) as [[[[|a l]|] pc]|e] eqn:Ej;
      cbn [fst snd]; (split; [apply (R st)|]); (split; [congruence|]);
      intros _; (split; [reflexivity|]).
    + split; [reflexivity|]. intros H. now destruct H.
    + split; [intros H; now destruct H|]. intros _.
      split; [reflexivity|]. now exists response, a, l, pc.
    + split; [reflexivity|]. intros H. now destruct H.
    + split; [reflexivity|]. intros H. now destruct H.
  - (* not covered *)
    cbn [fst snd]. split; [|split].
    + intros q Hq. apply list_elem_of_singleton in Hq. discriminate.
    + congruence.
    + intros _. split; [reflexivity|]. split; [reflexivity|].
      intros H. now destruct H.
  - (* the coverage check failed *)
    cbn [fst snd]. split; [|split].
    + intros q Hq. apply list_elem_of_singleton in Hq. discriminate.
    + congruence.
    + intros _. split; [reflexivity|]. split; [reflexivity|].
      intros H. now destruct H.
Qed.

Lemma handleSearch_witness :
  let io :=
    {| AddressLookup.covered := λ _, Ok false;
       AddressLookup.find := λ _, Throw FetchError |} in
  let st :=
    {| AddressLookup.addresses := []; AddressLookup.loading := false;
       AddressLookup.error := ""; AddressLookup.notCoveredMsg := None |} in
  AddressLookup.loading (AddressLookup.handleSearch io "m1 1aa" st).1
  = false.
Proof.
  intros io st.
  exact (proj1 (proj2 (proj2 (handleSearch_asks_only_when_covered
                                io "m1 1aa" st eq_refl))
                  ltac:(vm_compute; discriminate))).
Defined.

(** ** Accepted submissions *)

Lemma toE164UK_begins_with_plus (raw : string) :
  raw ≠ "" →
  ∃ out, toE164UK (Some raw) = Some out ∧ startsWith "+" out = true.
Proof.
  intros Hne. destruct raw as [|c s]; [congruence|].
  unfold toE164UK.
  destruct (_ && _); [eexists; split; reflexivity|].
  destruct (startsWith "44" _); [eexists; split; reflexivity|].
  destruct (startsWith "+" (trim _)) eqn:E; eexists; split;
    reflexivity || exact E.
Qed.

Lemma or_zero_positive (q : Q) : (0 < q)%Q → or_zero (Num q) = q.
Proof.
  intros L. unfold or_zero.
  destruct (Qeq_bool q 0) eqn:E; [|reflexivity].
  apply Qeq_bool_eq in E. rewrite E in L. discriminate.
Qed.

Lemma office_staff_pay_positive (rooms : list Room) (extras : Extras)
    (form : Form) (date : option Z) :
  let quote := OfficeClean.pricing rooms extras form date in
  Qgtb (or_zero (Num (estimatedHours quote)) * OfficeClean.STAFF_RATE
        * (if teamApplied quote then 2 else 1))%Q 0 = true.
Proof.
  cbv zeta. set (quote := OfficeClean.pricing rooms extras form date).
  assert (2 <= estimatedHours quote)%Q as L by apply Q.le_max_l.
  assert (0 < estimatedHours quote)%Q as P
    by (eapply Qlt_le_trans; [|exact L]; reflexivity).
  rewrite (or_zero_positive _ P). apply Qgtb_lt.
  apply Qmult_lt_0_compat; [apply Qmult_lt_0_compat|];
    [exact P | reflexivity | now destruct (teamApplied quote)].
Qed.

(** X16.  A submission that passes the checks of the current office page
    or of the promotional page does four things in this order, when
    every call succeeds: it stores the booking under its order id with
    status "confirmed", posts the same payload to the webhook, and
    writes an income and a staff-pay expense entry that carry the order
    id.  The expense entry is never skipped, the stored date and start
    time are those selected, and the stored phone number begins with a
    plus sign. *)
Theorem accepted_submission_effects (rnd : Q) (st : PageState)
    (rooms : list Room) (extras : Extras) (form : Form) (day : Z) :
  selectedDate st = Some day → selectedTime st ≠ "" →
  customerName form ≠ "" → customerEmail form ≠ "" →
  customerPhone form ≠ "" →
  addressLine1 form ≠ "" → formTown form ≠ "" → formPostcode form ≠ "" →
  let id := createOrderId rnd in
  let stored (doc : BookingDoc) (body : ZapPayload) :=
    payload doc = body ∧ zOrderId body = id ∧
    date doc = ymd day ∧ zBookingDate body = ymd day ∧
    startTime doc = selectedTime st +:+ ":00" ∧
    zBookingTime body = selectedTime st +:+ ":00" ∧
    address doc = formAddress form ∧ status doc = "confirmed" ∧
    startsWith "+" (zCustomerPhone body) = true in
  (∃ doc body,
     OfficeClean.onSubmit rnd st rooms extras form
     = [SetDoc "bookings" id doc;
        Post "https://hooks.zapier.com/hooks/catch/22652608/uz20jhf/" body;
        AddDoc "finances"
          {| entryType := "Income";
             entryName := "Office clean booking " +:+ id |};
        AddDoc "finances"
          {| entryType := "Expense";
             entryName := "Staff pay for " +:+ id |}] ∧
     stored doc body ∧
     zTotalPrice body
     = totalPrice (OfficeClean.pricing rooms extras form (Some day))) ∧
  (products form ≠ "" →
   ∃ doc body,
     HomeClean.onSubmit rnd st form
     = [SetDoc "bookings" id doc;
        Post "https://hooks.zapier.com/hooks/catch/22652608/ukujfso/" body;
        AddDoc "finances"
          {| entryType := "Income";
             entryName := "One Room booking " +:+ id |};
        AddDoc "finances"
          {| entryType := "Expense";
             entryName := "Staff pay for " +:+ id |}] ∧
     stored doc body ∧ zTotalPrice body = 25%Q ∧
     endTime doc = addHoursToTime (selectedTime st +:+ ":00") (Num 1)).
Proof.
  intros Ed Ht Hn He Hp Ha Hw Hc id stored.
  destruct (toE164UK_begins_with_plus _ Hp) as (out & Eo & Plus).
  split.
  - unfold OfficeClean.onSubmit. rewrite Ed.
    rewrite !bool_decide_eq_false_2 by assumption. cbn [orb]. cbv zeta.
    rewrite office_staff_pay_positive.
    eexists _, _. split; [reflexivity|]. split; [|reflexivity].
    unfold stored. cbn [payload zOrderId date zBookingDate startTime
      zBookingTime address status zCustomerPhone].
    rewrite Eo. cbn [default from_option id]. now repeat split.
  - intros Hq. unfold HomeClean.onSubmit. rewrite Ed.
    rewrite !(bool_decide_eq_false_2 (_ = "")) by assumption.
    cbn [orb]. cbv zeta.
    assert (∀ s d,
              Qgtb (or_zero (Num (estimatedHours HomeClean.pricing))
                    * HomeClean.getStaffRateForJob s d
                    * (if teamApplied HomeClean.pricing then 2 else 1))%Q 0
              = true) as Pay.
    { intros s d. unfold HomeClean.getStaffRateForJob. cbv zeta.
      destruct (includes _ _), (isWeekend _); reflexivity. }
    rewrite Pay.
    eexists _, _. split; [reflexivity|]. split; [|split; reflexivity].
    unfold stored. cbn [payload zOrderId date zBookingDate startTime
      zBookingTime address status zCustomerPhone].
    rewrite Eo. cbn [default from_option id]. now repeat split.
Qed.

Lemma accepted_submission_witness :
  let form :=
    {| customerName := "Ada"; customerEmail := "ada@example.org";
       customerPhone := "0161 496 0000"; cleanliness := "average";
       products := "bring"; addressLine1 := "1 Mill Lane";
       addressLine2 := ""; formTown := "Manchester"; formCounty := "";
       formPostcode := "M1 1AA"; serviceType := "" |} in
  List.length
    (OfficeClean.onSubmit (1 # 2) (freshPage (Some thursday) "10") []
       noExtras form)
  = 4%nat.
Proof.
  intros form.
  destruct (accepted_submission_effects (1 # 2)
              (freshPage (Some thursday) "10") [] noExtras form thursday
              eq_refl ltac:(discriminate) ltac:(discriminate)
              ltac:(discriminate) ltac:(discriminate) ltac:(discriminate)
              ltac:(discriminate) ltac:(discriminate))
    as [(doc & body & E & _) _].
  rewrite E. reflexivity.
Defined.

(** ** More bookings, fewer slots *)

Section MoreBookings.
Context `{Runtime}.
Variables bookings bookings' : list object.
Hypothesis kept : ∀ b, b ∈ bookings → b ∈ bookings'.

Lemma some_false {A} (f : A → result bool) (xs : list A) :
  some f xs = Ok false ↔ ∀ x, x ∈ xs → f x = Ok false.
Proof.
  induction xs as [|x xs IH]; cbn [some].
  - split; [|reflexivity]. intros _ x Hx. now apply elem_of_nil in Hx.
  - split.
    + intros E y Hy. destruct (f x) as [[|]|e] eqn:Ex; try discriminate.
      cbn in E. apply elem_of_cons in Hy as [->|Hy]; [exact Ex|].
      now apply IH.
    + intros All. rewrite (All x) by apply list_elem_of_here. cbn.
      apply IH. intros y Hy. apply All. now apply list_elem_of_further.
Qed.

Lemma staffLoop_more (weekday : string) (slotMins : int)
    (dayStaff : list object) (free : bool) :
  staffLoop weekday bookings' slotMins dayStaff = Ok true →
  staffLoop weekday bookings slotMins dayStaff = Ok free →
  free = true.
Proof.
  induction dayStaff as [|s rest IH]; [discriminate|].
  cbn [staffLoop].
  destruct (getDayAvail _ weekday) as [av|]; [|exact IH].
  destruct (negb (available av)); [exact IH|].
  destruct (timeToMinutes (start av)) as [startM|e]; [|discriminate].
  destruct (timeToMinutes (end_ av)) as [endM|e]; [|discriminate].
  cbn [mbind result_bind].
  destruct (negb (within _ _ _)); [exact IH|].
  destruct (some _ bookings') as [[|]|e] eqn:E'; cbn;
    [| | discriminate].
  { intros R. destruct (some _ bookings) as [[|]|e]; cbn;
      [now apply IH | now intros [= <-] | discriminate]. }
  intros _.
  assert (some (collidesWith slotMins
                  (Number (nullish (get s "travelBufferMins")
                                   (Number_ (Num 30))))) bookings
          = Ok false) as ->.
  { apply some_false. intros b Hb.
    exact (proj1 (some_false _ _) E' b (kept b Hb)). }
  cbn. now intros [= <-].
Qed.

Lemma slotLoop_more (date : Z) (cutoff : number) (weekday : string)
    (dayStaff : list object) (candidate refined refined' : list string) :
  slotLoop date cutoff weekday bookings dayStaff candidate = Ok refined →
  slotLoop date cutoff weekday bookings' dayStaff candidate = Ok refined' →
  refined' `sublist_of` refined.
Proof.
  revert refined refined'.
  induction candidate as [|k ks IH]; intros refined refined'.
  - intros [= <-] [= <-]. constructor.
  - cbn [slotLoop]. destruct (num_lt _ cutoff); [apply IH|].
    cbn [timeToMinutes mbind result_bind].
    destruct (staffLoop weekday bookings _ dayStaff) as [b|e] eqn:Eb;
      [|discriminate].
    destruct (staffLoop weekday bookings' _ dayStaff) as [b'|e] eqn:Eb';
      [|discriminate].
    destruct (slotLoop date cutoff weekday bookings dayStaff ks)
      as [r|e]; [|discriminate].
    destruct (slotLoop date cutoff weekday bookings' dayStaff ks)
      as [r'|e]; [|discriminate].
    intros [= <-] [= <-]. specialize (IH r r' eq_refl eq_refl).
    destruct b'.
    + rewrite (staffLoop_more _ _ _ _ Eb' Eb). now constructor.
    + destruct b; [now constructor | exact IH].
Qed.

End MoreBookings.

(** X17.  Bookings only take slots away.  If the times of a day were
    loaded without a failure, then loading them again when the day has
    more bookings, with the same staff and the same override document,
    offers a sublist of the times offered before; whether the new
    bookings are well formed does not matter. *)
Theorem more_bookings_never_add_slots `{Runtime} (now : Z)
    (db db' : Firestore) (st : PageState) (offered : list string) :
  staffDocs db' = staffDocs db →
  (∀ key, unavailabilityDoc db' key = unavailabilityDoc db key) →
  (∀ key before after,
     bookingDocs db key = Ok before → bookingDocs db' key = Ok after →
     ∀ b, b ∈ before → b ∈ after) →
  loadTimesBody now db st = Ok offered →
  availableTimes (loadTimes now db st) = offered ∧
  availableTimes (loadTimes now db' st) `sublist_of` offered.
Proof.
  intros Es Eu Hb E. unfold loadTimes. cbn [availableTimes].
  rewrite E. split; [reflexivity|].
  unfold loadTimesBody in *.
  destruct (selectedDate st) as [date|]; [|injection E as <-; constructor].
  cbv zeta in *.
  destruct (bool_decide (ymd date ∈ blockedDates st));
    [injection E as <-; constructor|].
  rewrite Eu, Es.
  destruct (unavailabilityDoc db (ymd date)) as [snap|e]; [|discriminate].
  cbn [mbind result_bind] in *.
  destruct (bookingDocs db (ymd date)) as [before|e] eqn:B; [|discriminate].
  destruct (bookingDocs db' (ymd date)) as [after|e] eqn:B';
    [|apply sublist_nil_l].
  cbn [mbind result_bind] in *.
  destruct (staffDocs db) as [staffSnap|e]; [|discriminate].
  cbn [mbind result_bind] in *.
  destruct (List.filter (availableOn _) _) as [|s rest];
    [injection E as <-; constructor|].
  match goal with
  | |- try_catch ?body _ `sublist_of` _ =>
      destruct body as [offered'|e] eqn:E'; [|apply sublist_nil_l]
  end.
  cbn [try_catch].
  exact (slotLoop_more before after (Hb _ _ _ B B') _ _ _ _ _ _ _ E E').
Qed.

Lemma more_bookings_witness :
  let H := decimalRuntime in
  let quiet :=
    {| staffDocs := Ok [everyDay "09:00" "17:00"];
       unavailabilityDoc := λ _, Ok None;
       bookingDocs := λ _, Ok [] |} in
  availableTimes
    (loadTimes mondayMorning (oneCleaner "09:00" "17:00")
               (freshPage (Some thursday) ""))
  `sublist_of` ["9"; "10"; "11"; "12"; "13"; "14"; "15"; "16"].
Proof.
  intros H quiet.
  refine (proj2 (@more_bookings_never_add_slots H mondayMorning quiet
                   (oneCleaner "09:00" "17:00")
                   (freshPage (Some thursday) "") _
                   eq_refl (λ _, eq_refl) _ _)).
  - intros key before after [= <-] _ b Hb. now apply elem_of_nil in Hb.
  - vm_compute. reflexivity.
Defined.

(** ** The steps of the current pages *)

(** X18.  While the answers stay as they are, no sequence of Next and
    Back takes a visitor past a section whose check fails.  On the
    office page the step stays between 0 and 3; past the first section a
    cleanliness level is chosen and the number of rooms is a number,
    past the second every room has a type and a size unless the number
    of rooms is zero, and the last section is reached only with a choice
    of products.  On the promotional page the step stays between 0 and
    2; past the first section the room has a type and a size, and the
    last section is reached only with an access choice, and with a key
    location if the choice is the alternative one. *)
Theorem steps_are_guarded (presses : list press) :
  (∀ i : OfficeSteps.Inputs,
     let step := foldl (OfficeSteps.click i) 0 presses in
     0 ≤ step ≤ 3 ∧
     (1 ≤ step →
      OfficeSteps.cleanliness i ≠ "" ∧
      ∃ n, OfficeSteps.roomsCount i = Some n ∧ 0 ≤ n) ∧
     (2 ≤ step →
      OfficeSteps.roomsCount i = Some 0 ∨
      Forall (λ r, typeId r ≠ "" ∧ sizeId r ≠ "") (OfficeSteps.rooms i)) ∧
     (step = 3 → OfficeSteps.products i ≠ "")) ∧
  (∀ i : PromoSteps.Inputs,
     let step := foldl (PromoSteps.click i) 0 presses in
     0 ≤ step ≤ 2 ∧
     (1 ≤ step →
      ∃ r rest, PromoSteps.rooms i = r :: rest ∧
                typeId r ≠ "" ∧ sizeId r ≠ "") ∧
     (step = 2 →
      PromoSteps.access i ≠ "" ∧
      (PromoSteps.access i = "alternative" →
       PromoSteps.keyLocation i ≠ ""))).
Proof.
  assert (∀ r, filledIn r = true → typeId r ≠ "" ∧ sizeId r ≠ "") as Fi.
  { intros r. unfold filledIn.
    rewrite andb_true_iff, !negb_true_iff, !bool_decide_eq_false. tauto. }
  split; intros i; cbv zeta.
  - induction presses as [|p ps IH] using rev_ind.
    { cbn. repeat split; lia. }
    rewrite foldl_app. cbn [foldl].
    set (step := foldl (OfficeSteps.click i) 0 ps) in *.
    destruct IH as (B & I1 & I2 & I3).
    destruct p; cbn [OfficeSteps.click]; unfold OfficeSteps.goBack.
    2:{ split; [lia|]. split; [|split]; intros ?; [apply I1 | apply I2 |];
          lia. }
    unfold OfficeSteps.goNext.
    destruct (OfficeSteps.canNext i step) eqn:C; cbn [negb];
      [|exact (conj B (conj I1 (conj I2 I3)))].
    destruct ((step =? 2) && _) eqn:P;
      [exact (conj B (conj I1 (conj I2 I3)))|].
    unfold OfficeSteps.canNext in C.
    split; [lia|].
    destruct (Z.eqb_spec step 0) as [E0|N0].
    { apply andb_true_iff in C as [Cn Cc].
      apply negb_true_iff, bool_decide_eq_false in Cc.
      split; [|split; intros ?; lia]. intros _. split; [exact Cc|].
      destruct (OfficeSteps.roomsCount i) as [n|]; [|discriminate].
      exists n. split; [reflexivity | lia]. }
    destruct (Z.eqb_spec step 1) as [E1|N1].
    { split; [intros _; apply I1; lia|]. split; [|intros ?; lia].
      intros _. destruct (bool_decide_reflect
                            (OfficeSteps.roomsCount i = Some 0));
        [now left | right].
      apply Forall_forall. intros r Hr. apply Fi.
      rewrite forallb_forall in C. apply C. now apply list_elem_of_In. }
    destruct (Z.eqb_spec step 2) as [E2|N2].
    { cbn [andb] in P. apply bool_decide_eq_false in P.
      split; [intros _; apply I1; lia|].
      split; [intros _; apply I2; lia|]. intros _. exact P. }
    assert (step = 3) as E3 by lia.
    split; [intros _; apply I1; lia|].
    split; [intros _; apply I2; lia|]. intros _. now apply I3.
  - induction presses as [|p ps IH] using rev_ind.
    { cbn. repeat split; lia. }
    rewrite foldl_app. cbn [foldl].
    set (step := foldl (PromoSteps.click i) 0 ps) in *.
    destruct IH as (B & I1 & I2).
    destruct p; cbn [PromoSteps.click]; unfold PromoSteps.goBack.
    2:{ split; [lia|]. split; intros ?; [apply I1|]; lia. }
    unfold PromoSteps.goNext.
    destruct (PromoSteps.canNext i step) eqn:C; cbn [negb];
      [|exact (conj B (conj I1 I2))].
    unfold PromoSteps.canNext in C. split; [lia|].
    destruct (Z.eqb_spec step 0) as [E0|N0].
    { split; [|intros ?; lia]. intros _.
      apply Fi in C. unfold PromoSteps.singleRoom in C.
      destruct (PromoSteps.rooms i) as [|r rest]; cbn in C;
        [now destruct C|].
      now exists r, rest. }
    destruct (Z.eqb_spec step 1) as [E1|N1].
    { split; [intros _; apply I1; lia|]. intros _.
      apply andb_true_iff in C as [Ca Ck].
      apply negb_true_iff, bool_decide_eq_false in Ca.
      split; [exact Ca|]. intros Ealt.
      rewrite (bool_decide_eq_true_2 _ Ealt) in Ck. cbn in Ck.
      now apply negb_true_iff, bool_decide_eq_false in Ck. }
    assert (step = 2) as E2 by lia.
    split; [intros _; apply I1; lia|]. intros _. now apply I2.
Qed.

(** ** Rooms and the office quote *)

Lemma findWeight_missing (table : list (string * Q)) (id : string) :
  id ∉ table.*1 → findWeight table id = 0%Q.
Proof.
  unfold findWeight. induction table as [|[k w] table IH]; [reflexivity|].
  rewrite fmap_cons, not_elem_of_cons. intros [Ne Hn].
  cbn [List.find fst] in *.
  rewrite bool_decide_eq_false_2 by congruence. now apply IH.
Qed.

Lemma findWeight_nonneg (table : list (string * Q)) (id : string) :
  Forall (λ e, 0 <= e.2)%Q table → (0 <= findWeight table id)%Q.
Proof.
  unfold findWeight. induction 1 as [|[k w] table Hw F IH]; [discriminate|].
  cbn [List.find fst]. destruct (bool_decide (k = id)); [exact Hw|exact IH].
Qed.

Lemma roomHours_acc (w : Room → Q) (a : Q) (rooms : list Room) :
  (foldl (λ roomHours r, roomHours + w r) a rooms
   == a + foldl (λ roomHours r, roomHours + w r) 0 rooms)%Q.
Proof.
  revert a. induction rooms as [|r rooms IH]; intros a; cbn [foldl].
  - now rewrite Qplus_0_r.
  - rewrite IH, (IH (0 + _)%Q). ring.
Qed.

Lemma roomHours_insert (w : Room → Q) (rooms rest : list Room) (r : Room) :
  (foldl (λ roomHours r, roomHours + w r) 0 (rooms ++ r :: rest)
   == foldl (λ roomHours r, roomHours + w r) 0 (rooms ++ rest) + w r)%Q.
Proof.
  rewrite !foldl_app. cbn [foldl].
  rewrite roomHours_acc,
    (roomHours_acc w (foldl (λ roomHours r, roomHours + w r)%Q 0%Q rooms)
       rest).
  ring.
Qed.

Lemma or_zero_eq (x : Q) : (or_zero (Num x) == x)%Q.
Proof.
  unfold or_zero. destruct (Qeq_bool x 0) eqn:E; [|reflexivity].
  apply Qeq_bool_eq in E. now rewrite E.
Qed.

Lemma roundUpToHalf_eq (x y : Q) :
  (x == y)%Q → roundUpToHalf x = roundUpToHalf y.
Proof.
  intros E. unfold roundUpToHalf. do 2 f_equal.
  apply Qceiling_comp. now rewrite E.
Qed.

Lemma bathrooms_insert (rooms rest : list Room) (r : Room) :
  List.length
    (List.filter (λ r, bool_decide (typeId r = "bathroom"))
                 (rooms ++ r :: rest))
  = (List.length
       (List.filter (λ r, bool_decide (typeId r = "bathroom"))
                    (rooms ++ rest))
     + if bool_decide (typeId r = "bathroom") then 1 else 0)%nat.
Proof.
  rewrite !List.filter_app, !length_app. cbn [List.filter].
  destruct (bool_decide (typeId r = "bathroom")); cbn [List.length]; lia.
Qed.

Lemma cleanMult_positive (cleanliness : string) :
  (0 < cleanMult cleanliness)%Q.
Proof.
  unfold cleanMult, CLEAN_MULTIPLIER.
  repeat (destruct (bool_decide _); [reflexivity|]). reflexivity.
Qed.

Lemma round2_mono (x y : Q) : (x <= y)%Q → (round2 x <= round2 y)%Q.
Proof.
  intros L. unfold round2, Math_round.
  apply Qmult_le_compat_r; [|discriminate].
  rewrite <- Zle_Qle. apply Qfloor_resp_le.
  apply Qplus_le_l. apply Qmult_le_compat_r; [assumption|discriminate].
Qed.

(** X19.  A room without a listed size or type costs nothing on the
    office page, unless it is a toilet room: wherever it stands in the
    list, the quote is the one without it.  So the blank rooms that a
    larger room count adds leave the quote as it was. *)
Theorem unfinished_rooms_are_free (rooms rest : list Room)
    (extras : Extras) (form : Form) (date : option Z) :
  (∀ r, sizeId r ∉ OfficeClean.SIZE_OPTIONS.*1
        ∨ typeId r ∉ OfficeClean.ROOM_TYPES.*1 →
        typeId r ≠ "bathroom" →
        OfficeClean.pricing (rooms ++ r :: rest) extras form date
        = OfficeClean.pricing (rooms ++ rest) extras form date) ∧
  (∀ n, Z.of_nat (List.length rooms) ≤ n →
        OfficeClean.pricing (syncRooms (Some n) rooms) extras form date
        = OfficeClean.pricing rooms extras form date).
Proof.
  assert (∀ l1 l2 r,
            sizeId r ∉ OfficeClean.SIZE_OPTIONS.*1
            ∨ typeId r ∉ OfficeClean.ROOM_TYPES.*1 →
            typeId r ≠ "bathroom" →
            OfficeClean.pricing (l1 ++ r :: l2) extras form date
            = OfficeClean.pricing (l1 ++ l2) extras form date) as Free.
  { intros l1 l2 r Hw Hb. unfold OfficeClean.pricing. cbv zeta.
    rewrite bathrooms_insert, (bool_decide_eq_false_2 _ Hb), Nat.add_0_r.
    match goal with
    | |- context [roundUpToHalf (or_zero (Num ?x))] =>
        match x with
        | context [l1 ++ r :: l2] =>
            match goal with
            | |- context [roundUpToHalf (or_zero (Num ?y))] =>
                match y with
                | context [l1 ++ l2] =>
                    assert (roundUpToHalf (or_zero (Num x))
                            = roundUpToHalf (or_zero (Num y))) as ->
                end
            end
        end
    end; [|reflexivity].
    apply roundUpToHalf_eq. rewrite !or_zero_eq.
    rewrite (roomHours_insert
               (λ r, findWeight OfficeClean.SIZE_OPTIONS (sizeId r)
                     * findWeight OfficeClean.ROOM_TYPES (typeId r))%Q).
    destruct Hw as [Hs|Ht];
      [rewrite (findWeight_missing _ _ Hs)
      |rewrite (findWeight_missing _ _ Ht)]; ring. }
  split; [apply Free|].
  intros n Hn. unfold syncRooms. cbv zeta.
  destruct (Z.ltb_spec (Z.of_nat (List.length rooms)) n) as [L|L].
  - generalize (Z.to_nat (n - Z.of_nat (List.length rooms))). intros k.
    induction k as [|k IH]; cbn [replicate]; [now rewrite app_nil_r|].
    rewrite Free; [exact IH | left | discriminate].
    apply (bool_decide_unpack _). reflexivity.
  - destruct (Z.ltb_spec n (Z.of_nat (List.length rooms))); [lia|].
    reflexivity.
Qed.

(** X20.  A room more never lowers the base hours of the office quote,
    and it never takes the team away.  As long as it does not bring the
    team in, it lowers neither the hours charged nor the total; when it
    does bring the team in, hours and total can fall, as they do from
    four hours alone to three hours for two. *)
Theorem more_rooms_more_base_hours (rooms rest : list Room) (r : Room)
    (extras : Extras) (form : Form) (date : option Z) :
  let before := OfficeClean.pricing (rooms ++ rest) extras form date in
  let after := OfficeClean.pricing (rooms ++ r :: rest) extras form date in
  (baseEstimatedHours before <= baseEstimatedHours after)%Q ∧
  (teamApplied before = true → teamApplied after = true) ∧
  (teamApplied after = teamApplied before →
   (estimatedHours before <= estimatedHours after)%Q ∧
   (totalPrice before <= totalPrice after)%Q) ∧
  (let two := [ {| typeId := "open-plan"; sizeId := "xl" |};
                {| typeId := "private-office"; sizeId := "xl" |} ] in
   let third := {| typeId := "corridor"; sizeId := "s" |} in
   let q2 := OfficeClean.pricing two noExtras noAddress None in
   let q3 :=
     OfficeClean.pricing (two ++ [third]) noExtras noAddress None in
   teamApplied q2 = false ∧ teamApplied q3 = true ∧
   (estimatedHours q2 == 4)%Q ∧ (estimatedHours q3 == 3)%Q ∧
   (totalPrice q2 == 125)%Q ∧ (totalPrice q3 == 95)%Q).
Proof.
  cbv zeta.
  assert (baseEstimatedHours
            (OfficeClean.pricing (rooms ++ rest) extras form date)
          <= baseEstimatedHours
               (OfficeClean.pricing (rooms ++ r :: rest) extras form date))%Q
    as Base.
  { unfold OfficeClean.pricing. cbv zeta. cbn [baseEstimatedHours].
    apply Q.max_le_compat_l, roundUpToHalf_mono. rewrite !or_zero_eq.
    apply Qmult_le_compat_r; [|apply Qlt_le_weak, cleanMult_positive].
    apply Qplus_le_l. rewrite bathrooms_insert.
    rewrite (roomHours_insert
               (λ r, findWeight OfficeClean.SIZE_OPTIONS (sizeId r)
                     * findWeight OfficeClean.ROOM_TYPES (typeId r))%Q).
    assert (0 <= findWeight OfficeClean.SIZE_OPTIONS (sizeId r)
                 * findWeight OfficeClean.ROOM_TYPES (typeId r))%Q as W.
    { apply Qmult_le_0_compat; apply findWeight_nonneg;
        repeat constructor; discriminate. }
    set (w := (findWeight OfficeClean.SIZE_OPTIONS (sizeId r)
               * findWeight OfficeClean.ROOM_TYPES (typeId r))%Q) in *.
    set (h := foldl _ 0%Q (rooms ++ rest)).
    set (k := List.length _).
    assert (inject_Z (Z.of_nat k) * OfficeClean.PER_CUBICLE_HOURS
            <= inject_Z (Z.of_nat
                           (k + if bool_decide (typeId r = "bathroom")
                                then 1 else 0))
               * OfficeClean.PER_CUBICLE_HOURS)%Q as T.
    { apply Qmult_le_compat_r; [|discriminate].
      rewrite <- Zle_Qle. destruct (bool_decide _); lia. }
    apply Qplus_le_compat; [|exact T].
    rewrite <- (Qplus_0_r h) at 1. now apply Qplus_le_r. }
  split; [exact Base|].
  split; [|split; [|now vm_compute]]; revert Base;
    unfold OfficeClean.pricing; cbv zeta;
    cbn [baseEstimatedHours teamApplied estimatedHours totalPrice];
    set (b1 := Qmax OfficeClean.MIN_HOURS _);
    set (b2 := Qmax OfficeClean.MIN_HOURS _); intros Base.
  - rewrite !Qgtb_lt. intros L. eapply Qlt_le_trans; eassumption.
  - intros Et. rewrite Et.
    assert (Qmax OfficeClean.MIN_HOURS
              (roundUpToHalf
                 (if Qgtb b1 OfficeClean.TEAM_THRESHOLD_HOURS
                  then b1 / OfficeClean.TEAM_FACTOR else b1))
            <= Qmax OfficeClean.MIN_HOURS
                 (roundUpToHalf
                    (if Qgtb b1 OfficeClean.TEAM_THRESHOLD_HOURS
                     then b2 / OfficeClean.TEAM_FACTOR else b2)))%Q as Est.
    { apply Q.max_le_compat_l, roundUpToHalf_mono.
      destruct (Qgtb b1 _); [|exact Base].
      apply Qmult_le_compat_r; [exact Base | discriminate]. }
    split; [exact Est|]. apply round2_mono.
    do 2 apply Qplus_le_l. apply Qmult_le_compat_r; [exact Est|].
    destruct (isWeekend date); discriminate.
Qed.

(** ** Grouped room selections *)

Lemma sameRoom_key (g : RoomItem.t) (item : Room) :
  sameRoom g item = true ↔ groupKey g = roomKey item.
Proof.
  unfold sameRoom, groupKey, roomKey.
  rewrite andb_true_iff, !bool_decide_eq_true. split.
  - now intros [-> ->].
  - now intros [= -> ->].
Qed.

Lemma sameRoom_ext (g g' : RoomItem.t) (item : Room) :
  groupKey g = groupKey g' → sameRoom g item = sameRoom g' item.
Proof. unfold sameRoom, groupKey. now intros [= -> ->]. Qed.

Lemma groupStep_total (grouped : list RoomItem.t) (item : Room) :
  foldr Z.add 0 (RoomItem.count <$> groupStep grouped item)
  = foldr Z.add 0 (RoomItem.count <$> grouped) + 1.
Proof.
  induction grouped as [|g rest IH]; [reflexivity|]. cbn [groupStep].
  destruct (sameRoom g item); cbn [fmap list_fmap foldr RoomItem.count] in *;
    lia.
Qed.

(** With distinct keys, one iteration counts up the group of the room,
    or adds a group of one when there is none. *)
Lemma groupStep_distinct (grouped : list RoomItem.t) (item : Room) :
  NoDup (groupKey <$> grouped) →
  ((roomKey item ∉ groupKey <$> grouped) ∧
   groupStep grouped item
   = grouped ++ [ {| RoomItem.typeId := typeId item;
                     RoomItem.sizeId := sizeId item;
                     RoomItem.count := 1 |} ]) ∨
  (∃ before g after,
     grouped = before ++ g :: after ∧ groupKey g = roomKey item ∧
     (roomKey item ∉ groupKey <$> before) ∧
     (roomKey item ∉ groupKey <$> after) ∧
     groupStep grouped item
     = before ++ {| RoomItem.typeId := RoomItem.typeId g;
                    RoomItem.sizeId := RoomItem.sizeId g;
                    RoomItem.count := RoomItem.count g + 1 |} :: after).
Proof.
  induction grouped as [|g rest IH]; intros ND.
  - left. split; [apply not_elem_of_nil | reflexivity].
  - rewrite fmap_cons in ND. apply NoDup_cons in ND as [Hg ND].
    cbn [groupStep]. destruct (sameRoom g item) eqn:S.
    + right. apply sameRoom_key in S. exists [], g, rest.
      split; [reflexivity|]. split; [exact S|].
      split; [apply not_elem_of_nil|]. split; [now rewrite <- S|].
      reflexivity.
    + assert (groupKey g ≠ roomKey item) as Ne.
      { intros E. apply sameRoom_key in E. congruence. }
      destruct (IH ND) as [[Hn E]|(before & h & after & E & K & Hb & Ha & E')].
      * left. split; [|now rewrite E].
        rewrite fmap_cons, not_elem_of_cons. split; congruence.
      * right. exists (g :: before), h, after. rewrite E', E.
        split; [reflexivity|]. split; [exact K|]. split; [|now split].
        rewrite fmap_cons, not_elem_of_cons. split; congruence.
Qed.

Lemma filter_none {A} (p : A → bool) (l : list A) :
  (∀ x, x ∈ l → p x = false) → List.filter p l = [].
Proof.
  induction l as [|x l IH]; [reflexivity|]. intros All. cbn [List.filter].
  rewrite (All x) by apply list_elem_of_here.
  apply IH. intros y Hy. apply All. now apply list_elem_of_further.
Qed.

Lemma roomsOf_snoc (g : RoomItem.t) (items : list Room) (item : Room) :
  List.length (roomsOf g (items ++ [item]))
  = (List.length (roomsOf g items) + if sameRoom g item then 1 else 0)%nat.
Proof.
  unfold roomsOf. rewrite List.filter_app, length_app. cbn [List.filter].
  now destruct (sameRoom g item).
Qed.

(** X21.  [groupRoomSelections] partitions the rooms by type and size:
    the groups have distinct keys, every room has its group, the count
    of a group is the number of rooms with its type and size, which is
    at least one, and the counts add up to the number of rooms. *)
Theorem groupRoomSelections_counts (items : list Room) :
  let grouped := groupRoomSelections items in
  NoDup (groupKey <$> grouped) ∧
  (∀ item, item ∈ items → roomKey item ∈ groupKey <$> grouped) ∧
  (∀ g, g ∈ grouped →
        1 ≤ RoomItem.count g ∧
        RoomItem.count g = Z.of_nat (List.length (roomsOf g items))) ∧
  foldr Z.add 0 (RoomItem.count <$> grouped)
  = Z.of_nat (List.length items).
Proof.
  cbv zeta. unfold groupRoomSelections.
  induction items as [|item items IH] using rev_ind.
  { cbn. split; [constructor|]. split; [|split; [|reflexivity]].
    - intros item H. now apply elem_of_nil in H.
    - intros g H. now apply elem_of_nil in H. }
  rewrite foldl_app. cbn [foldl].
  set (grouped := foldl groupStep [] items) in *.
  destruct IH as (ND & Cover & Counts & Total).
  assert (∀ g, roomKey item ≠ groupKey g → sameRoom g item = false) as Other.
  { intros g Ne. destruct (sameRoom g item) eqn:S; [|reflexivity].
    apply sameRoom_key in S. congruence. }
  split; [|split; [|split]].
  - destruct (groupStep_distinct grouped item ND)
      as [[Hn ->]|(before & g & after & E & K & Hb & Ha & ->)].
    + rewrite fmap_app. apply NoDup_app. split; [exact ND|].
      split; [|apply NoDup_singleton].
      intros k Hk ->%list_elem_of_singleton. exact (Hn Hk).
    + rewrite E in ND. rewrite fmap_app, fmap_cons in ND |- *. exact ND.
  - intros x [Hx| ->%list_elem_of_singleton]%elem_of_app.
    + specialize (Cover x Hx).
      destruct (groupStep_distinct grouped item ND)
        as [[Hn ->]|(before & g & after & E & K & Hb & Ha & ->)].
      * rewrite fmap_app, elem_of_app. now left.
      * rewrite E in Cover. rewrite fmap_app, fmap_cons in Cover |- *.
        exact Cover.
    + destruct (groupStep_distinct grouped item ND)
        as [[Hn ->]|(before & g & after & E & K & Hb & Ha & ->)].
      * rewrite fmap_app, elem_of_app. right.
        apply list_elem_of_singleton. reflexivity.
      * rewrite fmap_app, fmap_cons, elem_of_app, elem_of_cons.
        right. left. now rewrite <- K.
  - intros g' Hg'. rewrite roomsOf_snoc.
    destruct (groupStep_distinct grouped item ND)
      as [[Hn E']|(before & g & after & E & K & Hb & Ha & E')];
      rewrite E' in Hg'.
    + apply elem_of_app in Hg' as [Hg'| ->%list_elem_of_singleton].
      * rewrite Other by
          (intros Ek; apply Hn; rewrite Ek; now apply list_elem_of_fmap_2).
        rewrite Nat.add_0_r. now apply Counts.
      * split; [cbn; lia|].
        rewrite (proj2 (sameRoom_key _ item)) by reflexivity.
        unfold roomsOf. rewrite filter_none; [reflexivity|].
        intros x Hx. apply not_true_is_false. intros S.
        apply sameRoom_key in S. apply Hn.
        change (roomKey item) with
          (groupKey {| RoomItem.typeId := typeId item;
                       RoomItem.sizeId := sizeId item;
                       RoomItem.count := 1 |}).
        rewrite S. now apply Cover.
    + assert (∀ h, h ∈ grouped → roomKey item ≠ groupKey h →
                   1 ≤ RoomItem.count h ∧
                   RoomItem.count h
                   = Z.of_nat (List.length (roomsOf h items)
                               + (if sameRoom h item then 1 else 0)))
        as Same.
      { intros h Hh Ne. rewrite (Other h Ne), Nat.add_0_r.
        now apply Counts. }
      apply elem_of_app in Hg' as [Hg'|Hg'].
      { apply Same.
        - rewrite E, elem_of_app. now left.
        - intros Ek. apply Hb. rewrite Ek. now apply list_elem_of_fmap_2. }
      apply elem_of_cons in Hg' as [->|Hg'].
      2:{ apply Same.
          - rewrite E, elem_of_app, elem_of_cons. right. now right.
          - intros Ek. apply Ha. rewrite Ek.
            now apply list_elem_of_fmap_2. }
      destruct (Counts g) as [Pos Cg];
        [rewrite E, elem_of_app, elem_of_cons; right; now left|].
      rewrite (proj2 (sameRoom_key _ item)) by exact K.
      change (roomsOf _ items) with (roomsOf g items).
      cbn [RoomItem.count]. lia.
  - rewrite groupStep_total, Total, length_app. cbn [List.length]. lia.
Qed.

(** ** Days beyond the scan *)

Lemma newDate_of_midnight (t : Z) :
  100 ≤ Date.getFullYear t → Date.TimeWithinDay t = 0 →
  newDate (Date.getFullYear t) (Date.getMonth t) (Date.getDate t) = t.
Proof.
  intros Hy H0. unfold newDate.
  replace ((0 <=? Date.getFullYear t) && (Date.getFullYear t <=? 99))
    with false
    by (symmetry; apply andb_false_iff; right; apply Z.leb_gt; lia).
  unfold Date.getFullYear, Date.getMonth, Date.getDate in *.
  pose proof (civil_MakeDay (Date.Day t)) as R.
  pose proof (civil_range (Date.Day t)) as G.
  destruct (Date.civil (Date.Day t)) as [[y m] d]. cbn [fst snd] in *.
  replace ((m - 1) / 12) with 0 by (Z.div_mod_to_equations; lia).
  replace ((m - 1) `mod` 12 + 1) with m by (Z.div_mod_to_equations; lia).
  rewrite Z.add_0_r, R.
  unfold Date.Day, Date.TimeWithinDay, Date.msPerDay in *.
  Z.div_mod_to_equations. lia.
Qed.

(** X22.  The scan for blocked days ends 60 days ahead, while the
    calendar reaches to the end of the third month ahead.  A day 60 or more days
    ahead is therefore never in the blocked set, whatever the roster,
    and a click on its cell selects it. *)
Theorem days_beyond_the_scan_stay_open `{Runtime} (now : Z)
    (db : Firestore) (st : PageState) (t : Z) :
  100 ≤ Date.getFullYear t → Date.TimeWithinDay t = 0 →
  Date.Day now + 60 ≤ Date.Day t →
  let scanned := computeBlockedDays now db st in
  (ymd t ∉ blockedDates scanned) ∧
  ∀ cell, Calendar.date cell = Some t →
          selectedDate (Calendar.clickCell now scanned cell) = Some t.
Proof.
  intros Hy H0 Hd scanned.
  assert (ymd t ∉ blockedDates scanned) as Open.
  { unfold scanned, computeBlockedDays. cbn [blockedDates].
    destruct (staffDocs db) as [staffSnap|e];
      cbn [mbind result_bind try_catch]; [|apply not_elem_of_empty].
    rewrite scan_membership.
    intros [Hn|(i & Hi & _ & E)]; [now apply not_elem_of_empty in Hn|].
    apply ymd_inj in E. rewrite scan_day in E.
    apply elem_of_seqZ in Hi. lia. }
  split; [exact Open|]. intros cell Ec.
  unfold Calendar.clickCell, Calendar.isBlocked, Calendar.isBeforeToday.
  rewrite Ec, (bool_decide_eq_false_2 _ Open).
  rewrite (newDate_of_midnight t Hy H0). cbn [orb].
  replace (t <? Calendar.today now) with false; [reflexivity|].
  symmetry. apply Z.ltb_ge. unfold Calendar.today.
  rewrite setHours_midnight.
  unfold Date.Day, Date.TimeWithinDay, Date.msPerDay in *.
  Z.div_mod_to_equations. lia.
Qed.

Lemma days_beyond_the_scan_witness :
  let H := decimalRuntime in
  let noStaff :=
    {| staffDocs := Ok []; unavailabilityDoc := λ _, Ok None;
       bookingDocs := λ _, Ok [] |} in
  let day60 := thursday + 57 * Date.msPerDay in
  selectedDate
    (Calendar.clickCell mondayMorning
       (computeBlockedDays mondayMorning noStaff (freshPage None ""))
       (dayCell day60 1))
  = Some day60.
Proof.
  intros H noStaff day60.
  refine (proj2 (@days_beyond_the_scan_stay_open H mondayMorning noStaff
                   (freshPage None "") day60 _ eq_refl _)
                (dayCell day60 1) eq_refl).
  - vm_compute. discriminate.
  - vm_compute. discriminate.
Defined.
